(** * EMA-8314 client library: a shallow embedding of [ema8314.py]

    The module drives a 4-channel temperature I/O card over UDP.  Every
    public function builds a request with [struct.pack], sends it with
    [SOCK.sendto], waits for one reply with [SOCK.recvfrom(34)], takes the
    reply apart with [struct.unpack] and returns the pair [(result, flag)].

    The embedding keeps that shape.  The module-level globals and the
    socket are an explicit [world]; each Python function is a computation
    in a state-and-exception monad over it; the parts of [struct], [bytes],
    [int] and [str] the module calls are written out as Rocq functions. *)

From Stdlib Require Import ZArith String Ascii DecimalString List Bool Lia.
Import ListNotations.
Open Scope string_scope.
Open Scope list_scope.
Open Scope Z_scope.

(** ** Python values and exceptions *)

(** A [bytes] object: its elements as integers, each in [0, 256). *)
Definition bytes := list Z.

(** The exceptions the module can raise.  [StructError] is [struct.error],
    [SocketTimeout] is [socket.timeout]. *)
Inductive exn : Set :=
| StructError
| UnboundLocalError
| OverflowError
| ValueError
| IndexError
| TypeError
| AttributeError
| SocketTimeout
| OSError.

Inductive result (A : Type) : Type :=
| Ok (a : A)
| Raise (e : exn).
Arguments Ok {A} a.
Arguments Raise {A} e.

(** A Python [float] is seen only through [struct]'s ['f'] code, which in
    native mode converts it to single precision by a C cast and back.  A
    float is therefore carried as the 4-byte image of that conversion
    ([Single], the 32-bit pattern); [TooLarge] stands for a finite float
    outside the single-precision range, with its sign: the cast does not
    raise, it gives the infinity of that sign.  The conversion between the
    two precisions quiets a signalling NaN, in both directions.  No
    arithmetic is ever done on temperatures by this module. *)
Inductive pyfloat : Set :=
| Single (bits : Z)
| TooLarge (negative : bool).

#[warnings="-register-all"]
Inductive pyval : Type :=
| VInt (n : Z)
| VStr (s : string)
| VBytes (b : bytes)
| VFloat (f : pyfloat)
| VTuple (items : list pyval).

(** ** Built-ins used by the module *)

Definition chr (n : Z) : string :=
  String (ascii_of_N (Z.to_N n)) EmptyString.

Definition code_point (a : ascii) : Z := Z.of_N (N_of_ascii a).

(** [bytes(s, "utf8")] for a [str] whose code points are below 256: one
    byte below 128, two bytes from there on. *)
Fixpoint utf8 (s : string) : bytes :=
  match s with
  | EmptyString => []
  | String a rest =>
      let c := code_point a in
      if c <? 128 then c :: utf8 rest
      else (192 + c / 64) :: (128 + c mod 64) :: utf8 rest
  end.

Inductive byteorder : Set := Little | Big.

Fixpoint le_bytes (len : nat) (n : Z) : bytes :=
  match len with
  | O => []
  | S k => n mod 256 :: le_bytes k (n / 256)
  end.

(** [n.to_bytes(len, order)], unsigned: a negative or too large [n] raises
    [OverflowError]. *)
Definition to_bytes (n : Z) (len : nat) (order : byteorder) : result bytes :=
  if n <? 0 then Raise OverflowError
  else if 256 ^ Z.of_nat len <=? n then Raise OverflowError
  else Ok (match order with
           | Little => le_bytes len n
           | Big => rev (le_bytes len n)
           end).

(** [ord(c)] of a [bytes] object of length one. *)
Definition ord (v : pyval) : result Z :=
  match v with
  | VBytes [b] => Ok b
  | _ => Raise TypeError
  end.

(** [str(n)] of an [int]. *)
Definition str (n : Z) : string :=
  if n <? 0
  then String.append "-" (NilZero.string_of_uint (N.to_uint (Z.to_N (- n))))
  else NilZero.string_of_uint (N.to_uint (Z.to_N n)).

(** [b[i]] on [bytes], with Python's negative indices. *)
Definition bytes_index (b : bytes) (i : Z) : result Z :=
  let len := Z.of_nat (length b) in
  let j := if i <? 0 then i + len else i in
  if (j <? 0) || (len <=? j) then Raise IndexError
  else Ok (nth (Z.to_nat j) b 0).

(** [t[i]] on a tuple or list, for a non-negative literal index. *)
Definition item {A : Type} (l : list A) (i : nat) : result A :=
  match nth_error l i with
  | Some x => Ok x
  | None => Raise IndexError
  end.

(** [v == b] where [b] is a [bytes] literal. *)
Fixpoint bytes_eqb (a b : bytes) : bool :=
  match a, b with
  | [], [] => true
  | x :: a', y :: b' => (x =? y) && bytes_eqb a' b'
  | _, _ => false
  end.

Definition eq_bytes (v : pyval) (b : bytes) : bool :=
  match v with
  | VBytes b' => bytes_eqb b' b
  | _ => false
  end.

(** [s.split(sep)] for a one-character separator. *)
Fixpoint split_on (sep : ascii) (s : string) : list string :=
  match s with
  | EmptyString => [EmptyString]
  | String a rest =>
      if Ascii.eqb a sep then EmptyString :: split_on sep rest
      else match split_on sep rest with
           | [] => [String a EmptyString]
           | h :: t => String a h :: t
           end
  end.

(** [int(s)] of a [str], base ten: surrounding white space is dropped, one
    sign is allowed, and single underscores may separate digits.  Anything
    else raises [ValueError].  The white space [int] drops is that of the C
    locale (code points 9 to 13 and 32) and, of the code points from 128
    on, the two that count as spaces (133 and 160); the separators 28 to
    31 are not dropped. *)
Definition is_space (a : ascii) : bool :=
  let c := code_point a in
  ((9 <=? c) && (c <=? 13)) || (c =? 32) || (c =? 133) || (c =? 160).

Definition is_digit (a : ascii) : bool :=
  let c := code_point a in (48 <=? c) && (c <=? 57).

Fixpoint lstrip (l : list ascii) : list ascii :=
  match l with
  | a :: rest => if is_space a then lstrip rest else l
  | [] => []
  end.

Definition strip (l : list ascii) : list ascii :=
  rev (lstrip (rev (lstrip l))).

Inductive digit_state : Set := AtStart | AfterDigit | AfterUnderscore.

Fixpoint digits (l : list ascii) (st : digit_state) (acc : Z) : option Z :=
  match l with
  | [] => match st with AfterDigit => Some acc | _ => None end
  | a :: rest =>
      if is_digit a then digits rest AfterDigit (10 * acc + (code_point a - 48))
      else if Ascii.eqb a "_"%char
           then match st with
                | AfterDigit => digits rest AfterUnderscore acc
                | _ => None
                end
           else None
  end.

Definition int_of_str (s : string) : result Z :=
  let body := strip (list_ascii_of_string s) in
  let signed :=
    match body with
    | a :: rest =>
        if Ascii.eqb a "-"%char then option_map Z.opp (digits rest AtStart 0)
        else if Ascii.eqb a "+"%char then digits rest AtStart 0
        else digits body AtStart 0
    | [] => None
    end in
  match signed with
  | Some n => Ok n
  | None => Raise ValueError
  end.

(** ** The [struct] module

    Formats are read in native mode (no byte-order prefix), as the module
    writes them: ['f'] is aligned on 4 bytes and ['h'] on 2, multi-byte
    values are in the byte order of the host, taken little-endian.  Only
    the codes the module uses are interpreted; any other character in a
    format is [struct.error]. *)

Inductive fmt_code : Set := Pad | Char | Str | Float32 | Short.

Definition fmt_item : Set := (nat * fmt_code)%type.

Definition code_of (a : ascii) : option fmt_code :=
  if Ascii.eqb a "x"%char then Some Pad
  else if Ascii.eqb a "c"%char then Some Char
  else if Ascii.eqb a "s"%char then Some Str
  else if Ascii.eqb a "f"%char then Some Float32
  else if Ascii.eqb a "h"%char then Some Short
  else None.

Fixpoint parse_format (l : list ascii) (count : option nat)
  : option (list fmt_item) :=
  match l with
  | [] => match count with None => Some [] | Some _ => None end
  | a :: rest =>
      if is_digit a
      then parse_format rest
             (Some (10 * match count with Some n => n | None => O end
                    + Z.to_nat (code_point a - 48))%nat)
      else match code_of a with
           | Some c =>
               option_map
                 (cons (match count with Some n => n | None => 1%nat end, c))
                 (parse_format rest None)
           | None => None
           end
  end.

Definition size_of (c : fmt_code) : nat :=
  match c with Float32 => 4 | Short => 2 | _ => 1 end.

Definition align_up (off a : nat) : nat :=
  (off + (a - off mod a) mod a)%nat.

Fixpoint calcsize_items (items : list fmt_item) (off : nat) : nat :=
  match items with
  | [] => off
  | (n, c) :: rest =>
      calcsize_items rest (align_up off (size_of c) + n * size_of c)%nat
  end.

Definition struct_calcsize (fmt : string) : result nat :=
  match parse_format (list_ascii_of_string fmt) None with
  | Some items => Ok (calcsize_items items 0)
  | None => Raise StructError
  end.

Fixpoint le_value (b : bytes) : Z :=
  match b with
  | [] => 0
  | x :: rest => x + 256 * le_value rest
  end.

(** The image of a single-precision value after a conversion: a NaN
    (exponent 255, fraction not 0) has its quiet bit set. *)
Definition quiet (bits : Z) : Z :=
  if ((bits / 8388608) mod 256 =? 255) && negb (bits mod 8388608 =? 0)
  then Z.lor bits 4194304
  else bits.

(** The image of [(float)x] for a Python float [x]. *)
Definition single_image (f : pyfloat) : Z :=
  match f with
  | Single bits => quiet bits
  | TooLarge negative => if negative then 0xFF800000 else 0x7F800000
  end.

Definition unpack_f (b : bytes) : pyval :=
  VFloat (Single (quiet (le_value b))).

Definition unpack_h (b : bytes) : pyval :=
  let v := le_value b in VInt (if 32768 <=? v then v - 65536 else v).

Fixpoint read_each (n sz : nat) (dec : bytes -> pyval) (b : bytes)
  : list pyval :=
  match n with
  | O => []
  | S k => dec (firstn sz b) :: read_each k sz dec (skipn sz b)
  end.

Definition unpack_item (c : fmt_code) (n : nat) (b : bytes) : list pyval :=
  match c with
  | Pad => []
  | Char => read_each n 1 VBytes b
  | Str => [VBytes (firstn n b)]
  | Float32 => read_each n 4 unpack_f b
  | Short => read_each n 2 unpack_h b
  end.

Fixpoint unpack_items (items : list fmt_item) (off : nat) (buf : bytes)
  : list pyval :=
  match items with
  | [] => []
  | (n, c) :: rest =>
      let start := align_up off (size_of c) in
      unpack_item c n (skipn start buf)
        ++ unpack_items rest (start + n * size_of c)%nat buf
  end.

(** [struct.unpack(fmt, buf)]: the buffer must have exactly the size of the
    format. *)
Definition struct_unpack (fmt : string) (buf : bytes) : result (list pyval) :=
  match parse_format (list_ascii_of_string fmt) None with
  | None => Raise StructError
  | Some items =>
      if Nat.eqb (length buf) (calcsize_items items 0)
      then Ok (unpack_items items 0 buf)
      else Raise StructError
  end.

Definition args_wanted (it : fmt_item) : nat :=
  match it with
  | (_, Pad) => 0
  | (_, Str) => 1
  | (n, _) => n
  end.

(** ['f'] in native mode: the C cast, which never raises. *)
Definition pack_f (f : pyfloat) : result bytes :=
  Ok (le_bytes 4 (single_image f)).

(** One argument under one code.  (Python also accepts an [int] under
    ['f']; every ['f'] argument here is a float parameter, and the case is
    left as [struct.error].) *)
Definition pack_one (c : fmt_code) (n : nat) (v : pyval) : result bytes :=
  match c, v with
  | Char, VBytes [b] => Ok [b]
  | Str, VBytes b => Ok (firstn n (b ++ repeat 0 n))
  | Float32, VFloat f => pack_f f
  | Short, VInt i =>
      if (i <? -32768) || (32767 <? i) then Raise StructError
      else Ok (le_bytes 2 (i mod 65536))
  | _, _ => Raise StructError
  end.

Fixpoint pack_each (c : fmt_code) (n : nat) (args : list pyval)
  : result (bytes * list pyval) :=
  match n with
  | O => Ok ([], args)
  | S k =>
      match args with
      | [] => Raise StructError
      | v :: more =>
          match pack_one c 1 v with
          | Raise e => Raise e
          | Ok b =>
              match pack_each c k more with
              | Raise e => Raise e
              | Ok (b', others) => Ok (b ++ b', others)
              end
          end
      end
  end.

Definition pack_item (it : fmt_item) (args : list pyval)
  : result (bytes * list pyval) :=
  match it with
  | (n, Pad) => Ok (repeat 0 n, args)
  | (n, Str) =>
      match args with
      | [] => Raise StructError
      | v :: more =>
          match pack_one Str n v with
          | Raise e => Raise e
          | Ok b => Ok (b, more)
          end
      end
  | (n, c) => pack_each c n args
  end.

Fixpoint pack_items (items : list fmt_item) (off : nat) (args : list pyval)
  : result bytes :=
  match items with
  | [] => Ok []
  | (n, c) :: rest =>
      let start := align_up off (size_of c) in
      match pack_item (n, c) args with
      | Raise e => Raise e
      | Ok (b, others) =>
          match pack_items rest (start + n * size_of c)%nat others with
          | Raise e => Raise e
          | Ok b' => Ok (repeat 0 (start - off) ++ b ++ b')
          end
      end
  end.

(** [struct.pack(fmt, *args)]: the number of arguments is checked first,
    then the arguments are converted from left to right. *)
Definition struct_pack (fmt : string) (args : list pyval) : result bytes :=
  match parse_format (list_ascii_of_string fmt) None with
  | None => Raise StructError
  | Some items =>
      if Nat.eqb (length args) (list_sum (map args_wanted items))
      then pack_items items 0 args
      else Raise StructError
  end.

(** ** The module state and the network

    [SOCK] is [None] while it still holds the placeholder [0] the module
    starts with; every method call on it then raises [AttributeError].
    The network is an oracle and a log: [wire_in] lists what each coming
    [recvfrom] will meet ([Some d]: datagram [d] arrives in time, [None]:
    the 5 second timeout expires), [sent] logs every datagram handed to
    [sendto] with its destination, and [rcvd] logs every byte string
    [recvfrom] handed back. *)

Record socket : Set := {
  bound_to : option (string * Z);
  timeout : Z;
  closed : bool
}.

Record world : Type := {
  HOSTIP : string;
  HOSTPORT : Z;
  TARGETIP : string;
  TARGETPORT : Z;
  PASSWORD : string;
  SOCK : option socket;
  sent : list (bytes * (string * Z));
  wire_in : list (option bytes);
  rcvd : list bytes
}.

Definition _CARDID : string := "EMA8314".

Definition default_password : string := "12345678".

(** Computations: a world in, a value or an exception and a world out. *)
Definition M (A : Type) : Type := world -> result A * world.

Definition ret {A : Type} (a : A) : M A := fun w => (Ok a, w).

Definition raise {A : Type} (e : exn) : M A := fun w => (Raise e, w).

Definition bind {A B : Type} (m : M A) (k : A -> M B) : M B :=
  fun w =>
    match m w with
    | (Ok a, w') => k a w'
    | (Raise e, w') => (Raise e, w')
    end.

Definition lift {A : Type} (r : result A) : M A := fun w => (r, w).

(** Reading a global. *)
Definition global {A : Type} (field : world -> A) : M A :=
  fun w => (Ok (field w), w).

(** Reading a local that may not have been assigned. *)
Definition local {A : Type} (x : option A) : M A :=
  lift (match x with
        | Some v => Ok v
        | None => Raise UnboundLocalError
        end).

Declare Scope monad_scope.
Delimit Scope monad_scope with monad.
Notation "x <- m ;; k" := (bind m (fun x => k))
  (at level 61, m at next level, right associativity) : monad_scope.
Notation "m ;; k" := (bind m (fun _ => k))
  (at level 61, right associativity) : monad_scope.
Open Scope monad_scope.

Definition port_ok (p : Z) : bool := (0 <=? p) && (p <=? 65535).

(** The world after one more datagram went out. *)
Definition log_sent (w : world) (data : bytes) (addr : string * Z) : world :=
  {| HOSTIP := HOSTIP w; HOSTPORT := HOSTPORT w;
     TARGETIP := TARGETIP w; TARGETPORT := TARGETPORT w;
     PASSWORD := PASSWORD w; SOCK := SOCK w;
     sent := sent w ++ [(data, addr)];
     wire_in := wire_in w; rcvd := rcvd w |}.

(** The world after one [recvfrom] returned: the oracle moves on, and the
    byte string handed back, if any, is logged. *)
Definition log_rcvd (w : world) (later : list (option bytes))
    (got : list bytes) : world :=
  {| HOSTIP := HOSTIP w; HOSTPORT := HOSTPORT w;
     TARGETIP := TARGETIP w; TARGETPORT := TARGETPORT w;
     PASSWORD := PASSWORD w; SOCK := SOCK w;
     sent := sent w;
     wire_in := later; rcvd := rcvd w ++ got |}.

(** [SOCK.sendto(data, (ip, port))]: the address is converted first, and a
    port outside [0, 65535] is refused with [OverflowError] before the
    socket is used, also on a closed socket; a host that does not resolve
    is not modelled. *)
Definition SOCK_sendto (data : bytes) (addr : string * Z) : M unit :=
  fun w =>
    match SOCK w with
    | None => (Raise AttributeError, w)
    | Some s =>
        if negb (port_ok (snd addr)) then (Raise OverflowError, w)
        else if closed s then (Raise OSError, w)
        else (Ok tt, log_sent w data addr)
    end.

(** [SOCK.recvfrom(bufsize)[0]]: the next datagram, cut to [bufsize] bytes
    as a datagram socket does, or [socket.timeout]. *)
Definition SOCK_recvfrom (bufsize : nat) : M bytes :=
  fun w =>
    match SOCK w with
    | None => (Raise AttributeError, w)
    | Some s =>
        if closed s then (Raise OSError, w)
        else match wire_in w with
             | Some d :: later =>
                 (Ok (firstn bufsize d), log_rcvd w later [firstn bufsize d])
             | None :: later => (Raise SocketTimeout, log_rcvd w later [])
             | [] => (Raise SocketTimeout, w)
             end
    end.

(** The destination every request is sent to: [(TARGETIP, TARGETPORT)]. *)
Definition target : M (string * Z) :=
  fun w => (Ok (TARGETIP w, TARGETPORT w), w).

(** ** Starting and closing *)

(** [init]: a new socket with address reuse and a 5 second timeout replaces
    [SOCK], is bound, and the five globals are set.  [bind] rejects a port
    outside [0, 65535] with [OverflowError], after [SOCK] was replaced;
    other failures of the operating system are not modelled.  [password]
    is [None] when the argument is left out. *)
Definition init (host_ip : string) (host_port : Z)
    (target_ip : string) (target_port : Z) (password : option string)
  : M unit :=
  fun w =>
    if negb (port_ok host_port)
    then (Raise OverflowError,
          {| HOSTIP := HOSTIP w; HOSTPORT := HOSTPORT w;
             TARGETIP := TARGETIP w; TARGETPORT := TARGETPORT w;
             PASSWORD := PASSWORD w;
             SOCK := Some {| bound_to := None; timeout := 5;
                             closed := false |};
             sent := sent w; wire_in := wire_in w; rcvd := rcvd w |})
    else (Ok tt,
          {| HOSTIP := host_ip; HOSTPORT := host_port;
             TARGETIP := target_ip; TARGETPORT := target_port;
             PASSWORD := match password with
                         | Some p => p
                         | None => default_password
                         end;
             SOCK := Some {| bound_to := Some (host_ip, host_port);
                             timeout := 5; closed := false |};
             sent := sent w; wire_in := wire_in w; rcvd := rcvd w |}).

Definition close_socket : M unit :=
  fun w =>
    match SOCK w with
    | None => (Raise AttributeError, w)
    | Some s =>
        (Ok tt,
         {| HOSTIP := HOSTIP w; HOSTPORT := HOSTPORT w;
            TARGETIP := TARGETIP w; TARGETPORT := TARGETPORT w;
            PASSWORD := PASSWORD w;
            SOCK := Some {| bound_to := bound_to s; timeout := timeout s;
                            closed := true |};
            sent := sent w; wire_in := wire_in w; rcvd := rcvd w |})
    end.

(** ** Configuration functions *)

(** 0x02 *)
Definition reboot_device : M (pyval * Z) :=
  password <- global PASSWORD ;;
  bytes_to_send <- lift (struct_pack "7s8sc"
    [VBytes (utf8 _CARDID); VBytes (utf8 password);
     VBytes (utf8 (chr 0x02))]) ;;
  addr <- target ;;
  SOCK_sendto bytes_to_send addr ;;
  msg0 <- SOCK_recvfrom 34 ;;
  parsed <- lift (struct_unpack "xxxxxxxxxxxxxxxxxxxxxxxxxxxxxxxxxx" msg0) ;;
  let result := VTuple parsed in
  flag <- lift (bytes_index msg0 (-2)) ;;
  ret (result, flag).

(** 0x03 *)
Definition change_socket_port (new_socket_port : Z) : M (pyval * Z) :=
  password <- global PASSWORD ;;
  port <- lift (to_bytes new_socket_port 2 Little) ;;
  bytes_to_send <- lift (struct_pack "7s8sc2s"
    [VBytes (utf8 _CARDID); VBytes (utf8 password);
     VBytes (utf8 (chr 0x03)); VBytes port]) ;;
  addr <- target ;;
  SOCK_sendto bytes_to_send addr ;;
  msg0 <- SOCK_recvfrom 34 ;;
  parsed <- lift (struct_unpack "xxxxxxxxxxxxxxxxxxxxxxxxxxxxxxxxxx" msg0) ;;
  let result := VTuple parsed in
  flag <- lift (bytes_index msg0 (-2)) ;;
  ret (result, flag).

(** 0x04 *)
Definition password_change (new_password : string) : M (pyval * Z) :=
  password <- global PASSWORD ;;
  bytes_to_send <- lift (struct_pack "7s8sc8s"
    [VBytes (utf8 _CARDID); VBytes (utf8 password);
     VBytes (utf8 (chr 0x04)); VBytes (utf8 new_password)]) ;;
  addr <- target ;;
  SOCK_sendto bytes_to_send addr ;;
  msg0 <- SOCK_recvfrom 34 ;;
  parsed <- lift (struct_unpack "xxxxxxxxxxxxxxxxxxxxxxxxxxxxxxxxxx" msg0) ;;
  let result := VTuple parsed in
  flag <- lift (bytes_index msg0 (-2)) ;;
  ret (result, flag).

(** 0x05 *)
Definition password_set_default : M (pyval * Z) :=
  password <- global PASSWORD ;;
  bytes_to_send <- lift (struct_pack "7s8sc"
    [VBytes (utf8 _CARDID); VBytes (utf8 password);
     VBytes (utf8 (chr 0x05))]) ;;
  addr <- target ;;
  SOCK_sendto bytes_to_send addr ;;
  msg0 <- SOCK_recvfrom 34 ;;
  parsed <- lift (struct_unpack "xxxxxxxxxxxxxxxxxxxxxxxxxxxxxxxxxx" msg0) ;;
  let result := VTuple parsed in
  flag <- lift (bytes_index msg0 (-2)) ;;
  ret (result, flag).

(** One turn of the loop of [change_ip]:
    [int(new_ip.split(".")[i]).to_bytes(1, "big")]. *)
Definition ip_octet (new_ip : string) (i : nat) : result bytes :=
  match item (split_on "."%char new_ip) i with
  | Raise e => Raise e
  | Ok part =>
      match int_of_str part with
      | Raise e => Raise e
      | Ok n => to_bytes n 1 Big
      end
  end.

(** 0x06 *)
Definition change_ip (new_ip : string) : M (pyval * Z) :=
  ip0 <- lift (ip_octet new_ip 0) ;;
  ip1 <- lift (ip_octet new_ip 1) ;;
  ip2 <- lift (ip_octet new_ip 2) ;;
  ip3 <- lift (ip_octet new_ip 3) ;;
  password <- global PASSWORD ;;
  bytes_to_send <- lift (struct_pack "7s8sccccc"
    [VBytes (utf8 _CARDID); VBytes (utf8 password);
     VBytes (utf8 (chr 0x06));
     VBytes ip0; VBytes ip1; VBytes ip2; VBytes ip3]) ;;
  addr <- target ;;
  SOCK_sendto bytes_to_send addr ;;
  msg0 <- SOCK_recvfrom 34 ;;
  parsed <- lift (struct_unpack "xxxxxxxxxxxxxxxxxxxxxxxxxxxxxxxxxx" msg0) ;;
  let result := VTuple parsed in
  flag <- lift (bytes_index msg0 (-2)) ;;
  ret (result, flag).

(** 0x07 *)
Definition firmware_version_read : M (pyval * Z) :=
  password <- global PASSWORD ;;
  bytes_to_send <- lift (struct_pack "7s8sc"
    [VBytes (utf8 _CARDID); VBytes (utf8 password);
     VBytes (utf8 (chr 0x07))]) ;;
  addr <- target ;;
  SOCK_sendto bytes_to_send addr ;;
  msg0 <- SOCK_recvfrom 34 ;;
  parsed <- lift (struct_unpack "xccxxxxxxxxxxxxxxxxxxxxxxxxxxxxxxx" msg0) ;;
  p0 <- lift (item parsed 0) ;;
  major <- lift (ord p0) ;;
  p1 <- lift (item parsed 1) ;;
  minor <- lift (ord p1) ;;
  let result :=
    VTuple [VStr (String.append (str major) (String.append "." (str minor)))] in
  flag <- lift (bytes_index msg0 (-2)) ;;
  ret (result, flag).

(** ** Output functions *)

(** The bit mask of four channel values, as every setter computes it:
    [(1 * b0) | (2 * b1) | (4 * b2) | (8 * b3)]. *)
Definition pack_bits (b0 b1 b2 b3 : Z) : Z :=
  Z.lor (Z.lor (Z.lor (1 * b0) (2 * b1)) (4 * b2)) (8 * b3).

(** The four channel values of a mask byte, as every reader computes them:
    [(x & 1, (x & 2) >> 1, (x & 4) >> 2, (x & 8) >> 3)]. *)
Definition unpack_bits (x : Z) : list Z :=
  [Z.land x 1;
   Z.shiftr (Z.land x 2) 1;
   Z.shiftr (Z.land x 4) 2;
   Z.shiftr (Z.land x 8) 3].

(** 0x30 *)
Definition output_set (output0 output1 output2 output3 : Z)
  : M (pyval * Z) :=
  let output := pack_bits output0 output1 output2 output3 in
  password <- global PASSWORD ;;
  mask <- lift (to_bytes output 1 Big) ;;
  bytes_to_send <- lift (struct_pack "7s8sccc"
    [VBytes (utf8 _CARDID); VBytes (utf8 password);
     VBytes (utf8 (chr 0x30)); VBytes (utf8 (chr 0x00)); VBytes mask]) ;;
  addr <- target ;;
  SOCK_sendto bytes_to_send addr ;;
  msg0 <- SOCK_recvfrom 34 ;;
  parsed <- lift (struct_unpack "xxxxxxxxxxxxxxxxxxxxxxxxxxxxxxxxxx" msg0) ;;
  let result := VTuple parsed in
  flag <- lift (bytes_index msg0 (-2)) ;;
  ret (result, flag).

(** 0x31 *)
Definition output_read : M (pyval * Z) :=
  password <- global PASSWORD ;;
  bytes_to_send <- lift (struct_pack "7s8sc"
    [VBytes (utf8 _CARDID); VBytes (utf8 password);
     VBytes (utf8 (chr 0x31))]) ;;
  addr <- target ;;
  SOCK_sendto bytes_to_send addr ;;
  msg0 <- SOCK_recvfrom 34 ;;
  parsed <- lift (struct_unpack "xcxxxxxxxxxxxxxxxxxxxxxxxxxxxxxxxx" msg0) ;;
  p0 <- lift (item parsed 0) ;;
  x <- lift (ord p0) ;;
  let result := VTuple (map VInt (unpack_bits x)) in
  flag <- lift (bytes_index msg0 (-2)) ;;
  ret (result, flag).

(** 0x32 in the comment of the source; the code byte packed is 0x30. *)
Definition output_mode_set
    (output_mode0 output_mode1 output_mode2 output_mode3 : Z)
  : M (pyval * Z) :=
  let output :=
    pack_bits output_mode0 output_mode1 output_mode2 output_mode3 in
  password <- global PASSWORD ;;
  mask <- lift (to_bytes output 1 Big) ;;
  bytes_to_send <- lift (struct_pack "7s8sccc"
    [VBytes (utf8 _CARDID); VBytes (utf8 password);
     VBytes (utf8 (chr 0x30)); VBytes (utf8 (chr 0x00)); VBytes mask]) ;;
  addr <- target ;;
  SOCK_sendto bytes_to_send addr ;;
  msg0 <- SOCK_recvfrom 34 ;;
  parsed <- lift (struct_unpack "xxxxxxxxxxxxxxxxxxxxxxxxxxxxxxxxxx" msg0) ;;
  let result := VTuple parsed in
  flag <- lift (bytes_index msg0 (-2)) ;;
  ret (result, flag).

(** 0x33 *)
Definition output_mode_read : M (pyval * Z) :=
  password <- global PASSWORD ;;
  bytes_to_send <- lift (struct_pack "7s8sc"
    [VBytes (utf8 _CARDID); VBytes (utf8 password);
     VBytes (utf8 (chr 0x33))]) ;;
  addr <- target ;;
  SOCK_sendto bytes_to_send addr ;;
  msg0 <- SOCK_recvfrom 34 ;;
  parsed <- lift (struct_unpack "xcxxxxxxxxxxxxxxxxxxxxxxxxxxxxxxxx" msg0) ;;
  p0 <- lift (item parsed 0) ;;
  x <- lift (ord p0) ;;
  let result := VTuple (map VInt (unpack_bits x)) in
  flag <- lift (bytes_index msg0 (-2)) ;;
  ret (result, flag).

(** ** Analog measurement functions *)

(** 0x50.  [unit] is assigned only under the two tests; it is a local that
    may be unbound when the result tuple is built. *)
Definition channel_temperature_read (channel : Z) : M (pyval * Z) :=
  password <- global PASSWORD ;;
  chan <- lift (to_bytes channel 1 Big) ;;
  bytes_to_send <- lift (struct_pack "7s8sccccc"
    [VBytes (utf8 _CARDID); VBytes (utf8 password);
     VBytes (utf8 (chr 0x50)); VBytes (utf8 (chr 0x00));
     VBytes (utf8 (chr 0x00)); VBytes (utf8 (chr 0x00)); VBytes chan]) ;;
  addr <- target ;;
  SOCK_sendto bytes_to_send addr ;;
  msg0 <- SOCK_recvfrom 34 ;;
  parsed <- lift (struct_unpack "xxxxfxxxxxxxxxxxxcxxxxxxxxxxxxx" msg0) ;;
  p1 <- lift (item parsed 1) ;;
  let unit : option string := None in
  let unit := if eq_bytes p1 [0x01] then Some "C" else unit in
  let unit := if eq_bytes p1 [0x02] then Some "F" else unit in
  p0 <- lift (item parsed 0) ;;
  unit' <- local unit ;;
  let result := VTuple [p0; VStr unit'] in
  flag <- lift (bytes_index msg0 (-2)) ;;
  ret (result, flag).

(** [l[i] = v] on a list. *)
Fixpoint assign {A : Type} (l : list A) (i : nat) (v : A) : list A :=
  match l, i with
  | [], _ => []
  | _ :: rest, O => v :: rest
  | x :: rest, S j => x :: assign rest j v
  end.

(** A [for] loop over the given indices, threading the variables the body
    assigns. *)
Fixpoint for_each {S : Type} (indices : list nat) (body : nat -> S -> M S)
    (s : S) : M S :=
  match indices with
  | [] => ret s
  | i :: later => s' <- body i s ;; for_each later body s'
  end.

(** 0x51.  [unit] starts as [[0, 0, 0, 0]]; a slot is overwritten only
    under the two tests. *)
Definition all_temperature_read : M (pyval * Z) :=
  password <- global PASSWORD ;;
  bytes_to_send <- lift (struct_pack "7s8sc"
    [VBytes (utf8 _CARDID); VBytes (utf8 password);
     VBytes (utf8 (chr 0x51))]) ;;
  addr <- target ;;
  SOCK_sendto bytes_to_send addr ;;
  msg0 <- SOCK_recvfrom 34 ;;
  let unit := [VInt 0; VInt 0; VInt 0; VInt 0] in
  parsed <- lift (struct_unpack "xxxxffffccccxxxxxxxxxx" msg0) ;;
  unit <- for_each [4; 5; 6; 7]%nat
    (fun i unit =>
       p <- lift (item parsed i) ;;
       let unit :=
         if eq_bytes p [0x01] then assign unit (i - 4) (VStr "C") else unit in
       let unit :=
         if eq_bytes p [0x02] then assign unit (i - 4) (VStr "F") else unit in
       ret unit)
    unit ;;
  t0 <- lift (item parsed 0) ;; u0 <- lift (item unit 0) ;;
  t1 <- lift (item parsed 1) ;; u1 <- lift (item unit 1) ;;
  t2 <- lift (item parsed 2) ;; u2 <- lift (item unit 2) ;;
  t3 <- lift (item parsed 3) ;; u3 <- lift (item unit 3) ;;
  let result := VTuple [t0; u0; t1; u1; t2; u2; t3; u3] in
  flag <- lift (bytes_index msg0 (-2)) ;;
  ret (result, flag).

(** ** Parameter functions *)

(** 0x52.  The arguments of [struct.pack] are evaluated from left to right:
    [channel.to_bytes] comes before the read of the local [unit]. *)
Definition channel_temperature_limit_set (channel : Z)
    (temperature_low temperature_high : pyfloat) (temperature_unit : string)
  : M (pyval * Z) :=
  let unit : option bytes := None in
  let unit := if String.eqb temperature_unit "C" then Some [0x01] else unit in
  let unit := if String.eqb temperature_unit "F" then Some [0x02] else unit in
  password <- global PASSWORD ;;
  chan <- lift (to_bytes channel 1 Big) ;;
  unit' <- local unit ;;
  bytes_to_send <- lift (struct_pack "7s8scccccffccccccccc"
    [VBytes (utf8 _CARDID); VBytes (utf8 password);
     VBytes (utf8 (chr 0x52)); VBytes (utf8 (chr 0x00));
     VBytes (utf8 (chr 0x00)); VBytes (utf8 (chr 0x00)); VBytes chan;
     VFloat temperature_low; VFloat temperature_high;
     VBytes (utf8 (chr 0x00)); VBytes (utf8 (chr 0x00));
     VBytes (utf8 (chr 0x00)); VBytes (utf8 (chr 0x00));
     VBytes (utf8 (chr 0x00)); VBytes (utf8 (chr 0x00));
     VBytes (utf8 (chr 0x00)); VBytes (utf8 (chr 0x00));
     VBytes unit']) ;;
  addr <- target ;;
  SOCK_sendto bytes_to_send addr ;;
  msg0 <- SOCK_recvfrom 34 ;;
  parsed <- lift (struct_unpack "xxxxxxxxxxxxxxxxxxxxxxxxxxxxxxxxxx" msg0) ;;
  let result := VTuple parsed in
  flag <- lift (bytes_index msg0 (-2)) ;;
  ret (result, flag).

(** 0x53 *)
Definition channel_temperature_limit_read (channel : Z) : M (pyval * Z) :=
  password <- global PASSWORD ;;
  chan <- lift (to_bytes channel 1 Big) ;;
  bytes_to_send <- lift (struct_pack "7s8sccccc"
    [VBytes (utf8 _CARDID); VBytes (utf8 password);
     VBytes (utf8 (chr 0x53)); VBytes (utf8 (chr 0x00));
     VBytes (utf8 (chr 0x00)); VBytes (utf8 (chr 0x00)); VBytes chan]) ;;
  addr <- target ;;
  SOCK_sendto bytes_to_send addr ;;
  msg0 <- SOCK_recvfrom 34 ;;
  parsed <- lift (struct_unpack "xxxxffxxxxxxxxcxxxxxxxxxxxxx" msg0) ;;
  p2 <- lift (item parsed 2) ;;
  let unit : option string := None in
  let unit := if eq_bytes p2 [0x01] then Some "C" else unit in
  let unit := if eq_bytes p2 [0x02] then Some "F" else unit in
  p0 <- lift (item parsed 0) ;;
  p1 <- lift (item parsed 1) ;;
  unit' <- local unit ;;
  let result := VTuple [p0; p1; VStr unit'] in
  flag <- lift (bytes_index msg0 (-2)) ;;
  ret (result, flag).

(** [a + b] on the values the module adds: two ints or two tuples. *)
Definition py_add (a b : pyval) : result pyval :=
  match a, b with
  | VInt x, VInt y => Ok (VInt (x + y))
  | VTuple x, VTuple y => Ok (VTuple (x ++ y))
  | _, _ => Raise TypeError
  end.

(** 0x54.  Two requests, one per pair of channels.  [parsed] starts as
    [[0, 0]] and each reply is appended to it, so that
    [parsed[0] + parsed[1]] adds the two initial zeros.  [msg] is the reply
    of the last turn of the loop. *)
Definition all_temperature_limit_set
    (temperature_low0 temperature_high0 : pyfloat) (temperature_unit0 : string)
    (temperature_low1 temperature_high1 : pyfloat) (temperature_unit1 : string)
    (temperature_low2 temperature_high2 : pyfloat) (temperature_unit2 : string)
    (temperature_low3 temperature_high3 : pyfloat) (temperature_unit3 : string)
  : M (pyval * Z) :=
  let temp_units := [temperature_unit0; temperature_unit1;
                     temperature_unit2; temperature_unit3] in
  let temps_low := [temperature_low0; temperature_low1;
                    temperature_low2; temperature_low3] in
  let temps_high := [temperature_high0; temperature_high1;
                     temperature_high2; temperature_high3] in
  let unit := [VInt 0; VInt 0; VInt 0; VInt 0] in
  unit <- for_each [0; 1; 2; 3]%nat
    (fun i unit =>
       u <- lift (item temp_units i) ;;
       let unit :=
         if String.eqb u "C" then assign unit i (VBytes [0x01]) else unit in
       let unit :=
         if String.eqb u "F" then assign unit i (VBytes [0x02]) else unit in
       ret unit)
    unit ;;
  let parsed := [VInt 0; VInt 0] in
  loop <- for_each [0; 1]%nat
    (fun i (st : list pyval * option bytes) =>
       let parsed := fst st in
       password <- global PASSWORD ;;
       pair1 <- lift (to_bytes (Z.of_nat i) 1 Big) ;;
       pair2 <- lift (to_bytes (Z.of_nat i) 1 Big) ;;
       low_a <- lift (item temps_low (2 * i)) ;;
       high_a <- lift (item temps_high (2 * i)) ;;
       low_b <- lift (item temps_low (2 * i + 1)) ;;
       high_b <- lift (item temps_high (2 * i + 1)) ;;
       unit_a <- lift (item unit (2 * i)) ;;
       unit_b <- lift (item unit (2 * i + 1)) ;;
       bytes_to_send <- lift (struct_pack "7s8scccccffffcc"
         [VBytes (utf8 _CARDID); VBytes (utf8 password);
          VBytes (utf8 (chr 0x54)); VBytes (utf8 (chr 0x00)); VBytes pair1;
          VBytes (utf8 (chr 0x00)); VBytes pair2;
          VFloat low_a; VFloat high_a; VFloat low_b; VFloat high_b;
          unit_a; unit_b]) ;;
       addr <- target ;;
       SOCK_sendto bytes_to_send addr ;;
       msg0 <- SOCK_recvfrom 34 ;;
       fields <- lift
         (struct_unpack "xxxxxxxxxxxxxxxxxxxxxxxxxxxxxxxxxx" msg0) ;;
       ret (parsed ++ [VTuple fields], Some msg0))
    (parsed, None) ;;
  let parsed := fst loop in
  a <- lift (item parsed 0) ;;
  b <- lift (item parsed 1) ;;
  result <- lift (py_add a b) ;;
  msg0 <- local (snd loop) ;;
  flag <- lift (bytes_index msg0 (-2)) ;;
  ret (result, flag).

(** 0x55.  Two requests: channel pair 0, then channel pair 1. *)
Definition all_temperature_limit_read : M (pyval * Z) :=
  password <- global PASSWORD ;;
  bytes_to_send <- lift (struct_pack "7s8sccccc"
    [VBytes (utf8 _CARDID); VBytes (utf8 password);
     VBytes (utf8 (chr 0x55)); VBytes (utf8 (chr 0x00));
     VBytes (utf8 (chr 0x00)); VBytes (utf8 (chr 0x00));
     VBytes (utf8 (chr 0x00))]) ;;
  addr <- target ;;
  SOCK_sendto bytes_to_send addr ;;
  msg0 <- SOCK_recvfrom 34 ;;
  parsed1 <- lift (struct_unpack "xxxxffffccxxxxxxxxxxxx" msg0) ;;
  password <- global PASSWORD ;;
  bytes_to_send <- lift (struct_pack "7s8sccccc"
    [VBytes (utf8 _CARDID); VBytes (utf8 password);
     VBytes (utf8 (chr 0x55)); VBytes (utf8 (chr 0x00));
     VBytes (utf8 (chr 0x01)); VBytes (utf8 (chr 0x00));
     VBytes (utf8 (chr 0x01))]) ;;
  addr <- target ;;
  SOCK_sendto bytes_to_send addr ;;
  msg0 <- SOCK_recvfrom 34 ;;
  parsed2 <- lift (struct_unpack "xxxxffffccxxxxxxxxxxxx" msg0) ;;
  tu0 <- lift (item parsed1 4) ;;
  tu1 <- lift (item parsed1 5) ;;
  tu2 <- lift (item parsed2 4) ;;
  tu3 <- lift (item parsed2 5) ;;
  let temp_units := [tu0; tu1; tu2; tu3] in
  let unit := [VInt 0; VInt 0; VInt 0; VInt 0] in
  unit <- for_each [0; 1; 2; 3]%nat
    (fun i unit =>
       u <- lift (item temp_units i) ;;
       let unit :=
         if eq_bytes u [0x01] then assign unit i (VStr "C") else unit in
       let unit :=
         if eq_bytes u [0x02] then assign unit i (VStr "F") else unit in
       ret unit)
    unit ;;
  a0 <- lift (item parsed1 0) ;; a1 <- lift (item parsed1 1) ;;
  u0 <- lift (item unit 0) ;;
  a2 <- lift (item parsed1 2) ;; a3 <- lift (item parsed1 3) ;;
  u1 <- lift (item unit 1) ;;
  b0 <- lift (item parsed2 0) ;; b1 <- lift (item parsed2 1) ;;
  u2 <- lift (item unit 2) ;;
  b2 <- lift (item parsed2 2) ;; b3 <- lift (item parsed2 3) ;;
  u3 <- lift (item unit 3) ;;
  let result := VTuple [a0; a1; u0; a2; a3; u1; b0; b1; u2; b2; b3; u3] in
  flag <- lift (bytes_index msg0 (-2)) ;;
  ret (result, flag).

(** The literal handed to the 16-byte field of the two sensor-type setters.
    Its three line continuations keep the blank before the backslash and
    the 37 blanks that indent the next line, so it reads: four NUL, 38
    blanks, four NUL, 38 blanks, four NUL, 38 blanks, four NUL. *)
Definition nul4 : string :=
  String.append (chr 0) (String.append (chr 0) (String.append (chr 0) (chr 0))).

Definition blanks (n : nat) : string :=
  string_of_list_ascii (repeat " "%char n).

Definition reserved_literal : string :=
  String.append nul4 (String.append (blanks 38)
  (String.append nul4 (String.append (blanks 38)
  (String.append nul4 (String.append (blanks 38) nul4))))).

(** 0x56 *)
Definition channel_sensor_type_set (channel : Z) (sensor_type : string)
  : M (pyval * Z) :=
  let sensor : option bytes := None in
  let sensor := if String.eqb sensor_type "Pt-1000" then Some [0x01] else sensor in
  let sensor := if String.eqb sensor_type "Pt-100" then Some [0x02] else sensor in
  password <- global PASSWORD ;;
  chan <- lift (to_bytes channel 1 Big) ;;
  sensor' <- local sensor ;;
  bytes_to_send <- lift (struct_pack "7s8sccccc16sc"
    [VBytes (utf8 _CARDID); VBytes (utf8 password);
     VBytes (utf8 (chr 0x56)); VBytes (utf8 (chr 0x00));
     VBytes (utf8 (chr 0x00)); VBytes (utf8 (chr 0x00)); VBytes chan;
     VBytes (utf8 reserved_literal); VBytes sensor']) ;;
  addr <- target ;;
  SOCK_sendto bytes_to_send addr ;;
  msg0 <- SOCK_recvfrom 34 ;;
  parsed <- lift (struct_unpack "xxxxxxxxxxxxxxxxxxxxxxxxxxxxxxxxxx" msg0) ;;
  let result := VTuple parsed in
  flag <- lift (bytes_index msg0 (-2)) ;;
  ret (result, flag).

(** 0x57.  [sensor] starts as [0].  (The source also prints the reply on
    standard output, which is outside the model.) *)
Definition channel_sensor_type_read (channel : Z) : M (pyval * Z) :=
  password <- global PASSWORD ;;
  chan <- lift (to_bytes channel 1 Big) ;;
  bytes_to_send <- lift (struct_pack "7s8sccccc"
    [VBytes (utf8 _CARDID); VBytes (utf8 password);
     VBytes (utf8 (chr 0x57)); VBytes (utf8 (chr 0x00));
     VBytes (utf8 (chr 0x00)); VBytes (utf8 (chr 0x00)); VBytes chan]) ;;
  addr <- target ;;
  SOCK_sendto bytes_to_send addr ;;
  msg0 <- SOCK_recvfrom 34 ;;
  parsed <- lift (struct_unpack "xxxxxxxxxxxxxxxxxxxxcxxxxxxxxxxxxx" msg0) ;;
  let sensor := VInt 0 in
  p0 <- lift (item parsed 0) ;;
  let sensor := if eq_bytes p0 [0x01] then VStr "Pt-1000" else sensor in
  let sensor := if eq_bytes p0 [0x02] then VStr "Pt-100" else sensor in
  let result := VTuple [sensor] in
  flag <- lift (bytes_index msg0 (-2)) ;;
  ret (result, flag).

(** 0x58 *)
Definition all_sensor_type_set
    (sensor_type0 sensor_type1 sensor_type2 sensor_type3 : string)
  : M (pyval * Z) :=
  let sensor_types := [sensor_type0; sensor_type1;
                       sensor_type2; sensor_type3] in
  let sensor := [VInt 0; VInt 0; VInt 0; VInt 0] in
  sensor <- for_each [0; 1; 2; 3]%nat
    (fun i sensor =>
       t <- lift (item sensor_types i) ;;
       let sensor :=
         if String.eqb t "Pt-1000" then assign sensor i (VBytes [0x01])
         else sensor in
       let sensor :=
         if String.eqb t "Pt-100" then assign sensor i (VBytes [0x02])
         else sensor in
       ret sensor)
    sensor ;;
  password <- global PASSWORD ;;
  s0 <- lift (item sensor 0) ;;
  s1 <- lift (item sensor 1) ;;
  s2 <- lift (item sensor 2) ;;
  s3 <- lift (item sensor 3) ;;
  bytes_to_send <- lift (struct_pack "7s8sccccc16scccc"
    [VBytes (utf8 _CARDID); VBytes (utf8 password);
     VBytes (utf8 (chr 0x58)); VBytes (utf8 (chr 0x00));
     VBytes (utf8 (chr 0x00)); VBytes (utf8 (chr 0x00));
     VBytes (utf8 (chr 0x00));
     VBytes (utf8 reserved_literal); s0; s1; s2; s3]) ;;
  addr <- target ;;
  SOCK_sendto bytes_to_send addr ;;
  msg0 <- SOCK_recvfrom 34 ;;
  parsed <- lift (struct_unpack "xxxxxxxxxxxxxxxxxxxxxxxxxxxxxxxxxx" msg0) ;;
  let result := VTuple parsed in
  flag <- lift (bytes_index msg0 (-2)) ;;
  ret (result, flag).

(** 0x59 *)
Definition all_sensor_type_read : M (pyval * Z) :=
  password <- global PASSWORD ;;
  bytes_to_send <- lift (struct_pack "7s8sc"
    [VBytes (utf8 _CARDID); VBytes (utf8 password);
     VBytes (utf8 (chr 0x59))]) ;;
  addr <- target ;;
  SOCK_sendto bytes_to_send addr ;;
  msg0 <- SOCK_recvfrom 34 ;;
  parsed <- lift (struct_unpack "xxxxxxxxxxxxxxxxxxxxccccxxxxxxxxxx" msg0) ;;
  let sensor := [VInt 0; VInt 0; VInt 0; VInt 0] in
  sensor <- for_each [0; 1; 2; 3]%nat
    (fun i sensor =>
       p <- lift (item parsed i) ;;
       let sensor :=
         if eq_bytes p [0x01] then assign sensor i (VStr "Pt-1000")
         else sensor in
       let sensor :=
         if eq_bytes p [0x02] then assign sensor i (VStr "Pt-100")
         else sensor in
       ret sensor)
    sensor ;;
  s0 <- lift (item sensor 0) ;;
  s1 <- lift (item sensor 1) ;;
  s2 <- lift (item sensor 2) ;;
  s3 <- lift (item sensor 3) ;;
  let result := VTuple [s0; s1; s2; s3] in
  flag <- lift (bytes_index msg0 (-2)) ;;
  ret (result, flag).

(** 0x5A *)
Definition all_sensor_status_read : M (pyval * Z) :=
  password <- global PASSWORD ;;
  bytes_to_send <- lift (struct_pack "7s8sc"
    [VBytes (utf8 _CARDID); VBytes (utf8 password);
     VBytes (utf8 (chr 0x5A))]) ;;
  addr <- target ;;
  SOCK_sendto bytes_to_send addr ;;
  msg0 <- SOCK_recvfrom 34 ;;
  parsed <- lift (struct_unpack "xxxxxxxxxxxxxxxxxxxxxxxxcxxxxxxxxx" msg0) ;;
  p0 <- lift (item parsed 0) ;;
  x <- lift (ord p0) ;;
  let result := VTuple (map VInt (unpack_bits x)) in
  flag <- lift (bytes_index msg0 (-2)) ;;
  ret (result, flag).

(** ** Comparison functions *)

(** 0x5B *)
Definition control_status_read : M (pyval * Z) :=
  password <- global PASSWORD ;;
  bytes_to_send <- lift (struct_pack "7s8sc"
    [VBytes (utf8 _CARDID); VBytes (utf8 password);
     VBytes (utf8 (chr 0x5B))]) ;;
  addr <- target ;;
  SOCK_sendto bytes_to_send addr ;;
  msg0 <- SOCK_recvfrom 34 ;;
  parsed <- lift (struct_unpack "xxxxxxxxxxxxxxxxxxxxxxxxcxxxxxxxxx" msg0) ;;
  p0 <- lift (item parsed 0) ;;
  x <- lift (ord p0) ;;
  let result := VTuple [VInt (x - 1)] in
  flag <- lift (bytes_index msg0 (-2)) ;;
  ret (result, flag).

(** 0x5C *)
Definition control_enable : M (pyval * Z) :=
  password <- global PASSWORD ;;
  bytes_to_send <- lift (struct_pack "7s8sc"
    [VBytes (utf8 _CARDID); VBytes (utf8 password);
     VBytes (utf8 (chr 0x5C))]) ;;
  addr <- target ;;
  SOCK_sendto bytes_to_send addr ;;
  msg0 <- SOCK_recvfrom 34 ;;
  parsed <- lift (struct_unpack "xxxxxxxxxxxxxxxxxxxxxxxxxxxxxxxxxx" msg0) ;;
  let result := VTuple parsed in
  flag <- lift (bytes_index msg0 (-2)) ;;
  ret (result, flag).

(** 0x5D *)
Definition control_disable : M (pyval * Z) :=
  password <- global PASSWORD ;;
  bytes_to_send <- lift (struct_pack "7s8sc"
    [VBytes (utf8 _CARDID); VBytes (utf8 password);
     VBytes (utf8 (chr 0x5D))]) ;;
  addr <- target ;;
  SOCK_sendto bytes_to_send addr ;;
  msg0 <- SOCK_recvfrom 34 ;;
  parsed <- lift (struct_unpack "xxxxxxxxxxxxxxxxxxxxxxxxxxxxxxxxxx" msg0) ;;
  let result := VTuple parsed in
  flag <- lift (bytes_index msg0 (-2)) ;;
  ret (result, flag).

(** 0x5E *)
Definition control_mask_set
    (control_mask0 control_mask1 control_mask2 control_mask3 : Z)
  : M (pyval * Z) :=
  let control_mask :=
    pack_bits control_mask0 control_mask1 control_mask2 control_mask3 in
  password <- global PASSWORD ;;
  mask <- lift (to_bytes control_mask 1 Big) ;;
  bytes_to_send <- lift (struct_pack "7s8sccc"
    [VBytes (utf8 _CARDID); VBytes (utf8 password);
     VBytes (utf8 (chr 0x5E)); VBytes (utf8 (chr 0x00)); VBytes mask]) ;;
  addr <- target ;;
  SOCK_sendto bytes_to_send addr ;;
  msg0 <- SOCK_recvfrom 34 ;;
  parsed <- lift (struct_unpack "xxxxxxxxxxxxxxxxxxxxxxxxxxxxxxxxxx" msg0) ;;
  let result := VTuple parsed in
  flag <- lift (bytes_index msg0 (-2)) ;;
  ret (result, flag).

(** 0x5F *)
Definition control_mask_read : M (pyval * Z) :=
  password <- global PASSWORD ;;
  bytes_to_send <- lift (struct_pack "7s8sc"
    [VBytes (utf8 _CARDID); VBytes (utf8 password);
     VBytes (utf8 (chr 0x5F))]) ;;
  addr <- target ;;
  SOCK_sendto bytes_to_send addr ;;
  msg0 <- SOCK_recvfrom 34 ;;
  parsed <- lift (struct_unpack "xcxxxxxxxxxxxxxxxxxxxxxxxxxxxxxxxx" msg0) ;;
  p0 <- lift (item parsed 0) ;;
  x <- lift (ord p0) ;;
  let result := VTuple (map VInt (unpack_bits x)) in
  flag <- lift (bytes_index msg0 (-2)) ;;
  ret (result, flag).

(** 0x60 *)
Definition wdt_enable : M (pyval * Z) :=
  password <- global PASSWORD ;;
  bytes_to_send <- lift (struct_pack "7s8sc"
    [VBytes (utf8 _CARDID); VBytes (utf8 password);
     VBytes (utf8 (chr 0x60))]) ;;
  addr <- target ;;
  SOCK_sendto bytes_to_send addr ;;
  msg0 <- SOCK_recvfrom 34 ;;
  parsed <- lift (struct_unpack "xxxxxxxxxxxxxxxxxxxxxxxxxxxxxxxxxx" msg0) ;;
  let result := VTuple parsed in
  flag <- lift (bytes_index msg0 (-2)) ;;
  ret (result, flag).

(** 0x61 *)
Definition wdt_disable : M (pyval * Z) :=
  password <- global PASSWORD ;;
  bytes_to_send <- lift (struct_pack "7s8sc"
    [VBytes (utf8 _CARDID); VBytes (utf8 password);
     VBytes (utf8 (chr 0x61))]) ;;
  addr <- target ;;
  SOCK_sendto bytes_to_send addr ;;
  msg0 <- SOCK_recvfrom 34 ;;
  parsed <- lift (struct_unpack "xxxxxxxxxxxxxxxxxxxxxxxxxxxxxxxxxx" msg0) ;;
  let result := VTuple parsed in
  flag <- lift (bytes_index msg0 (-2)) ;;
  ret (result, flag).

(** 0x62.  [wait_time] goes under the ['h'] code, which takes an [int]. *)
Definition wdt_set
    (output_status0 output_status1 output_status2 output_status3 : Z)
    (wait_time : Z)
  : M (pyval * Z) :=
  let output_status :=
    pack_bits output_status0 output_status1 output_status2 output_status3 in
  password <- global PASSWORD ;;
  mask <- lift (to_bytes output_status 1 Big) ;;
  bytes_to_send <- lift (struct_pack "7s8schc"
    [VBytes (utf8 _CARDID); VBytes (utf8 password);
     VBytes (utf8 (chr 0x62)); VInt wait_time; VBytes mask]) ;;
  addr <- target ;;
  SOCK_sendto bytes_to_send addr ;;
  msg0 <- SOCK_recvfrom 34 ;;
  parsed <- lift (struct_unpack "xxxxxxxxxxxxxxxxxxxxxxxxxxxxxxxxxx" msg0) ;;
  let result := VTuple parsed in
  flag <- lift (bytes_index msg0 (-2)) ;;
  ret (result, flag).

(** 0x63 *)
Definition wdt_read : M (pyval * Z) :=
  password <- global PASSWORD ;;
  bytes_to_send <- lift (struct_pack "7s8sc"
    [VBytes (utf8 _CARDID); VBytes (utf8 password);
     VBytes (utf8 (chr 0x63))]) ;;
  addr <- target ;;
  SOCK_sendto bytes_to_send addr ;;
  msg0 <- SOCK_recvfrom 34 ;;
  parsed <- lift (struct_unpack "hccxxxxxxxxxxxxxxxxxxxxxxxxxxxxxx" msg0) ;;
  p1 <- lift (item parsed 1) ;;
  x <- lift (ord p1) ;;
  let outputs := unpack_bits x in
  o0 <- lift (item outputs 0) ;;
  o1 <- lift (item outputs 1) ;;
  o2 <- lift (item outputs 2) ;;
  o3 <- lift (item outputs 3) ;;
  p0 <- lift (item parsed 0) ;;
  p2 <- lift (item parsed 2) ;;
  status <- lift (ord p2) ;;
  let result :=
    VTuple [VInt o0; VInt o1; VInt o2; VInt o3; p0; VInt (status - 1)] in
  flag <- lift (bytes_index msg0 (-2)) ;;
  ret (result, flag).

(** 0x64 *)
Definition control_mode_set (channel mode : Z) : M (pyval * Z) :=
  password <- global PASSWORD ;;
  chan <- lift (to_bytes channel 1 Big) ;;
  mode' <- lift (to_bytes mode 1 Big) ;;
  bytes_to_send <- lift (struct_pack "7s8scccc"
    [VBytes (utf8 _CARDID); VBytes (utf8 password);
     VBytes (utf8 (chr 0x64)); VBytes (utf8 (chr 0x00));
     VBytes chan; VBytes mode']) ;;
  addr <- target ;;
  SOCK_sendto bytes_to_send addr ;;
  msg0 <- SOCK_recvfrom 34 ;;
  parsed <- lift (struct_unpack "xxxxxxxxxxxxxxxxxxxxxxxxxxxxxxxxxx" msg0) ;;
  let result := VTuple parsed in
  flag <- lift (bytes_index msg0 (-2)) ;;
  ret (result, flag).

(** 0x65 *)
Definition control_mode_read (channel : Z) : M (pyval * Z) :=
  password <- global PASSWORD ;;
  chan <- lift (to_bytes channel 1 Big) ;;
  bytes_to_send <- lift (struct_pack "7s8sccc"
    [VBytes (utf8 _CARDID); VBytes (utf8 password);
     VBytes (utf8 (chr 0x65)); VBytes (utf8 (chr 0x00)); VBytes chan]) ;;
  addr <- target ;;
  SOCK_sendto bytes_to_send addr ;;
  msg0 <- SOCK_recvfrom 34 ;;
  parsed <- lift (struct_unpack "xxcxxxxxxxxxxxxxxxxxxxxxxxxxxxxxxx" msg0) ;;
  p0 <- lift (item parsed 0) ;;
  mode <- lift (ord p0) ;;
  let result := VTuple [VInt mode] in
  flag <- lift (bytes_index msg0 (-2)) ;;
  ret (result, flag).

(** ** The catalog

    One constructor per public command function, with its arguments. *)
Inductive command : Type :=
| Reboot_device
| Change_socket_port (new_socket_port : Z)
| Password_change (new_password : string)
| Password_set_default
| Change_ip (new_ip : string)
| Firmware_version_read
| Output_set (output0 output1 output2 output3 : Z)
| Output_read
| Output_mode_set (output_mode0 output_mode1 output_mode2 output_mode3 : Z)
| Output_mode_read
| Channel_temperature_read (channel : Z)
| All_temperature_read
| Channel_temperature_limit_set (channel : Z)
    (temperature_low temperature_high : pyfloat) (temperature_unit : string)
| Channel_temperature_limit_read (channel : Z)
| All_temperature_limit_set
    (low0 high0 : pyfloat) (unit0 : string)
    (low1 high1 : pyfloat) (unit1 : string)
    (low2 high2 : pyfloat) (unit2 : string)
    (low3 high3 : pyfloat) (unit3 : string)
| All_temperature_limit_read
| Channel_sensor_type_set (channel : Z) (sensor_type : string)
| Channel_sensor_type_read (channel : Z)
| All_sensor_type_set (sensor_type0 sensor_type1 sensor_type2 sensor_type3 : string)
| All_sensor_type_read
| All_sensor_status_read
| Control_status_read
| Control_enable
| Control_disable
| Control_mask_set (control_mask0 control_mask1 control_mask2 control_mask3 : Z)
| Control_mask_read
| Wdt_enable
| Wdt_disable
| Wdt_set (output_status0 output_status1 output_status2 output_status3 : Z)
    (wait_time : Z)
| Wdt_read
| Control_mode_set (channel mode : Z)
| Control_mode_read (channel : Z).

Definition call (c : command) : M (pyval * Z) :=
  match c with
  | Reboot_device => reboot_device
  | Change_socket_port p => change_socket_port p
  | Password_change p => password_change p
  | Password_set_default => password_set_default
  | Change_ip ip => change_ip ip
  | Firmware_version_read => firmware_version_read
  | Output_set a b c d => output_set a b c d
  | Output_read => output_read
  | Output_mode_set a b c d => output_mode_set a b c d
  | Output_mode_read => output_mode_read
  | Channel_temperature_read ch => channel_temperature_read ch
  | All_temperature_read => all_temperature_read
  | Channel_temperature_limit_set ch lo hi u =>
      channel_temperature_limit_set ch lo hi u
  | Channel_temperature_limit_read ch => channel_temperature_limit_read ch
  | All_temperature_limit_set l0 h0 u0 l1 h1 u1 l2 h2 u2 l3 h3 u3 =>
      all_temperature_limit_set l0 h0 u0 l1 h1 u1 l2 h2 u2 l3 h3 u3
  | All_temperature_limit_read => all_temperature_limit_read
  | Channel_sensor_type_set ch t => channel_sensor_type_set ch t
  | Channel_sensor_type_read ch => channel_sensor_type_read ch
  | All_sensor_type_set a b c d => all_sensor_type_set a b c d
  | All_sensor_type_read => all_sensor_type_read
  | All_sensor_status_read => all_sensor_status_read
  | Control_status_read => control_status_read
  | Control_enable => control_enable
  | Control_disable => control_disable
  | Control_mask_set a b c d => control_mask_set a b c d
  | Control_mask_read => control_mask_read
  | Wdt_enable => wdt_enable
  | Wdt_disable => wdt_disable
  | Wdt_set a b c d t => wdt_set a b c d t
  | Wdt_read => wdt_read
  | Control_mode_set ch m => control_mode_set ch m
  | Control_mode_read ch => control_mode_read ch
  end.

(** * Vocabulary of the properties *)

(** ** Sessions and replies *)

(** The socket exists and is open, and the target port is one [sendto]
    accepts. *)
Definition session_open (w : world) : Prop :=
  (exists s, SOCK w = Some s /\ closed s = false)
  /\ port_ok (TARGETPORT w) = true.

(** The 15 bytes every request starts with: the card identifier in 7 bytes
    and the password in 8, each cut or zero-padded to its width. *)
Definition header (w : world) : bytes :=
  firstn 7 (utf8 _CARDID ++ repeat 0 7)
  ++ firstn 8 (utf8 (PASSWORD w) ++ repeat 0 8).

(** A session as the logging script opens it, and a reply of 34 bytes that
    is zero except at the listed offsets. *)
Definition sample_session (incoming : list (option bytes)) : world :=
  {| HOSTIP := "192.168.1.10"; HOSTPORT := 17120;
     TARGETIP := "192.168.1.20"; TARGETPORT := 6936;
     PASSWORD := default_password;
     SOCK := Some {| bound_to := Some ("192.168.1.10", 17120);
                     timeout := 5; closed := false |};
     sent := []; wire_in := incoming; rcvd := [] |}.

Definition frame (fields : list (nat * Z)) : bytes :=
  map (fun i =>
         match find (fun f => Nat.eqb (fst f) i) fields with
         | Some f => snd f
         | None => 0
         end)
      (seq 0 34).

(** What the all-channel readers leave in a unit slot for unit byte [x]:
    the slot starts as [0] and is overwritten only for 0x01 and 0x02. *)
Definition unit_slot (x : Z) : pyval :=
  if x =? 1 then VStr "C" else if x =? 2 then VStr "F" else VInt 0.

(** The two (low, high, unit) triples one reply to command 0x55 carries:
    four floats from offset 4 on, two unit bytes at offsets 20 and 21. *)
Definition limit_triples (d : bytes) : list pyval :=
  [unpack_f (firstn 4 (skipn 4 d)); unpack_f (firstn 4 (skipn 8 d));
   unit_slot (nth 20 d 0);
   unpack_f (firstn 4 (skipn 12 d)); unpack_f (firstn 4 (skipn 16 d));
   unit_slot (nth 21 d 0)].

(** The request of command 0x54 for channel pair [i]: the pair selector
    twice, the four limits of the two channels as single-precision images,
    and their two unit bytes. *)
Definition limit_request (w : world) (i : Z)
    (low_a high_a low_b high_b : Z) (unit_a unit_b : Z) : bytes :=
  header w ++ [0x54; 0x00; i; 0x00; i]
  ++ le_bytes 4 low_a ++ le_bytes 4 high_a
  ++ le_bytes 4 low_b ++ le_bytes 4 high_b
  ++ [unit_a; unit_b].

(** The byte the setters send for a unit string among "C" and "F". *)
Definition unit_code (u : string) : Z :=
  if String.eqb u "C" then 0x01 else 0x02.

(** The reply formats of the module, as written at its [struct.unpack]
    calls: no fields, firmware version, channel mask at offset 1, one
    temperature, four temperatures, one channel's limits, a pair of
    channels' limits, one sensor type, four sensor types, one byte at
    offset 24, watchdog, control mode. *)
Definition reply_formats : list string :=
  ["xxxxxxxxxxxxxxxxxxxxxxxxxxxxxxxxxx";
   "xccxxxxxxxxxxxxxxxxxxxxxxxxxxxxxxx";
   "xcxxxxxxxxxxxxxxxxxxxxxxxxxxxxxxxx";
   "xxxxfxxxxxxxxxxxxcxxxxxxxxxxxxx";
   "xxxxffffccccxxxxxxxxxx";
   "xxxxffxxxxxxxxcxxxxxxxxxxxxx";
   "xxxxffffccxxxxxxxxxxxx";
   "xxxxxxxxxxxxxxxxxxxxcxxxxxxxxxxxxx";
   "xxxxxxxxxxxxxxxxxxxxccccxxxxxxxxxx";
   "xxxxxxxxxxxxxxxxxxxxxxxxcxxxxxxxxx";
   "hccxxxxxxxxxxxxxxxxxxxxxxxxxxxxxx";
   "xxcxxxxxxxxxxxxxxxxxxxxxxxxxxxxxxx"].

(** ** What one call leaves behind

    [run_summary w w' sends msgs]: between [w] and [w'] the globals and the
    socket did not change, [sends] went out, all to the target of [w], and
    [msgs] came in. *)

Record run_summary (w w' : world) (sends : list (bytes * (string * Z)))
    (msgs : list bytes) : Prop := {
  rs_hostip : HOSTIP w' = HOSTIP w;
  rs_hostport : HOSTPORT w' = HOSTPORT w;
  rs_targetip : TARGETIP w' = TARGETIP w;
  rs_targetport : TARGETPORT w' = TARGETPORT w;
  rs_password : PASSWORD w' = PASSWORD w;
  rs_sock : SOCK w' = SOCK w;
  rs_sent : sent w' = sent w ++ sends;
  rs_rcvd : rcvd w' = rcvd w ++ msgs;
  rs_addr : Forall (fun x => snd x = (TARGETIP w, TARGETPORT w)) sends
}.

(** The outcome of any command: what went out and came in, that a reply of
    a wrong size ends in [struct.error], and that a returned pair stems
    from replies of 34 bytes, the flag being byte 32 of the last one. *)
Definition call_outcome (w : world) (res : result (pyval * Z)) (w' : world)
  : Prop :=
  exists sends msgs,
    run_summary w w' sends msgs
    /\ (length msgs <= length sends)%nat
    /\ (Exists (fun m => length m <> 34%nat) msgs -> res = Raise StructError)
    /\ (forall r flag, res = Ok (r, flag) ->
          msgs <> []
          /\ Forall (fun m => length m = 34%nat) msgs
          /\ flag = nth 32 (last msgs []) 0
          /\ length sends = length msgs).

(** ** What one call takes from the wire

    [wire_read w w' datagrams]: between [w] and [w'] the [datagrams] were
    taken from the wire, in order, and each was handed over cut to its
    first 34 bytes.  [wire_used] allows in addition that the wait for one
    more datagram has timed out. *)
Definition wire_read (w w' : world) (datagrams : list bytes) : Prop :=
  rcvd w' = rcvd w ++ map (firstn 34) datagrams
  /\ wire_in w = map Some datagrams ++ wire_in w'.

Definition wire_used (w w' : world) (datagrams : list bytes) : Prop :=
  rcvd w' = rcvd w ++ map (firstn 34) datagrams
  /\ (wire_in w = map Some datagrams ++ wire_in w'
      \/ wire_in w = map Some datagrams ++ None :: wire_in w').

(** ** Vocabulary of the request layout and of the single commands *)

(** The command byte each function puts at offset 15 of its requests. *)
Definition wire_code (c : command) : Z :=
  match c with
  | Reboot_device => 0x02
  | Change_socket_port _ => 0x03
  | Password_change _ => 0x04
  | Password_set_default => 0x05
  | Change_ip _ => 0x06
  | Firmware_version_read => 0x07
  | Output_set _ _ _ _ => 0x30
  | Output_read => 0x31
  | Output_mode_set _ _ _ _ => 0x30
  | Output_mode_read => 0x33
  | Channel_temperature_read _ => 0x50
  | All_temperature_read => 0x51
  | Channel_temperature_limit_set _ _ _ _ => 0x52
  | Channel_temperature_limit_read _ => 0x53
  | All_temperature_limit_set _ _ _ _ _ _ _ _ _ _ _ _ => 0x54
  | All_temperature_limit_read => 0x55
  | Channel_sensor_type_set _ _ => 0x56
  | Channel_sensor_type_read _ => 0x57
  | All_sensor_type_set _ _ _ _ => 0x58
  | All_sensor_type_read => 0x59
  | All_sensor_status_read => 0x5A
  | Control_status_read => 0x5B
  | Control_enable => 0x5C
  | Control_disable => 0x5D
  | Control_mask_set _ _ _ _ => 0x5E
  | Control_mask_read => 0x5F
  | Wdt_enable => 0x60
  | Wdt_disable => 0x61
  | Wdt_set _ _ _ _ _ => 0x62
  | Wdt_read => 0x63
  | Control_mode_set _ _ => 0x64
  | Control_mode_read _ => 0x65
  end.

(** The size of the requests of each function: the 16 bytes of identifier,
    password and command byte, and the payload of its pack format. *)
Definition request_size (c : command) : nat :=
  match c with
  | Reboot_device | Password_set_default | Firmware_version_read
  | Output_read | Output_mode_read | All_temperature_read
  | All_sensor_type_read | All_sensor_status_read | Control_status_read
  | Control_enable | Control_disable | Control_mask_read
  | Wdt_enable | Wdt_disable | Wdt_read => 16
  | Change_socket_port _ | Output_set _ _ _ _ | Output_mode_set _ _ _ _
  | Control_mask_set _ _ _ _ | Control_mode_read _ => 18
  | Wdt_set _ _ _ _ _ | Control_mode_set _ _ => 19
  | Change_ip _ | Channel_temperature_read _
  | Channel_temperature_limit_read _ | All_temperature_limit_read
  | Channel_sensor_type_read _ => 20
  | Password_change _ => 24
  | Channel_temperature_limit_set _ _ _ _ | Channel_sensor_type_set _ _ => 37
  | All_temperature_limit_set _ _ _ _ _ _ _ _ _ _ _ _ => 38
  | All_sensor_type_set _ _ _ _ => 40
  end.

(** The two commands that address the channels in pairs. *)
Definition is_pair_command (c : command) : bool :=
  match c with
  | All_temperature_limit_set _ _ _ _ _ _ _ _ _ _ _ _ => true
  | All_temperature_limit_read => true
  | _ => false
  end.

(** No usable socket: [SOCK] still holds the placeholder, or the socket
    was closed. *)
Definition no_socket (w : world) : Prop :=
  SOCK w = None \/ exists s, SOCK w = Some s /\ closed s = true.

(** The number of request/reply exchanges of a completed call. *)
Definition round_trips (c : command) : nat :=
  if is_pair_command c then 2 else 1.

(** The world after one exchange: request [r] went to the target, reply
    [d] came back. *)
Definition exchanged (w : world) (r d : bytes) (later : list (option bytes))
  : world :=
  log_rcvd (log_sent w r (TARGETIP w, TARGETPORT w)) later [d].

(** The commands that take no argument and read no field, with their
    command byte. *)
Definition bare_code (c : command) : option Z :=
  match c with
  | Reboot_device => Some 0x02
  | Password_set_default => Some 0x05
  | Control_enable => Some 0x5C
  | Control_disable => Some 0x5D
  | Wdt_enable => Some 0x60
  | Wdt_disable => Some 0x61
  | _ => None
  end.

(** The readers of a channel mask, with the offset of the mask byte in the
    reply. *)
Definition mask_offset (c : command) : option nat :=
  match c with
  | Output_read => Some 1%nat
  | Output_mode_read => Some 1%nat
  | All_sensor_status_read => Some 24%nat
  | Control_mask_read => Some 1%nat
  | _ => None
  end.

(** What the sensor-type readers make of a sensor byte: the slot starts as
    [0] and is overwritten only for 0x01 and 0x02. *)
Definition sensor_slot (x : Z) : pyval :=
  if x =? 1 then VStr "Pt-1000" else if x =? 2 then VStr "Pt-100" else VInt 0.

(** The unit string the single-channel readers bind for a unit byte, if
    any. *)
Definition unit_name (x : Z) : option string :=
  if x =? 2 then Some "F" else if x =? 1 then Some "C" else None.

(** The channel argument of the commands that take one. *)
Definition channel_of (c : command) : option Z :=
  match c with
  | Channel_temperature_read ch => Some ch
  | Channel_temperature_limit_set ch _ _ _ => Some ch
  | Channel_temperature_limit_read ch => Some ch
  | Channel_sensor_type_set ch _ => Some ch
  | Channel_sensor_type_read ch => Some ch
  | Control_mode_set ch _ => Some ch
  | Control_mode_read ch => Some ch
  | _ => None
  end.

(** The unit strings and sensor types the setters test for. *)
Definition unit_known (u : string) : bool :=
  String.eqb u "C" || String.eqb u "F".

Definition sensor_known (t : string) : bool :=
  String.eqb t "Pt-1000" || String.eqb t "Pt-100".

(** The byte the setters send for a sensor type among "Pt-1000" and
    "Pt-100". *)
Definition sensor_code (t : string) : Z :=
  if String.eqb t "Pt-1000" then 0x01 else 0x02.

(** The 16 bytes the sensor-type setters send between the channel and the
    sensor bytes: the first 16 bytes of [reserved_literal]. *)
Definition reserved16 : bytes := [0; 0; 0; 0] ++ repeat 0x20 12.

(** The integers that fit the one byte of [to_bytes(1, ...)]. *)
Definition byte_ok (n : Z) : bool := (0 <=? n) && (n <? 256).

(** A dotted quad, written as [str] writes integers. *)
Definition dotted (a b c d : Z) : string :=
  String.append (str a) (String.append "."
  (String.append (str b) (String.append "."
  (String.append (str c) (String.append "." (str d)))))).

(** The number of occurrences of a character in a string. *)
Fixpoint occurrences (sep : ascii) (s : string) : nat :=
  match s with
  | EmptyString => O
  | String a rest =>
      if Ascii.eqb a sep then S (occurrences sep rest)
      else occurrences sep rest
  end.

(** An integer in 0..255 survives [str] and [int], and is written without
    a dot. *)
Definition octet_checked (n : Z) : bool :=
  Nat.eqb (occurrences "."%char (str n)) 0
  && match int_of_str (str n) with
     | Ok m => m =? n
     | Raise _ => false
     end.

(** A request as every command writes it: of the size of the command's
    pack format, starting with the 15 bytes of card identifier and
    password, the command byte at offset 15, and addressed to the cached
    endpoint. *)
Definition framed (c : command) (w : world) (x : bytes * (string * Z)) : Prop :=
  length (fst x) = request_size c
  /\ firstn 15 (fst x) = header w
  /\ nth 15 (fst x) 0 = wire_code c
  /\ snd x = (TARGETIP w, TARGETPORT w).

(** * The logging script ([logging.py])

    The script imports the module as [e] and builds one line per logging
    interval.  Its user-changeable variables are taken at the values the
    file ships with.  The main loop (sleeping, the logger, the handler of
    the interrupt signal) is outside the model. *)
Module logging.

Definition SEPARATOR : string := String (ascii_of_nat 9) EmptyString.

Definition ALL_TEMP : bool := true.
Definition TEMP_0 : bool := true.
Definition TEMP_1 : bool := true.
Definition TEMP_2 : bool := true.
Definition TEMP_3 : bool := true.

Definition ALL_SENSOR : bool := false.
Definition SENSOR_0 : bool := false.
Definition SENSOR_1 : bool := false.
Definition SENSOR_2 : bool := false.
Definition SENSOR_3 : bool := false.

Definition ALL_OUTPUT : bool := false.
Definition OUTPUT_0 : bool := false.
Definition OUTPUT_1 : bool := false.
Definition OUTPUT_2 : bool := false.
Definition OUTPUT_3 : bool := false.

Definition _INCLUDE_ARRAY : list (list bool) :=
  [[TEMP_0; TEMP_1; TEMP_2; TEMP_3];
   [SENSOR_0; SENSOR_1; SENSOR_2; SENSOR_3];
   [OUTPUT_0; OUTPUT_1; OUTPUT_2; OUTPUT_3]].

(** [v[i]] and [len(v)]; the script applies them to the result tuples of
    the module only, any other value is left as [TypeError]. *)
Definition subscript (v : pyval) (i : nat) : result pyval :=
  match v with
  | VTuple items => item items i
  | _ => Raise TypeError
  end.

Definition len (v : pyval) : result nat :=
  match v with
  | VTuple items => Ok (length items)
  | _ => Raise TypeError
  end.

(** [v == 0]. *)
Definition is_zero (v : pyval) : bool :=
  match v with
  | VInt n => n =? 0
  | VFloat (Single bits) => (bits =? 0) || (bits =? 0x80000000)
  | _ => false
  end.

(** [_INCLUDE_ARRAY[row][sensor] == True or all == True]. *)
Definition wanted (row sensor : nat) (all : bool) : result bool :=
  match item _INCLUDE_ARRAY row with
  | Raise e => Raise e
  | Ok flags =>
      match item flags sensor with
      | Raise e => Raise e
      | Ok flag => Ok (Bool.eqb flag true || Bool.eqb all true)
      end
  end.

Section Script.

(** Python's [str] on the values the script formats; how a float is
    written is not modelled. *)
Variable py_str : pyval -> string.

Definition string : M String.string :=
  let string := "" in
  sensors <- all_sensor_status_read ;;
  n <- lift (len (fst sensors)) ;;
  for_each (seq 0 n)
    (fun sensor string =>
       temp <- lift (wanted 0 sensor ALL_TEMP) ;;
       string <-
         (if temp : bool
          then
            status <- lift (subscript (fst sensors) sensor) ;;
            if is_zero status
            then
              reading <- channel_temperature_read (Z.of_nat sensor) ;;
              value <- lift (subscript (fst reading) 0) ;;
              ret (String.append (String.append string SEPARATOR)
                     (py_str value))
            else
              ret (String.append (String.append string SEPARATOR) "NaN")
          else ret string) ;;
       present <- lift (wanted 1 sensor ALL_SENSOR) ;;
       string <-
         (if present : bool
          then
            again <- all_sensor_status_read ;;
            status <- lift (subscript (fst again) sensor) ;;
            let sensor_status :=
              if is_zero status then "connected" else "disconnected" in
            ret (String.append (String.append string SEPARATOR)
                   sensor_status)
          else ret string) ;;
       output <- lift (wanted 2 sensor ALL_OUTPUT) ;;
       (if output : bool
        then
          outputs <- output_read ;;
          status <- lift (subscript (fst outputs) sensor) ;;
          let output_status := if is_zero status then "on" else "off" in
          ret (String.append (String.append string SEPARATOR) output_status)
        else ret string))
    string.

End Script.

End logging.

(** ** Vocabulary of the log line *)

(** The line the logging script builds from the four status bits and the
    replies to its temperature requests: a field per channel, the
    temperature as [py_str] writes it where the status bit is 0, "NaN"
    where it is not, each field after a separator. *)
Fixpoint temperature_fields (py_str : pyval -> string) (line : string)
    (bits : list Z) (replies : list bytes) : string :=
  match bits with
  | [] => line
  | b :: rest =>
      if b =? 0
      then match replies with
           | d :: more =>
               temperature_fields py_str
                 (String.append (String.append line logging.SEPARATOR)
                    (py_str (unpack_f (firstn 4 (skipn 4 d)))))
                 rest more
           | [] => line
           end
      else temperature_fields py_str
             (String.append (String.append line logging.SEPARATOR) "NaN")
             rest replies
  end.

(** The temperature requests it sends: one for each channel, from
    [channel] on, whose status bit is 0. *)
Fixpoint temperature_requests (w : world) (bits : list Z) (channel : Z)
  : list bytes :=
  match bits with
  | [] => []
  | b :: rest =>
      (if b =? 0 then [header w ++ [0x50; 0; 0; 0; channel]] else [])
      ++ temperature_requests w rest (channel + 1)
  end.

(** * Properties *)

(** ** [struct.unpack] checks the size of its buffer *)

Lemma struct_unpack_error (fmt : string) (buf : bytes) (e : exn) :
  struct_unpack fmt buf = Raise e -> e = StructError.
Proof.
  unfold struct_unpack. destruct (parse_format _ _); [|congruence].
  destruct (Nat.eqb _ _); congruence.
Qed.

Lemma struct_unpack_length (fmt : string) (buf : bytes) (v : list pyval)
    (n : nat) :
  struct_calcsize fmt = Ok n ->
  struct_unpack fmt buf = Ok v ->
  length buf = n.
Proof.
  unfold struct_unpack, struct_calcsize.
  destruct (parse_format _ _); [|congruence].
  destruct (Nat.eqb _ _) eqn:E; [|congruence].
  apply Nat.eqb_eq in E. congruence.
Qed.

Lemma struct_unpack_wrong_size (fmt : string) (buf : bytes) (n : nat) :
  struct_calcsize fmt = Ok n ->
  length buf <> n ->
  struct_unpack fmt buf = Raise StructError.
Proof.
  intros Hn Hlen. destruct (struct_unpack fmt buf) eqn:E.
  - exfalso. apply Hlen. eapply struct_unpack_length; eauto.
  - apply struct_unpack_error in E. congruence.
Qed.

Lemma bytes_index_34 (b : bytes) :
  length b = 34%nat -> bytes_index b (-2) = Ok (nth 32 b 0).
Proof. unfold bytes_index. intros ->. reflexivity. Qed.

Lemma bytes_index_flag (b : bytes) (x : Z) :
  length b = 34%nat ->
  bytes_index b (-2) = Ok x ->
  x = nth 32 b 0.
Proof. intros L H. rewrite (bytes_index_34 b L) in H. congruence. Qed.

Lemma summary_start (w : world) : run_summary w w [] [].
Proof. split; auto using app_nil_r. Qed.

Lemma summary_sendto w w0 sends msgs data r w1 :
  run_summary w w0 sends msgs ->
  SOCK_sendto data (TARGETIP w0, TARGETPORT w0) w0 = (r, w1) ->
  match r with
  | Ok _ =>
      run_summary w w1 (sends ++ [(data, (TARGETIP w, TARGETPORT w))]) msgs
  | Raise _ => run_summary w w1 sends msgs
  end.
Proof.
  intros [] H. unfold SOCK_sendto in H.
  destruct (SOCK w0) eqn:E; [destruct (negb _); [|destruct (closed s)]|];
    injection H as <- <-; split; cbn; try congruence; auto.
  - rewrite rs_sent0, <- app_assoc, rs_targetip0, rs_targetport0.
    reflexivity.
  - apply Forall_app; split; auto.
Qed.

Lemma summary_recvfrom w w0 sends msgs n r w1 :
  run_summary w w0 sends msgs ->
  SOCK_recvfrom n w0 = (r, w1) ->
  match r with
  | Ok m => run_summary w w1 sends (msgs ++ [m])
  | Raise _ => run_summary w w1 sends msgs
  end.
Proof.
  intros [] H. unfold SOCK_recvfrom in H.
  destruct (SOCK w0) eqn:E;
    [destruct (closed s); [|destruct (wire_in w0) as [|[d|] later]]|];
    injection H as <- <-; split; cbn; rewrite ?app_nil_r;
    try congruence; auto.
  rewrite rs_rcvd0, <- app_assoc. reflexivity.
Qed.

(** Symbolic execution of a command: the body is unfolded down to the
    primitives, then every step that can raise is split in two.  The value
    picked by a conditional is forgotten where only the trace matters. *)

Ltac head_of t := lazymatch t with ?f _ => head_of f | _ => t end.

Ltac unfold_command :=
  cbv [call];
  match goal with
  | |- context [?f ?w = (_, _)] =>
      lazymatch type of w with
      | world => let h := head_of f in unfold h
      end
  end;
  cbv [bind ret lift global local target raise for_each fst snd].

Ltac forget_ifs :=
  repeat match goal with
  | |- context [if ?b then ?x else ?y] =>
      let t := constr:(if b then x else y) in
      generalize t; intro
  end.

Ltac explore :=
  repeat (forget_ifs;
    match goal with
    | |- context [match ?x with _ => _ end] =>
        lazymatch x with
        | context [match _ with _ => _ end] => fail
        | _ => destruct x eqn:?
        end
    end).

Ltac summarize :=
  repeat match goal with
  | S : run_summary ?w ?w0 _ _, H : SOCK_sendto _ _ ?w0 = (_, _) |- _ =>
      let S' := fresh "S" in
      pose proof (summary_sendto _ _ _ _ _ _ _ S H) as S';
      cbv beta iota in S'; clear H S
  | S : run_summary ?w ?w0 _ _, H : SOCK_recvfrom _ ?w0 = (_, _) |- _ =>
      let S' := fresh "S" in
      pose proof (summary_recvfrom _ _ _ _ _ _ _ S H) as S';
      cbv beta iota in S'; clear H S
  end.

Ltac reply_facts :=
  repeat match goal with
  | H : struct_unpack ?fmt ?m = Ok _ |- _ =>
      apply (struct_unpack_length fmt m _ 34%nat eq_refl) in H
  | H : struct_unpack _ _ = Raise _ |- _ =>
      apply struct_unpack_error in H; subst
  | L : length ?m = 34%nat, H : bytes_index ?m (-2) = Ok _ |- _ =>
      apply (bytes_index_flag _ _ L) in H; subst
  end.

Ltac close_leaf :=
  intros [= <- <-]; summarize; reply_facts;
  match goal with
  | S : run_summary _ _ _ _ |- _ =>
      cbn [app] in S; eexists _, _; split; [exact S|]
  end;
  cbn [length last];
  split; [lia|split];
  [ let HE := fresh in
    intro HE; apply Exists_exists in HE;
    destruct HE as (? & HE & ?); cbn [In] in HE;
    repeat (destruct HE as [HE|HE]; [subst; try congruence|]);
    try contradiction; try reflexivity
  | intros ? ? [=]; subst;
    repeat split; try discriminate; try reflexivity;
    repeat constructor; assumption ].

Lemma call_summary (c : command) (w : world) (res : result (pyval * Z))
    (w' : world) :
  call c w = (res, w') -> call_outcome w res w'.
Proof.
  pose proof (summary_start w) as S.
  destruct c; unfold_command; explore; close_leaf.
Qed.

(** ** Running a command on an open session *)

Lemma sendto_open (w : world) (data : bytes) :
  session_open w ->
  SOCK_sendto data (TARGETIP w, TARGETPORT w) w
  = (Ok tt, log_sent w data (TARGETIP w, TARGETPORT w)).
Proof.
  intros [(s & Hs & Hc) Hp]. unfold SOCK_sendto.
  rewrite Hs, Hc. cbn [snd]. rewrite Hp. reflexivity.
Qed.

Lemma recvfrom_open (w : world) (n : nat) (d : bytes)
    (later : list (option bytes)) :
  session_open w ->
  wire_in w = Some d :: later ->
  SOCK_recvfrom n w = (Ok (firstn n d), log_rcvd w later [firstn n d]).
Proof.
  intros [(s & Hs & Hc) Hp] Hin. unfold SOCK_recvfrom.
  rewrite Hs, Hc, Hin. reflexivity.
Qed.

Lemma open_log_sent (w : world) (data : bytes) (addr : string * Z) :
  session_open w -> session_open (log_sent w data addr).
Proof. intros H. exact H. Qed.

Lemma open_log_rcvd (w : world) (later : list (option bytes))
    (got : list bytes) :
  session_open w -> session_open (log_rcvd w later got).
Proof. intros H. exact H. Qed.

Lemma firstn_frame (d : bytes) : length d = 34%nat -> firstn 34 d = d.
Proof. intros H. apply firstn_all2. rewrite H. apply le_n. Qed.

Lemma to_bytes_byte (n : Z) : 0 <= n < 256 -> to_bytes n 1 Big = Ok [n].
Proof.
  intros H. unfold to_bytes.
  destruct (Z.ltb_spec n 0); [lia|].
  change (256 ^ Z.of_nat 1) with 256.
  destruct (Z.leb_spec 256 n); [lia|].
  cbn. rewrite Z.mod_small by lia. reflexivity.
Qed.

(** A list of known length, spelled out. *)
Ltac explode d H :=
  repeat (destruct d as [|? d]; [discriminate H|]);
  destruct d; [clear H|discriminate H].

(** The fields [struct.unpack] finds in a reply of 34 bytes, for the reply
    formats the properties below read. *)

Lemma unpack_no_fields (d : bytes) :
  length d = 34%nat ->
  struct_unpack "xxxxxxxxxxxxxxxxxxxxxxxxxxxxxxxxxx" d = Ok [].
Proof. intros H. explode d H. reflexivity. Qed.

Lemma unpack_version (d : bytes) :
  length d = 34%nat ->
  struct_unpack "xccxxxxxxxxxxxxxxxxxxxxxxxxxxxxxxx" d
  = Ok [VBytes [nth 1 d 0]; VBytes [nth 2 d 0]].
Proof. intros H. explode d H. reflexivity. Qed.

Lemma unpack_mask (d : bytes) :
  length d = 34%nat ->
  struct_unpack "xcxxxxxxxxxxxxxxxxxxxxxxxxxxxxxxxx" d = Ok [VBytes [nth 1 d 0]].
Proof. intros H. explode d H. reflexivity. Qed.

Lemma unpack_status (d : bytes) :
  length d = 34%nat ->
  struct_unpack "xxxxxxxxxxxxxxxxxxxxxxxxcxxxxxxxxx" d
  = Ok [VBytes [nth 24 d 0]].
Proof. intros H. explode d H. reflexivity. Qed.

Lemma unpack_wdt (d : bytes) :
  length d = 34%nat ->
  struct_unpack "hccxxxxxxxxxxxxxxxxxxxxxxxxxxxxxx" d
  = Ok [unpack_h (firstn 2 d); VBytes [nth 2 d 0]; VBytes [nth 3 d 0]].
Proof. intros H. explode d H. reflexivity. Qed.

Lemma unpack_temperature (d : bytes) :
  length d = 34%nat ->
  struct_unpack "xxxxfxxxxxxxxxxxxcxxxxxxxxxxxxx" d
  = Ok [unpack_f (firstn 4 (skipn 4 d)); VBytes [nth 20 d 0]].
Proof. intros H. explode d H. reflexivity. Qed.

Lemma unpack_temperatures (d : bytes) :
  length d = 34%nat ->
  struct_unpack "xxxxffffccccxxxxxxxxxx" d
  = Ok [unpack_f (firstn 4 (skipn 4 d)); unpack_f (firstn 4 (skipn 8 d));
        unpack_f (firstn 4 (skipn 12 d)); unpack_f (firstn 4 (skipn 16 d));
        VBytes [nth 20 d 0]; VBytes [nth 21 d 0];
        VBytes [nth 22 d 0]; VBytes [nth 23 d 0]].
Proof. intros H. explode d H. reflexivity. Qed.

Lemma unpack_limit_pair (d : bytes) :
  length d = 34%nat ->
  struct_unpack "xxxxffffccxxxxxxxxxxxx" d
  = Ok [unpack_f (firstn 4 (skipn 4 d)); unpack_f (firstn 4 (skipn 8 d));
        unpack_f (firstn 4 (skipn 12 d)); unpack_f (firstn 4 (skipn 16 d));
        VBytes [nth 20 d 0]; VBytes [nth 21 d 0]].
Proof. intros H. explode d H. reflexivity. Qed.

(** The request of a command whose arguments are fixed bytes always packs. *)
Ltac pack_request :=
  match goal with
  | |- context [match struct_pack ?f ?a with _ => _ end] =>
      let Hp := fresh "Hpack" in
      destruct (struct_pack f a) eqn:Hp;
      [|exfalso; vm_compute in Hp; discriminate Hp]
  end.

(** One round trip on an open session whose next datagram is known. *)
Ltac round_trip Hopen Hin Hlen :=
  rewrite (sendto_open _ _ Hopen); cbv beta iota;
  rewrite (recvfrom_open _ _ _ _ (open_log_sent _ _ _ Hopen) Hin);
  cbv beta iota;
  rewrite !(firstn_frame _ Hlen).

Lemma header_length (w : world) : length (header w) = 15%nat.
Proof.
  unfold header.
  rewrite length_app, !length_firstn, !length_app, !repeat_length.
  change (length (utf8 _CARDID)) with 7%nat. lia.
Qed.

Lemma nth_after_header (w : world) (payload : bytes) (i : nat) :
  nth (15 + i) (header w ++ payload) 0 = nth i payload 0.
Proof.
  rewrite app_nth2 by (rewrite header_length; lia).
  rewrite header_length. f_equal. lia.
Qed.

Lemma recvfrom_keeps_sent (n : nat) (w : world) (r : result bytes)
    (w' : world) :
  SOCK_recvfrom n w = (r, w') -> sent w' = sent w.
Proof.
  unfold SOCK_recvfrom. destruct (SOCK w); [|intros [= _ <-]; reflexivity].
  destruct (closed s); [intros [= _ <-]; reflexivity|].
  destruct (wire_in w) as [|[d|] later]; intros [= _ <-]; reflexivity.
Qed.

Lemma pack_bits_range (b0 b1 b2 b3 : Z) :
  (b0 = 0 \/ b0 = 1) -> (b1 = 0 \/ b1 = 1) ->
  (b2 = 0 \/ b2 = 1) -> (b3 = 0 \/ b3 = 1) ->
  0 <= pack_bits b0 b1 b2 b3 <= 15.
Proof.
  intros [-> | ->] [-> | ->] [-> | ->] [-> | ->]; cbv; split; discriminate.
Qed.

(** The request of the three mask setters, and where it goes, whatever
    happens to the reply. *)
Lemma output_set_request (b0 b1 b2 b3 : Z) (w : world) :
  (b0 = 0 \/ b0 = 1) -> (b1 = 0 \/ b1 = 1) ->
  (b2 = 0 \/ b2 = 1) -> (b3 = 0 \/ b3 = 1) ->
  session_open w ->
  sent (snd (output_set b0 b1 b2 b3 w))
  = sent w ++ [(header w ++ [0x30; 0x00; pack_bits b0 b1 b2 b3],
                (TARGETIP w, TARGETPORT w))].
Proof.
  intros H0 H1 H2 H3 Hopen.
  pose proof (pack_bits_range b0 b1 b2 b3 H0 H1 H2 H3) as Hr.
  unfold output_set.
  cbv [bind ret lift global local target raise for_each fst].
  rewrite to_bytes_byte by lia.
  match goal with
  | |- context [struct_pack ?f ?a] =>
      change (struct_pack f a)
        with (Ok (header w ++ [0x30; 0x00; pack_bits b0 b1 b2 b3]))
  end.
  cbv beta iota. rewrite (sendto_open _ _ Hopen). cbv beta iota.
  match goal with
  | |- context [SOCK_recvfrom ?n ?v] =>
      destruct (SOCK_recvfrom n v) as [r w2] eqn:Hr2;
      apply recvfrom_keeps_sent in Hr2
  end.
  explore; cbn [snd]; exact Hr2.
Qed.

Lemma sample_session_open (incoming : list (option bytes)) :
  session_open (sample_session incoming).
Proof. split; [eexists; split; reflexivity | reflexivity]. Qed.

(** Forward steps on an open session: the request goes out, the next
    datagram of the oracle comes back whole. *)
Ltac session_still_open :=
  repeat first [assumption | apply open_log_sent | apply open_log_rcvd].

Ltac send_open :=
  match goal with
  | |- context [SOCK_sendto ?b (TARGETIP ?v, TARGETPORT ?v) ?v] =>
      rewrite (sendto_open v b) by session_still_open; cbv beta iota
  end.

Ltac recv_open d later Hin Hlen :=
  match goal with
  | |- context [SOCK_recvfrom ?n ?v] =>
      rewrite (recvfrom_open v n d later)
        by first [exact Hin | reflexivity | session_still_open];
      cbv beta iota; rewrite !(firstn_frame _ Hlen)
  end.
(** ** The built-ins at their edges *)

(** [int] drops blanks, tabs and the two spaces above 127, but not the
    separators 28 to 31. *)
Example int_of_str_white_space :
  int_of_str " 42 " = Ok 42
  /\ int_of_str (String (ascii_of_nat 160) (String (ascii_of_nat 9) "7")) = Ok 7
  /\ int_of_str (String (ascii_of_nat 31) "4") = Raise ValueError
  /\ int_of_str (String (ascii_of_nat 28) "4") = Raise ValueError
  /\ int_of_str "1_0" = Ok 10
  /\ int_of_str "1 0" = Raise ValueError.
Proof. repeat split; reflexivity. Qed.

(** [sendto] refuses a port outside 0..65535 before it uses the socket. *)
Example sendto_checks_the_port_first :
  fst (SOCK_sendto [1] ("192.168.1.20", 70000)
         (snd (close_socket (sample_session []))))
  = Raise OverflowError
  /\ fst (SOCK_sendto [1] ("192.168.1.20", 6936)
            (snd (close_socket (sample_session []))))
     = Raise OSError.
Proof. split; reflexivity. Qed.

(** ['f'] in native mode: a float outside the single-precision range is
    packed as an infinity, and a signalling NaN comes out quiet. *)
Example pack_f_never_raises :
  pack_f (TooLarge false) = Ok [0; 0; 128; 127]
  /\ pack_f (TooLarge true) = Ok [0; 0; 128; 255]
  /\ pack_f (Single 1090519040) = Ok [0; 0; 0; 65]
  /\ unpack_f [1; 0; 128; 127] = VFloat (Single 2143289345)
  /\ unpack_f [0; 0; 128; 127] = VFloat (Single 2139095040).
Proof. repeat split; reflexivity. Qed.


(** ** The cached remote endpoint (0x03, 0x06) *)



(** ** Unit bytes (0x50, 0x51) *)

(** C2, as the code has it: on an open session and for every reply of 34
    bytes, both temperature readers turn unit byte 0x01 into "C" and 0x02
    into "F".  For any other unit byte [all_temperature_read] still
    returns normally, with the flag of the reply, and leaves the integer 0
    the slot started with in that channel's place ([unit_slot]); the code
    has no outcome that names an unrecognized unit byte. *)
Theorem unit_byte_decode (channel : Z) (w : world) (d : bytes)
    (later : list (option bytes)) :
  0 <= channel < 256 ->
  session_open w ->
  wire_in w = Some d :: later ->
  length d = 34%nat ->
  (nth 20 d 0 = 1 ->
   fst (channel_temperature_read channel w)
   = Ok (VTuple [unpack_f (firstn 4 (skipn 4 d)); VStr "C"], nth 32 d 0))
  /\ (nth 20 d 0 = 2 ->
      fst (channel_temperature_read channel w)
      = Ok (VTuple [unpack_f (firstn 4 (skipn 4 d)); VStr "F"], nth 32 d 0))
  /\ fst (all_temperature_read w)
     = Ok (VTuple [unpack_f (firstn 4 (skipn 4 d)); unit_slot (nth 20 d 0);
                   unpack_f (firstn 4 (skipn 8 d)); unit_slot (nth 21 d 0);
                   unpack_f (firstn 4 (skipn 12 d)); unit_slot (nth 22 d 0);
                   unpack_f (firstn 4 (skipn 16 d)); unit_slot (nth 23 d 0)],
           nth 32 d 0).
Proof.
  intros Hch Hopen Hin Hlen.
  assert (Hsingle : forall u,
    nth 20 d 0 = u ->
    fst (channel_temperature_read channel w)
    = match (if u =? 2 then Some "F"
             else if u =? 1 then Some "C" else None) with
      | Some unit =>
          Ok (VTuple [unpack_f (firstn 4 (skipn 4 d)); VStr unit], nth 32 d 0)
      | None => Raise UnboundLocalError
      end).
  { intros u Hu. unfold channel_temperature_read.
    cbv [bind ret lift global local target raise for_each fst snd].
    rewrite (to_bytes_byte _ Hch). cbv beta iota.
    pack_request. send_open. recv_open d later Hin Hlen.
    rewrite (unpack_temperature d Hlen).
    cbn [item nth_error eq_bytes bytes_eqb].
    rewrite Hu, !andb_true_r.
    destruct (u =? 2); [|destruct (u =? 1)]; cbv beta iota;
      rewrite ?(bytes_index_34 d Hlen); reflexivity. }
  split; [|split].
  - intros H. rewrite (Hsingle 1 H). reflexivity.
  - intros H. rewrite (Hsingle 2 H). reflexivity.
  - unfold all_temperature_read.
    cbv [bind ret lift global local target raise for_each fst snd].
    pack_request. send_open. recv_open d later Hin Hlen.
    rewrite (unpack_temperatures d Hlen).
    cbn [item nth_error eq_bytes bytes_eqb]. rewrite !andb_true_r.
    unfold unit_slot.
    generalize (nth 20 d 0) (nth 21 d 0) (nth 22 d 0) (nth 23 d 0).
    intros x0 x1 x2 x3.
    rewrite (bytes_index_34 d Hlen).
    destruct (Z.eqb_spec x0 1) as [-> | ?];
      [|destruct (Z.eqb_spec x0 2) as [-> | ?]];
    (destruct (Z.eqb_spec x1 1) as [-> | ?];
      [|destruct (Z.eqb_spec x1 2) as [-> | ?]]);
    (destruct (Z.eqb_spec x2 1) as [-> | ?];
      [|destruct (Z.eqb_spec x2 2) as [-> | ?]]);
    (destruct (Z.eqb_spec x3 1) as [-> | ?];
      [|destruct (Z.eqb_spec x3 2) as [-> | ?]]);
    reflexivity.
Qed.

Lemma unit_byte_decode_witness :
  fst (channel_temperature_read 2
         (sample_session
            [Some (frame [(6%nat, 188); (7%nat, 65); (20%nat, 1);
                          (32%nat, 99)])]))
  = Ok (VTuple [VFloat (Single 1102839808); VStr "C"], 99).
Proof.
  refine (proj1 (unit_byte_decode 2
                   (sample_session
                      [Some (frame [(6%nat, 188); (7%nat, 65); (20%nat, 1);
                                    (32%nat, 99)])])
                   (frame [(6%nat, 188); (7%nat, 65); (20%nat, 1);
                           (32%nat, 99)]) []
                   _ (sample_session_open _) eq_refl eq_refl) eq_refl).
  split; [apply Z.leb_le | apply Z.ltb_lt]; reflexivity.
Defined.

(** C2, counterexample: unit byte 0x03 for channel 0.  [all_temperature_read]
    returns normally and silently leaves 0 in the unit slot of channel 0;
    [channel_temperature_read] raises [UnboundLocalError]. *)
Lemma unknown_unit_byte_not_reported :
  fst (all_temperature_read
         (sample_session
            [Some (frame [(20%nat, 3); (21%nat, 1); (22%nat, 2);
                          (23%nat, 1); (32%nat, 99)])]))
  = Ok (VTuple [VFloat (Single 0); VInt 0; VFloat (Single 0); VStr "C";
                VFloat (Single 0); VStr "F"; VFloat (Single 0); VStr "C"],
        99)
  /\ fst (channel_temperature_read 0
            (sample_session
               [Some (frame [(20%nat, 3); (32%nat, 99)])]))
     = Raise UnboundLocalError.
Proof. split; reflexivity. Qed.

(** ** The output-mode setter (documented as 0x32) *)

(** C3: for inputs in {0, 1}, on an open session, [output_mode_set] is the
    same computation as [output_set]; the one request each of them sends is
    the 15 header bytes followed by 0x30, 0x00 and the mask, so that the
    command byte at offset 15 is 0x30 and the two frames are identical. *)
Theorem output_mode_set_sends_output_set_frame (m0 m1 m2 m3 : Z) (w : world) :
  (m0 = 0 \/ m0 = 1) -> (m1 = 0 \/ m1 = 1) ->
  (m2 = 0 \/ m2 = 1) -> (m3 = 0 \/ m3 = 1) ->
  session_open w ->
  output_mode_set m0 m1 m2 m3 w = output_set m0 m1 m2 m3 w
  /\ sent (snd (output_mode_set m0 m1 m2 m3 w))
     = sent w ++ [(header w ++ [0x30; 0x00; pack_bits m0 m1 m2 m3],
                   (TARGETIP w, TARGETPORT w))]
  /\ sent (snd (output_set m0 m1 m2 m3 w))
     = sent w ++ [(header w ++ [0x30; 0x00; pack_bits m0 m1 m2 m3],
                   (TARGETIP w, TARGETPORT w))]
  /\ nth 15 (header w ++ [0x30; 0x00; pack_bits m0 m1 m2 m3]) 0 = 0x30.
Proof.
  intros H0 H1 H2 H3 Hopen.
  assert (E : output_mode_set m0 m1 m2 m3 w = output_set m0 m1 m2 m3 w)
    by reflexivity.
  split; [exact E|]. rewrite E.
  split; [|split]; try (apply output_set_request; assumption).
  exact (nth_after_header w [0x30; 0x00; pack_bits m0 m1 m2 m3] 0).
Qed.

Lemma output_mode_set_sends_output_set_frame_witness :
  output_mode_set 1 0 1 1 (sample_session [])
  = output_set 1 0 1 1 (sample_session [])
  /\ sent (snd (output_mode_set 1 0 1 1 (sample_session [])))
     = [([69; 77; 65; 56; 51; 49; 52; 49; 50; 51; 52; 53; 54; 55; 56;
          0x30; 0x00; 13],
         ("192.168.1.20", 6936))].
Proof.
  pose proof (output_mode_set_sends_output_set_frame 1 0 1 1
                (sample_session [])
                (or_intror eq_refl) (or_introl eq_refl)
                (or_intror eq_refl) (or_intror eq_refl)
                (sample_session_open [])) as (A & B & _).
  split; [exact A | exact B].
Defined.


(** ** Status bytes (0x5B, 0x63) *)

(** C4, as the code has it: on an open session and for every reply of 34
    bytes, [control_status_read] returns the raw status byte (offset 24)
    minus 1, and the last field of [wdt_read] is the raw watchdog status
    byte (offset 3) minus 1 -- whatever the raw byte is.  No raw value is
    rejected. *)
Theorem status_is_raw_byte_minus_one (w : world) (d : bytes)
    (later : list (option bytes)) :
  session_open w ->
  wire_in w = Some d :: later ->
  length d = 34%nat ->
  fst (control_status_read w)
  = Ok (VTuple [VInt (nth 24 d 0 - 1)], nth 32 d 0)
  /\ fst (wdt_read w)
     = Ok (VTuple (map VInt (unpack_bits (nth 2 d 0))
                   ++ [unpack_h (firstn 2 d); VInt (nth 3 d 0 - 1)]),
           nth 32 d 0).
Proof.
  intros Hopen Hin Hlen. split.
  - unfold control_status_read.
    cbv [bind ret lift global local target raise for_each fst snd].
    pack_request. round_trip Hopen Hin Hlen.
    rewrite (unpack_status d Hlen). cbn [item nth_error ord].
    rewrite (bytes_index_34 d Hlen). reflexivity.
  - unfold wdt_read.
    cbv [bind ret lift global local target raise for_each fst snd].
    pack_request. round_trip Hopen Hin Hlen.
    rewrite (unpack_wdt d Hlen). cbn [item nth_error ord unpack_bits].
    rewrite (bytes_index_34 d Hlen). reflexivity.
Qed.

Lemma status_is_raw_byte_minus_one_witness :
  fst (control_status_read (sample_session [Some (frame [(24%nat, 2); (32%nat, 99)])]))
  = Ok (VTuple [VInt 1], 99)
  /\ fst (wdt_read (sample_session [Some (frame [(24%nat, 2); (32%nat, 99)])]))
     = Ok (VTuple [VInt 0; VInt 0; VInt 0; VInt 0; VInt 0; VInt (-1)], 99).
Proof.
  exact (status_is_raw_byte_minus_one
           (sample_session [Some (frame [(24%nat, 2); (32%nat, 99)])])
           (frame [(24%nat, 2); (32%nat, 99)]) []
           (sample_session_open _) eq_refl eq_refl).
Defined.

(** C4, counterexample: a raw status byte of 0 is not rejected; both
    functions return normally, with status -1 and the flag of the reply. *)
Lemma status_zero_gives_minus_one :
  fst (control_status_read (sample_session [Some (frame [(32%nat, 99)])]))
  = Ok (VTuple [VInt (-1)], 99)
  /\ fst (wdt_read (sample_session [Some (frame [(32%nat, 99)])]))
     = Ok (VTuple [VInt 0; VInt 0; VInt 0; VInt 0; VInt 0; VInt (-1)], 99).
Proof. split; reflexivity. Qed.

(** ** The status flag *)

(** The two single-channel readers bind [unit] only for unit bytes 0x01
    and 0x02; for any other unit byte the result tuple cannot be built and
    the function raises before the flag is read. *)
Lemma channel_temperature_read_unknown_unit (channel : Z) (w : world)
    (d : bytes) (later : list (option bytes)) :
  0 <= channel < 256 ->
  session_open w ->
  wire_in w = Some d :: later ->
  length d = 34%nat ->
  nth 20 d 0 <> 1 -> nth 20 d 0 <> 2 ->
  fst (channel_temperature_read channel w) = Raise UnboundLocalError.
Proof.
  intros Hch Hopen Hin Hlen H1 H2. unfold channel_temperature_read.
  cbv [bind ret lift global local target raise for_each fst snd].
  rewrite (to_bytes_byte _ Hch).
  pack_request. round_trip Hopen Hin Hlen.
  rewrite (unpack_temperature d Hlen). cbn [item nth_error eq_bytes bytes_eqb].
  apply Z.eqb_neq in H1, H2. rewrite H1, H2. reflexivity.
Qed.

(** C5, at the failing input: a well-formed reply of 34 bytes with flag 99
    at offset 32 and unit byte 0x00.  Neither single-channel reader returns
    a flag; both raise [UnboundLocalError]. *)
Theorem flag_lost_on_unknown_unit :
  length (frame [(32%nat, 99)]) = 34%nat
  /\ nth 32 (frame [(32%nat, 99)]) 0 = 99
  /\ fst (channel_temperature_read 0
            (sample_session [Some (frame [(32%nat, 99)])]))
     = Raise UnboundLocalError
  /\ fst (channel_temperature_limit_read 0
            (sample_session [Some (frame [(32%nat, 99)])]))
     = Raise UnboundLocalError.
Proof. repeat split; reflexivity. Qed.

(** ** Channel bit masks (0x30, 0x31 and the other mask commands) *)

(** C6: for channel values in {0, 1}, unpacking the packed mask gives the
    four values back, and every mask [p] in 0..15 is the packing of its
    own four bits.  On the wire: the mask byte [output_set] sends, handed
    back at offset 1 of a reply, makes [output_read] return the four
    values. *)
Theorem bitmask_round_trip (b0 b1 b2 b3 p : Z) (w : world) (d : bytes)
    (later : list (option bytes)) :
  (b0 = 0 \/ b0 = 1) -> (b1 = 0 \/ b1 = 1) ->
  (b2 = 0 \/ b2 = 1) -> (b3 = 0 \/ b3 = 1) ->
  0 <= p <= 15 ->
  session_open w ->
  wire_in w = Some d :: later ->
  length d = 34%nat ->
  nth 1 d 0 = pack_bits b0 b1 b2 b3 ->
  unpack_bits (pack_bits b0 b1 b2 b3) = [b0; b1; b2; b3]
  /\ (exists c0 c1 c2 c3,
        unpack_bits p = [c0; c1; c2; c3] /\ pack_bits c0 c1 c2 c3 = p)
  /\ sent (snd (output_set b0 b1 b2 b3 w))
     = sent w ++ [(header w ++ [0x30; 0x00; pack_bits b0 b1 b2 b3],
                   (TARGETIP w, TARGETPORT w))]
  /\ fst (output_read w)
     = Ok (VTuple [VInt b0; VInt b1; VInt b2; VInt b3], nth 32 d 0).
Proof.
  intros H0 H1 H2 H3 Hp Hopen Hin Hlen Hmask.
  assert (Hround : unpack_bits (pack_bits b0 b1 b2 b3) = [b0; b1; b2; b3]).
  { destruct H0 as [-> | ->], H1 as [-> | ->], H2 as [-> | ->],
      H3 as [-> | ->]; reflexivity. }
  split; [exact Hround|]. split; [|split].
  - exists (Z.land p 1), (Z.shiftr (Z.land p 2) 1),
      (Z.shiftr (Z.land p 4) 2), (Z.shiftr (Z.land p 8) 3).
    split; [reflexivity|].
    assert (Hcases : p = 0 \/ p = 1 \/ p = 2 \/ p = 3 \/ p = 4 \/ p = 5
                     \/ p = 6 \/ p = 7 \/ p = 8 \/ p = 9 \/ p = 10
                     \/ p = 11 \/ p = 12 \/ p = 13 \/ p = 14 \/ p = 15)
      by lia.
    repeat (destruct Hcases as [-> | Hcases]; [reflexivity|]).
    subst p. reflexivity.
  - apply output_set_request; assumption.
  - unfold output_read.
    cbv [bind ret lift global local target raise for_each fst snd].
    pack_request. send_open. recv_open d later Hin Hlen.
    rewrite (unpack_mask d Hlen). cbn [item nth_error ord].
    rewrite (bytes_index_34 d Hlen), Hmask, Hround. reflexivity.
Qed.

Lemma bitmask_round_trip_witness :
  unpack_bits (pack_bits 1 0 1 1) = [1; 0; 1; 1]
  /\ fst (output_read
            (sample_session [Some (frame [(1%nat, 13); (32%nat, 99)])]))
     = Ok (VTuple [VInt 1; VInt 0; VInt 1; VInt 1], 99).
Proof.
  pose proof (bitmask_round_trip 1 0 1 1 13
                (sample_session [Some (frame [(1%nat, 13); (32%nat, 99)])])
                (frame [(1%nat, 13); (32%nat, 99)]) []
                (or_intror eq_refl) (or_introl eq_refl)
                (or_intror eq_refl) (or_intror eq_refl)
                ltac:(lia)
                (sample_session_open _) eq_refl eq_refl eq_refl)
    as (A & _ & _ & B).
  split; [exact A | exact B].
Defined.

(** ** The all-channel limit commands (0x54, 0x55) *)

(** A call of either command that returns has sent exactly two requests
    and read exactly two replies. *)
Lemma limit_read_round_trips (w : world) (x : pyval * Z) (w' : world) :
  all_temperature_limit_read w = (Ok x, w') ->
  exists s1 s2 m1 m2,
    sent w' = sent w ++ [s1; s2] /\ rcvd w' = rcvd w ++ [m1; m2].
Proof.
  pose proof (summary_start w) as S.
  unfold all_temperature_limit_read.
  cbv [bind ret lift global local target raise for_each fst snd].
  explore; intros [= <- <-]; summarize; cbn [app] in S.
  do 4 eexists. split; [apply (rs_sent _ _ _ _ S)|apply (rs_rcvd _ _ _ _ S)].
Qed.

Lemma limit_set_round_trips (l0 h0 : pyfloat) (u0 : string)
    (l1 h1 : pyfloat) (u1 : string) (l2 h2 : pyfloat) (u2 : string)
    (l3 h3 : pyfloat) (u3 : string)
    (w : world) (x : pyval * Z) (w' : world) :
  all_temperature_limit_set l0 h0 u0 l1 h1 u1 l2 h2 u2 l3 h3 u3 w
  = (Ok x, w') ->
  exists s1 s2 m1 m2,
    sent w' = sent w ++ [s1; s2] /\ rcvd w' = rcvd w ++ [m1; m2].
Proof.
  pose proof (summary_start w) as S.
  unfold all_temperature_limit_set.
  cbv [bind ret lift global local target raise for_each fst snd].
  explore; intros [= <- <-]; summarize; cbn [app] in S.
  do 4 eexists. split; [apply (rs_sent _ _ _ _ S)|apply (rs_rcvd _ _ _ _ S)].
Qed.

(** On an open session with two replies of 34 bytes at hand, the whole run
    of [all_temperature_limit_read]: request for pair 0, first reply,
    request for pair 1, second reply. *)
Lemma limit_read_forward (w : world) (d1 d2 : bytes) (later : list (option bytes)) :
  session_open w ->
  wire_in w = Some d1 :: Some d2 :: later ->
  length d1 = 34%nat -> length d2 = 34%nat ->
  all_temperature_limit_read w
  = (Ok (VTuple (limit_triples d1 ++ limit_triples d2), nth 32 d2 0),
     log_rcvd
       (log_sent
          (log_rcvd
             (log_sent w (header w ++ [0x55; 0; 0; 0; 0])
                (TARGETIP w, TARGETPORT w))
             (Some d2 :: later) [d1])
          (header w ++ [0x55; 0; 1; 0; 1]) (TARGETIP w, TARGETPORT w))
       later [d2]).
Proof.
  intros Hopen Hin Hl1 Hl2. unfold all_temperature_limit_read.
  cbv [bind ret lift global local target raise for_each fst snd].
  match goal with
  | |- context [struct_pack ?f ?a] =>
      change (struct_pack f a) with (Ok (header w ++ [0x55; 0; 0; 0; 0]))
  end.
  cbv beta iota. send_open. recv_open d1 (Some d2 :: later) Hin Hl1.
  rewrite (unpack_limit_pair d1 Hl1). cbv beta iota.
  match goal with
  | |- context [struct_pack ?f ?a] =>
      change (struct_pack f a) with (Ok (header w ++ [0x55; 0; 1; 0; 1]))
  end.
  cbv beta iota. send_open. recv_open d2 later Hin Hl2.
  rewrite (unpack_limit_pair d2 Hl2).
  cbn [item nth_error eq_bytes bytes_eqb]. rewrite !andb_true_r.
  rewrite (bytes_index_34 d2 Hl2).
  unfold limit_triples, unit_slot.
  generalize (nth 20 d1 0) (nth 21 d1 0) (nth 20 d2 0) (nth 21 d2 0).
  intros x0 x1 x2 x3.
  (destruct (Z.eqb_spec x0 1) as [-> | ?];
      [|destruct (Z.eqb_spec x0 2) as [-> | ?]];
    (destruct (Z.eqb_spec x1 1) as [-> | ?];
      [|destruct (Z.eqb_spec x1 2) as [-> | ?]]);
    (destruct (Z.eqb_spec x2 1) as [-> | ?];
      [|destruct (Z.eqb_spec x2 2) as [-> | ?]]);
    (destruct (Z.eqb_spec x3 1) as [-> | ?];
      [|destruct (Z.eqb_spec x3 2) as [-> | ?]]);
    reflexivity).
Qed.


(** The same for [all_temperature_limit_set], with units among "C" and
    "F".  The value returned next to the flag is [parsed[0] + parsed[1]],
    the sum of the two zeros [parsed] starts with; the replies, which
    carry no fields, come after them in the list. *)
Lemma limit_set_forward (w : world) (d1 d2 : bytes) (later : list (option bytes))
    (l0 h0 l1 h1 l2 h2 l3 h3 : pyfloat) (u0 u1 u2 u3 : string) :
  session_open w ->
  wire_in w = Some d1 :: Some d2 :: later ->
  length d1 = 34%nat -> length d2 = 34%nat ->
  (u0 = "C" \/ u0 = "F") -> (u1 = "C" \/ u1 = "F") ->
  (u2 = "C" \/ u2 = "F") -> (u3 = "C" \/ u3 = "F") ->
  all_temperature_limit_set l0 h0 u0 l1 h1 u1 l2 h2 u2 l3 h3 u3 w
  = (Ok (VInt 0, nth 32 d2 0),
     log_rcvd
       (log_sent
          (log_rcvd
             (log_sent w
                (limit_request w 0 (single_image l0) (single_image h0)
                   (single_image l1) (single_image h1)
                   (unit_code u0) (unit_code u1))
                (TARGETIP w, TARGETPORT w))
             (Some d2 :: later) [d1])
          (limit_request w 1 (single_image l2) (single_image h2)
             (single_image l3) (single_image h3)
             (unit_code u2) (unit_code u3))
          (TARGETIP w, TARGETPORT w))
       later [d2]).
Proof.
  intros Hopen Hin Hl1 Hl2 H0 H1 H2 H3.
  destruct H0 as [-> | ->], H1 as [-> | ->], H2 as [-> | ->], H3 as [-> | ->].
  all: unfold all_temperature_limit_set;
    cbv [bind ret lift global local target raise for_each fst snd];
    cbn [item nth_error String.eqb Ascii.eqb Bool.eqb assign Nat.mul Nat.add].
  all: match goal with
  | |- _ = (_, log_rcvd (log_sent (log_rcvd (log_sent _ ?r1 _) _ _) ?r2 _)
                 _ _) =>
      change (to_bytes (Z.of_nat 0) 1 Big) with (Ok [0]); cbv beta iota;
      match goal with
      | |- context [struct_pack ?f ?a] => change (struct_pack f a) with (Ok r1)
      end;
      cbv beta iota;
      send_open; recv_open d1 (Some d2 :: later) Hin Hl1;
      rewrite (unpack_no_fields d1 Hl1); cbv beta iota;
      change (to_bytes (Z.of_nat 1) 1 Big) with (Ok [1]); cbv beta iota;
      match goal with
      | |- context [struct_pack ?f ?a] => change (struct_pack f a) with (Ok r2)
      end;
      cbv beta iota;
      send_open; recv_open d2 later Hin Hl2;
      rewrite (unpack_no_fields d2 Hl2); cbv beta iota;
      cbn [item nth_error app fst snd py_add];
      rewrite (bytes_index_34 d2 Hl2); reflexivity
  end.
Qed.

(** C7: on an open session with two replies of 34 bytes at hand, each of
    the two all-channel limit commands sends exactly two requests, for
    channel pair 0 and then for channel pair 1, and reads exactly two
    replies.  [all_temperature_limit_read] returns the triples of the first
    reply (channels 0 and 1) followed by those of the second reply
    (channels 2 and 3), with the flag of the second reply.
    [all_temperature_limit_set] does not return the concatenation of what
    its two replies decode to: both decode to the empty list, whose
    concatenation is the empty tuple its docstring announces, and the call
    returns the integer 0, the sum of the two zeros its list [parsed]
    starts with.  And any call of either command that returns a pair has
    made exactly two round trips. *)
Theorem all_limit_set_returns_zero_not_tuple (w : world) (d1 d2 : bytes)
    (later : list (option bytes))
    (l0 h0 l1 h1 l2 h2 l3 h3 : pyfloat) (u0 u1 u2 u3 : string) :
  session_open w ->
  wire_in w = Some d1 :: Some d2 :: later ->
  length d1 = 34%nat -> length d2 = 34%nat ->
  (u0 = "C" \/ u0 = "F") -> (u1 = "C" \/ u1 = "F") ->
  (u2 = "C" \/ u2 = "F") -> (u3 = "C" \/ u3 = "F") ->
  (fst (all_temperature_limit_read w)
   = Ok (VTuple (limit_triples d1 ++ limit_triples d2), nth 32 d2 0)
   /\ sent (snd (all_temperature_limit_read w))
      = sent w ++ [(header w ++ [0x55; 0; 0; 0; 0], (TARGETIP w, TARGETPORT w));
                   (header w ++ [0x55; 0; 1; 0; 1], (TARGETIP w, TARGETPORT w))]
   /\ rcvd (snd (all_temperature_limit_read w)) = rcvd w ++ [d1; d2]
   /\ wire_in (snd (all_temperature_limit_read w)) = later)
  /\ (fst (all_temperature_limit_set l0 h0 u0 l1 h1 u1 l2 h2 u2 l3 h3 u3 w)
      = Ok (VInt 0, nth 32 d2 0)
      /\ sent (snd (all_temperature_limit_set
                      l0 h0 u0 l1 h1 u1 l2 h2 u2 l3 h3 u3 w))
         = sent w
           ++ [(limit_request w 0 (single_image l0) (single_image h0)
                  (single_image l1) (single_image h1)
                  (unit_code u0) (unit_code u1),
                (TARGETIP w, TARGETPORT w));
               (limit_request w 1 (single_image l2) (single_image h2)
                  (single_image l3) (single_image h3)
                  (unit_code u2) (unit_code u3),
                (TARGETIP w, TARGETPORT w))]
      /\ rcvd (snd (all_temperature_limit_set
                      l0 h0 u0 l1 h1 u1 l2 h2 u2 l3 h3 u3 w))
         = rcvd w ++ [d1; d2]
      /\ wire_in (snd (all_temperature_limit_set
                         l0 h0 u0 l1 h1 u1 l2 h2 u2 l3 h3 u3 w))
         = later)
  /\ (struct_unpack "xxxxxxxxxxxxxxxxxxxxxxxxxxxxxxxxxx" d1 = Ok []
      /\ struct_unpack "xxxxxxxxxxxxxxxxxxxxxxxxxxxxxxxxxx" d2 = Ok []
      /\ VInt 0 <> VTuple ([] ++ []))
  /\ (forall (v : world) (x : pyval * Z) (v' : world),
        all_temperature_limit_read v = (Ok x, v')
        \/ (exists a0 b0 c0 a1 b1 c1 a2 b2 c2 a3 b3 c3,
              all_temperature_limit_set a0 b0 c0 a1 b1 c1 a2 b2 c2 a3 b3 c3 v
              = (Ok x, v')) ->
        exists s1 s2 m1 m2,
          sent v' = sent v ++ [s1; s2] /\ rcvd v' = rcvd v ++ [m1; m2]).
Proof.
  intros Hopen Hin Hl1 Hl2 H0 H1 H2 H3. split; [|split; [|split]].
  - rewrite (limit_read_forward w d1 d2 later Hopen Hin Hl1 Hl2).
    cbn [fst snd sent rcvd wire_in log_sent log_rcvd].
    rewrite <- !app_assoc. repeat split; reflexivity.
  - rewrite (limit_set_forward w d1 d2 later l0 h0 l1 h1 l2 h2 l3 h3
               u0 u1 u2 u3 Hopen Hin Hl1 Hl2 H0 H1 H2 H3).
    cbn [fst snd sent rcvd wire_in log_sent log_rcvd].
    rewrite <- !app_assoc. repeat split; reflexivity.
  - split; [exact (unpack_no_fields d1 Hl1)|].
    split; [exact (unpack_no_fields d2 Hl2) | discriminate].
  - intros v x v' [E | E].
    + exact (limit_read_round_trips v x v' E).
    + destruct E as (a0 & b0 & c0 & a1 & b1 & c1 & a2 & b2 & c2
                     & a3 & b3 & c3 & E).
      exact (limit_set_round_trips _ _ _ _ _ _ _ _ _ _ _ _ v x v' E).
Qed.

Lemma all_limit_set_returns_zero_not_tuple_witness :
  fst (all_temperature_limit_set
         (Single 0) (Single 0) "C" (Single 0) (Single 0) "F"
         (Single 0) (Single 0) "C" (Single 0) (Single 0) "F"
         (sample_session [Some (frame [(32%nat, 99)]);
                          Some (frame [(32%nat, 99)])]))
  = Ok (VInt 0, 99)
  /\ struct_unpack "xxxxxxxxxxxxxxxxxxxxxxxxxxxxxxxxxx" (frame [(32%nat, 99)])
     = Ok []
  /\ length (sent (snd (all_temperature_limit_set
                          (Single 0) (Single 0) "C" (Single 0) (Single 0) "F"
                          (Single 0) (Single 0) "C" (Single 0) (Single 0) "F"
                          (sample_session [Some (frame [(32%nat, 99)]);
                                           Some (frame [(32%nat, 99)])]))))
     = 2%nat.
Proof.
  pose proof (all_limit_set_returns_zero_not_tuple
                (sample_session [Some (frame [(32%nat, 99)]);
                                 Some (frame [(32%nat, 99)])])
                (frame [(32%nat, 99)]) (frame [(32%nat, 99)]) []
                (Single 0) (Single 0) (Single 0) (Single 0)
                (Single 0) (Single 0) (Single 0) (Single 0)
                "C" "F" "C" "F"
                (sample_session_open _) eq_refl eq_refl eq_refl
                (or_introl eq_refl) (or_intror eq_refl)
                (or_introl eq_refl) (or_intror eq_refl))
    as (_ & (A & B & _) & (C & _) & _).
  split; [exact A | split; [exact C | rewrite B; reflexivity]].
Defined.

(** The read command on two concrete replies: the triples of the first
    reply come first. *)
Example limit_read_concatenates :
  fst (all_temperature_limit_read
         (sample_session
            [Some (frame [(7%nat, 65); (20%nat, 1); (21%nat, 2); (32%nat, 7)]);
             Some (frame [(11%nat, 66); (20%nat, 2); (21%nat, 1);
                          (32%nat, 99)])]))
  = Ok (VTuple
          [VFloat (Single 1090519040); VFloat (Single 0); VStr "C";
           VFloat (Single 0); VFloat (Single 0); VStr "F";
           VFloat (Single 0); VFloat (Single 1107296256); VStr "F";
           VFloat (Single 0); VFloat (Single 0); VStr "C"],
        99).
Proof. reflexivity. Qed.

(** What [all_temperature_limit_set] hands back next to the flag. *)
Example limit_set_returns_zero :
  fst (all_temperature_limit_set
         (Single 0) (Single 0) "C" (Single 0) (Single 0) "C"
         (Single 0) (Single 0) "C" (Single 0) (Single 0) "C"
         (sample_session [Some (frame [(32%nat, 99)]);
                          Some (frame [(32%nat, 99)])]))
  = Ok (VInt 0, 99).
Proof. reflexivity. Qed.


(** ** The firmware version (0x07) *)

(** C8: on an open session and for a reply of 34 bytes carrying [major] at
    offset 1 and [minor] at offset 2, [firmware_version_read] returns the
    one-element tuple holding [str(major) + "." + str(minor)], with the
    flag of the reply; the bytes 1, 0 give "1.0" and the bytes 2, 5 give
    "2.5". *)
Theorem firmware_version_is_major_dot_minor (w : world) (d : bytes)
    (later : list (option bytes)) (major minor : Z) :
  session_open w ->
  wire_in w = Some d :: later ->
  length d = 34%nat ->
  nth 1 d 0 = major ->
  nth 2 d 0 = minor ->
  fst (firmware_version_read w)
  = Ok (VTuple [VStr (String.append (str major)
                        (String.append "." (str minor)))],
        nth 32 d 0)
  /\ String.append (str 1) (String.append "." (str 0)) = "1.0"
  /\ String.append (str 2) (String.append "." (str 5)) = "2.5".
Proof.
  intros Hopen Hin Hlen <- <-. split; [|split; reflexivity].
  unfold firmware_version_read.
  cbv [bind ret lift global local target raise for_each fst snd].
  pack_request. round_trip Hopen Hin Hlen.
  rewrite (unpack_version d Hlen). cbn [item nth_error ord].
  rewrite (bytes_index_34 d Hlen). reflexivity.
Qed.

Lemma firmware_version_is_major_dot_minor_witness :
  fst (firmware_version_read
         (sample_session [Some (frame [(1%nat, 1); (2%nat, 0); (32%nat, 99)])]))
  = Ok (VTuple [VStr "1.0"], 99).
Proof.
  exact (proj1 (firmware_version_is_major_dot_minor
                  (sample_session
                     [Some (frame [(1%nat, 1); (2%nat, 0); (32%nat, 99)])])
                  (frame [(1%nat, 1); (2%nat, 0); (32%nat, 99)]) [] 1 0
                  (sample_session_open _) eq_refl eq_refl eq_refl eq_refl)).
Defined.

Example firmware_version_2_5 :
  fst (firmware_version_read
         (sample_session [Some (frame [(1%nat, 2); (2%nat, 5); (32%nat, 99)])]))
  = Ok (VTuple [VStr "2.5"], 99).
Proof. reflexivity. Qed.
(** ** Replies of a wrong size *)

(** Every reply format of the module has size 34, so that [struct.unpack]
    itself refuses any buffer of another length, shorter or longer. *)
Lemma reply_formats_want_34_bytes (fmt : string) (buf : bytes) :
  In fmt reply_formats ->
  length buf <> 34%nat ->
  struct_unpack fmt buf = Raise StructError.
Proof.
  intros Hin Hlen. apply (struct_unpack_wrong_size fmt buf 34); [|exact Hlen].
  cbn [reply_formats In] in Hin.
  repeat (destruct Hin as [<- | Hin]; [reflexivity|]). contradiction.
Qed.

(** [recvfrom(34)] never hands over more than 34 bytes: a longer datagram
    reaches [struct.unpack] cut to its first 34 bytes. *)
Lemma recvfrom_caps_reply (n : nat) (w : world) (m : bytes) (w' : world) :
  SOCK_recvfrom n w = (Ok m, w') -> (length m <= n)%nat.
Proof.
  unfold SOCK_recvfrom. destruct (SOCK w); [|discriminate].
  destruct (closed s); [discriminate|].
  destruct (wire_in w) as [|[d|] later]; try discriminate.
  intros [= <- _]. apply firstn_le_length.
Qed.

(** The datagrams one call takes from the wire, step by step. *)
Lemma wire_read_start (w : world) : wire_read w w [].
Proof. split; [symmetry; apply app_nil_r | reflexivity]. Qed.

Lemma wire_read_sendto (w w0 : world) (datagrams : list bytes)
    (data : bytes) (addr : string * Z) (r : result unit) (w1 : world) :
  wire_read w w0 datagrams ->
  SOCK_sendto data addr w0 = (r, w1) ->
  wire_read w w1 datagrams.
Proof.
  intros [A B] H. unfold SOCK_sendto in H.
  destruct (SOCK w0); [destruct (negb _); [|destruct (closed s)]|];
    injection H as <- <-; split; assumption.
Qed.

Lemma wire_read_recvfrom (w w0 : world) (datagrams : list bytes)
    (m : bytes) (w1 : world) :
  wire_read w w0 datagrams ->
  SOCK_recvfrom 34 w0 = (Ok m, w1) ->
  exists d, m = firstn 34 d /\ wire_read w w1 (datagrams ++ [d]).
Proof.
  intros [A B] H. unfold SOCK_recvfrom in H.
  destruct (SOCK w0); [|discriminate]. destruct (closed s); [discriminate|].
  destruct (wire_in w0) as [|[d|] later] eqn:E; try discriminate.
  exists d. split; [congruence|].
  assert (E1 : w1 = log_rcvd w0 later [firstn 34 d]) by congruence.
  subst w1. split; cbn [rcvd wire_in log_rcvd].
  - rewrite A, map_app, <- app_assoc. reflexivity.
  - rewrite B, map_app, <- app_assoc. reflexivity.
Qed.

Lemma wire_used_recvfrom (w w0 : world) (datagrams : list bytes)
    (e : exn) (w1 : world) :
  wire_read w w0 datagrams ->
  SOCK_recvfrom 34 w0 = (Raise e, w1) ->
  wire_used w w1 datagrams.
Proof.
  intros [A B] H. unfold SOCK_recvfrom in H.
  destruct (SOCK w0); [|injection H as _ <-; split; auto].
  destruct (closed s); [injection H as _ <-; split; auto|].
  destruct (wire_in w0) as [|[d|] later] eqn:E; try discriminate;
    injection H as _ <-.
  - split; [exact A | left; rewrite E; exact B].
  - split; cbn [rcvd wire_in log_rcvd].
    + rewrite app_nil_r. exact A.
    + right. exact B.
Qed.

Ltac follow_wire :=
  repeat match goal with
  | T : wire_read ?w ?w0 _, H : SOCK_sendto _ _ ?w0 = (_, _) |- _ =>
      let T' := fresh "T" in
      pose proof (wire_read_sendto _ _ _ _ _ _ _ T H) as T'; clear H T
  | T : wire_read ?w ?w0 _, H : SOCK_recvfrom _ ?w0 = (Ok _, _) |- _ =>
      let T' := fresh "T" in
      let d := fresh "d" in
      let E := fresh "E" in
      destruct (wire_read_recvfrom _ _ _ _ _ T H) as (d & E & T');
      clear H T
  | T : wire_read ?w ?w0 _, H : SOCK_recvfrom _ ?w0 = (Raise _, _) |- _ =>
      let T' := fresh "T" in
      pose proof (wire_used_recvfrom _ _ _ _ _ T H) as T'; clear H T
  end.

(** Whatever a command does, what it received are the first datagrams of
    the wire, each cut to 34 bytes; a call that returns has consumed
    exactly those. *)
Lemma call_wire (c : command) (w : world) (res : result (pyval * Z))
    (w' : world) :
  call c w = (res, w') ->
  exists datagrams,
    wire_used w w' datagrams
    /\ (forall x, res = Ok x -> wire_read w w' datagrams).
Proof.
  pose proof (wire_read_start w) as T.
  destruct c; unfold_command; explore; intros [= <- <-]; follow_wire;
    match goal with
    | T' : wire_read _ _ ?ds |- _ =>
        exists ds; split;
        [destruct T' as [A B]; split; [exact A | left; exact B]
        | intros _ _; exact T']
    | T' : wire_used _ _ ?ds |- _ =>
        exists ds; split; [exact T' | intros ? [=]]
    end.
Qed.

Lemma last_cut (datagrams : list bytes) :
  last (map (firstn 34) datagrams) [] = firstn 34 (last datagrams []).
Proof.
  induction datagrams as [|d [|d' rest] IH]; try reflexivity.
  change (last (firstn 34 d :: map (firstn 34) (d' :: rest)) []
          = firstn 34 (last (d' :: rest) [])).
  rewrite <- IH. reflexivity.
Qed.

Lemma nth_cut (d : bytes) : nth 32 (firstn 34 d) 0 = nth 32 d 0.
Proof.
  destruct (Nat.lt_ge_cases 32 (length d)) as [H | H].
  - rewrite <- (firstn_skipn 34 d) at 2.
    rewrite app_nth1; [reflexivity|]. rewrite length_firstn. lia.
  - rewrite (nth_overflow d) by lia. apply nth_overflow.
    rewrite length_firstn. lia.
Qed.

(** C9, as the code has it: whatever command is called, in whatever state,
    the replies it decodes are the datagrams it takes from the wire, each
    cut to its first 34 bytes by [recvfrom(34)].  Every datagram shorter
    than 34 bytes ends the call with [struct.error], so that no pair is
    returned; and when a pair [(result, flag)] is returned, at least one
    datagram was read, every datagram read had at least 34 bytes, and the
    flag is byte 32 of the last one.  A datagram longer than 34 bytes is
    not rejected: its first 34 bytes are the reply. *)
Theorem reply_shorter_than_34_is_rejected (c : command) (w : world)
    (res : result (pyval * Z)) (w' : world) :
  call c w = (res, w') ->
  exists datagrams,
    wire_used w w' datagrams
    /\ (Exists (fun d => (length d < 34)%nat) datagrams ->
        res = Raise StructError)
    /\ (forall r flag, res = Ok (r, flag) ->
          wire_read w w' datagrams
          /\ datagrams <> []
          /\ Forall (fun d => (34 <= length d)%nat) datagrams
          /\ Forall (fun m => length m = 34%nat) (map (firstn 34) datagrams)
          /\ flag = nth 32 (last datagrams []) 0).
Proof.
  intros E. pose proof (call_summary _ _ _ _ E) as S.
  destruct (call_wire _ _ _ _ E) as (datagrams & U & R).
  destruct S as (sends & msgs & S & _ & Hbad & Hok).
  assert (Hm : msgs = map (firstn 34) datagrams).
  { destruct U as [A _]. pose proof (rs_rcvd _ _ _ _ S) as B.
    rewrite A in B. apply app_inv_head in B. congruence. }
  subst msgs. exists datagrams. split; [exact U|]. split.
  - intros Hshort. apply Hbad. apply Exists_exists in Hshort.
    destruct Hshort as (d & Hd & Hlen). apply Exists_exists.
    exists (firstn 34 d). split; [apply in_map; exact Hd|].
    rewrite length_firstn. lia.
  - intros r flag Hres. destruct (Hok r flag Hres) as (A & B & C & _).
    split; [exact (R _ Hres)|]. split.
    { intros ->. apply A. reflexivity. }
    split.
    { apply Forall_forall. intros d Hd.
      rewrite Forall_forall in B. specialize (B (firstn 34 d) (in_map _ _ _ Hd)).
      rewrite length_firstn in B. lia. }
    split; [exact B|].
    rewrite C, last_cut. apply nth_cut.
Qed.

Lemma reply_shorter_than_34_is_rejected_witness :
  exists datagrams,
    wire_used
      (sample_session [Some (firstn 33 (frame [(32%nat, 99)]))])
      (snd (call All_temperature_read
              (sample_session [Some (firstn 33 (frame [(32%nat, 99)]))])))
      datagrams
    /\ (Exists (fun d => (length d < 34)%nat) datagrams ->
        fst (call All_temperature_read
               (sample_session [Some (firstn 33 (frame [(32%nat, 99)]))]))
        = Raise StructError)
    /\ (forall r flag,
          fst (call All_temperature_read
                 (sample_session [Some (firstn 33 (frame [(32%nat, 99)]))]))
          = Ok (r, flag) ->
          wire_read
            (sample_session [Some (firstn 33 (frame [(32%nat, 99)]))])
            (snd (call All_temperature_read
                    (sample_session
                       [Some (firstn 33 (frame [(32%nat, 99)]))])))
            datagrams
          /\ datagrams <> []
          /\ Forall (fun d => (34 <= length d)%nat) datagrams
          /\ Forall (fun m => length m = 34%nat)
               (map (firstn 34) datagrams)
          /\ flag = nth 32 (last datagrams []) 0).
Proof.
  exact (reply_shorter_than_34_is_rejected All_temperature_read
           (sample_session [Some (firstn 33 (frame [(32%nat, 99)]))])
           _ _ eq_refl).
Defined.

(** C9, counterexample: a datagram of 35 bytes is a reply whose length is
    not 34, and it is not rejected: [recvfrom(34)] drops its last byte,
    the decode succeeds and a pair with the flag of byte 32 is returned,
    for a command without fields and for one with fields alike. *)
Lemma long_reply_is_cut_and_accepted :
  length (frame [(32%nat, 99)] ++ [7]) = 35%nat
  /\ fst (call Reboot_device
            (sample_session [Some (frame [(32%nat, 99)] ++ [7])]))
     = Ok (VTuple [], 99)
  /\ rcvd (snd (call Reboot_device
                  (sample_session [Some (frame [(32%nat, 99)] ++ [7])])))
     = [frame [(32%nat, 99)]]
  /\ fst (call (Channel_temperature_read 0)
            (sample_session
               [Some (frame [(7%nat, 65); (20%nat, 1); (32%nat, 99)]
                      ++ [7])]))
     = Ok (VTuple [VFloat (Single 1090519040); VStr "C"], 99).
Proof. repeat split; reflexivity. Qed.

(** A short reply on the wire, end to end: 33 bytes arrive, the request
    had been sent, and the call raises [struct.error]. *)
Example short_reply_raises :
  fst (call All_temperature_read
         (sample_session [Some (firstn 33 (frame [(32%nat, 99)]))]))
  = Raise StructError
  /\ length (sent (snd (call All_temperature_read
                         (sample_session
                            [Some (firstn 33 (frame [(32%nat, 99)]))]))))
     = 1%nat.
Proof. split; reflexivity. Qed.


(** ** Setters called with an unknown unit or sensor type (0x52, 0x56) *)

(** C10, as the code has it: for a [temperature_unit] other than "C" and
    "F", [channel_temperature_limit_set] raises and leaves the world as it
    was: nothing is packed, nothing is sent, no global changes.  The
    exception is [UnboundLocalError] when [channel] fits one byte, and the
    [OverflowError] of [channel.to_bytes], evaluated first, when it does
    not.  Likewise [channel_sensor_type_set] for a [sensor_type] other
    than "Pt-1000" and "Pt-100". *)
Theorem setter_fails_before_sending (channel : Z)
    (temperature_low temperature_high : pyfloat) (temperature_unit : string)
    (sensor_type : string) (w : world) :
  (temperature_unit <> "C" -> temperature_unit <> "F" ->
   channel_temperature_limit_set channel temperature_low temperature_high
     temperature_unit w
   = (Raise (if (0 <=? channel) && (channel <? 256)
             then UnboundLocalError else OverflowError), w))
  /\ (sensor_type <> "Pt-1000" -> sensor_type <> "Pt-100" ->
      channel_sensor_type_set channel sensor_type w
      = (Raise (if (0 <=? channel) && (channel <? 256)
                then UnboundLocalError else OverflowError), w)).
Proof.
  assert (Hb : forall n, to_bytes n 1 Big
            = if (0 <=? n) && (n <? 256) then Ok (rev (le_bytes 1 n))
              else Raise OverflowError).
  { intros n. unfold to_bytes. change (256 ^ Z.of_nat 1) with 256.
    destruct (Z.ltb_spec n 0), (Z.leb_spec 0 n), (Z.leb_spec 256 n),
      (Z.ltb_spec n 256); try lia; reflexivity. }
  split; intros H1 H2; apply String.eqb_neq in H1, H2.
  - unfold channel_temperature_limit_set.
    cbv [bind ret lift global local target raise for_each fst snd].
    rewrite H1, H2, Hb.
    destruct ((0 <=? channel) && (channel <? 256)); reflexivity.
  - unfold channel_sensor_type_set.
    cbv [bind ret lift global local target raise for_each fst snd].
    rewrite H1, H2, Hb.
    destruct ((0 <=? channel) && (channel <? 256)); reflexivity.
Qed.

Lemma setter_fails_before_sending_witness :
  channel_temperature_limit_set 2 (Single 0) (Single 0) "K"
    (sample_session [])
  = (Raise UnboundLocalError, sample_session [])
  /\ channel_sensor_type_set 2 "Pt-500" (sample_session [])
     = (Raise UnboundLocalError, sample_session []).
Proof.
  split.
  - apply (proj1 (setter_fails_before_sending 2 (Single 0) (Single 0) "K"
                    "Pt-500" (sample_session []))); discriminate.
  - apply (proj2 (setter_fails_before_sending 2 (Single 0) (Single 0) "K"
                    "Pt-500" (sample_session []))); discriminate.
Defined.

(** C10, counterexample: with a channel that does not fit one byte the
    exception is [OverflowError], not [UnboundLocalError]. *)
Lemma setter_overflow_before_unbound_local :
  fst (channel_temperature_limit_set 256 (Single 0) (Single 0) "K"
         (sample_session []))
  = Raise OverflowError
  /\ fst (channel_temperature_limit_set 256 (Single 0) (Single 0) "K"
            (sample_session []))
     <> Raise UnboundLocalError
  /\ fst (channel_sensor_type_set (-1) "Pt-500" (sample_session []))
     = Raise OverflowError.
Proof. repeat split; try reflexivity; discriminate. Qed.
(** * The catalog as a whole *)

(** ** The size of what [struct.pack] returns *)

Lemma align_up_ge (off a : nat) : (off <= align_up off a)%nat.
Proof. unfold align_up. lia. Qed.

Lemma le_bytes_length (n : nat) (v : Z) : length (le_bytes n v) = n.
Proof. revert v. induction n; intros v; cbn; [reflexivity|]. now rewrite IHn. Qed.

Lemma Ok_inj {A : Type} (a b : A) : Ok a = Ok b -> a = b.
Proof. congruence. Qed.

Lemma pack_one_length (c : fmt_code) (v : pyval) (b : bytes) :
  pack_one c 1 v = Ok b -> length b = size_of c.
Proof.
  destruct c, v; cbn [pack_one size_of]; try discriminate.
  - destruct b0 as [|x [|y l]]; try discriminate. now intros [= <-].
  - intros H. apply Ok_inj in H. subst b.
    rewrite length_firstn, length_app. cbn [length repeat]. lia.
  - unfold pack_f. intros [= <-]. reflexivity.
  - destruct (_ || _); [discriminate|]. intros [= <-]. reflexivity.
Qed.

Lemma pack_each_length (c : fmt_code) (n : nat) (args : list pyval)
    (b : bytes) (others : list pyval) :
  pack_each c n args = Ok (b, others) -> length b = (n * size_of c)%nat.
Proof.
  revert args b others. induction n; intros args b others; cbn.
  - now intros [= <- _].
  - destruct args as [|v more]; [discriminate|].
    destruct (pack_one c 1 v) eqn:E1; [|discriminate].
    destruct (pack_each c n more) as [[b' o]|] eqn:E2; [|discriminate].
    intros [= <- _]. rewrite length_app, (pack_one_length _ _ _ E1), (IHn _ _ _ E2). lia.
Qed.

Lemma pack_item_length (n : nat) (c : fmt_code) (args : list pyval)
    (b : bytes) (others : list pyval) :
  pack_item (n, c) args = Ok (b, others) -> length b = (n * size_of c)%nat.
Proof.
  destruct c; cbn [pack_item]; try apply pack_each_length.
  - intros [= <- _]. rewrite repeat_length. cbn. lia.
  - destruct args as [|v more]; [discriminate|].
    destruct v; cbn [pack_one]; try discriminate.
    intros H. apply Ok_inj in H.
    assert (E : b = firstn n (b0 ++ repeat 0 n)) by congruence. subst b.
    rewrite length_firstn, length_app, repeat_length.
    cbn [size_of]. lia.
Qed.

Lemma pack_items_length (items : list fmt_item) (off : nat)
    (args : list pyval) (b : bytes) :
  pack_items items off args = Ok b ->
  (off + length b = calcsize_items items off)%nat.
Proof.
  revert off args b. induction items as [|[n c] rest IH]; intros off args b; cbn [pack_items calcsize_items].
  - intros [= <-]. cbn. lia.
  - destruct (pack_item (n, c) args) as [[b1 others]|] eqn:E1; [|discriminate].
    destruct (pack_items rest _ others) as [b2|] eqn:E2; [|discriminate].
    intros [= <-]. apply IH in E2. apply pack_item_length in E1.
    rewrite !length_app, repeat_length. pose proof (align_up_ge off (size_of c)). lia.
Qed.

Lemma struct_pack_length (fmt : string) (args : list pyval) (b : bytes) (n : nat) :
  struct_calcsize fmt = Ok n -> struct_pack fmt args = Ok b -> length b = n.
Proof.
  unfold struct_calcsize, struct_pack.
  destruct (parse_format _ _); [|discriminate].
  intros [= <-]. destruct (Nat.eqb _ _); [|discriminate].
  intros H. apply pack_items_length in H. lia.
Qed.

Lemma struct_pack_header (fmt : string) (rest : list fmt_item)
    (card password : bytes) (code : Z) (args : list pyval) (b : bytes) :
  parse_format (list_ascii_of_string fmt) None
  = Some ((7%nat, Str) :: (8%nat, Str) :: (1%nat, Char) :: rest) ->
  struct_pack fmt (VBytes card :: VBytes password :: VBytes [code] :: args)
  = Ok b ->
  exists payload,
    b = (firstn 7 (card ++ repeat 0 7) ++ firstn 8 (password ++ repeat 0 8))
        ++ code :: payload.
Proof.
  unfold struct_pack. intros ->. destruct (Nat.eqb _ _); [|discriminate].
  cbn [pack_items pack_item pack_one pack_each size_of].
  change (align_up 0 1) with 0%nat.
  change (align_up (0 + 7 * 1) 1) with 7%nat.
  change (align_up (7 + 8 * 1) 1) with 15%nat.
  destruct (pack_items rest _ args) as [tail|]; [|discriminate].
  intros [= <-]. exists tail. cbn [repeat Nat.sub app].
  rewrite <- !app_assoc. reflexivity.
Qed.

(** ** Every request carries the identifier, the password and the code *)

Lemma sendto_keeps_password data addr w r w' :
  SOCK_sendto data addr w = (r, w') -> PASSWORD w' = PASSWORD w.
Proof.
  unfold SOCK_sendto. destruct (SOCK w); [|intros [= _ <-]; reflexivity].
  destruct (negb _); [intros [= _ <-]; reflexivity|].
  destruct (closed s); intros [= _ <-]; reflexivity.
Qed.

Lemma recvfrom_keeps_password n w r w' :
  SOCK_recvfrom n w = (r, w') -> PASSWORD w' = PASSWORD w.
Proof.
  unfold SOCK_recvfrom. destruct (SOCK w); [|intros [= _ <-]; reflexivity].
  destruct (closed s); [intros [= _ <-]; reflexivity|].
  destruct (wire_in w) as [|[d|] later]; intros [= _ <-]; reflexivity.
Qed.

Lemma firstn_header (w : world) (tail : bytes) :
  firstn 15 (header w ++ tail) = header w.
Proof.
  rewrite firstn_app, header_length, Nat.sub_diag, firstn_O, app_nil_r.
  apply firstn_all2. rewrite header_length. apply le_n.
Qed.

Lemma framed_intro (c : command) (w : world) (fmt : string)
    (rest : list fmt_item) (code : Z) (args : list pyval) (b : bytes) :
  parse_format (list_ascii_of_string fmt) None
  = Some ((7%nat, Str) :: (8%nat, Str) :: (1%nat, Char) :: rest) ->
  struct_calcsize fmt = Ok (request_size c) ->
  code = wire_code c ->
  struct_pack fmt
    (VBytes (utf8 _CARDID) :: VBytes (utf8 (PASSWORD w)) :: VBytes [code]
     :: args) = Ok b ->
  framed c w (b, (TARGETIP w, TARGETPORT w)).
Proof.
  intros Hparse Hsize Hcode Hpack.
  pose proof (struct_pack_length _ _ _ _ Hsize Hpack) as Hlen.
  destruct (struct_pack_header _ _ _ _ _ _ _ Hparse Hpack) as (payload & ->).
  repeat split; cbn [fst snd]; try assumption.
  - apply (firstn_header w).
  - rewrite Hcode. exact (nth_after_header w (wire_code c :: payload) 0).
Qed.

Ltac same_password :=
  repeat match goal with
  | H : SOCK_sendto _ _ ?w0 = (_, ?w1), G : context [PASSWORD ?w1] |- _ =>
      rewrite (sendto_keeps_password _ _ _ _ _ H) in G
  | H : SOCK_recvfrom _ ?w0 = (_, ?w1), G : context [PASSWORD ?w1] |- _ =>
      rewrite (recvfrom_keeps_password _ _ _ _ H) in G
  end.

Ltac framed_requests c w :=
  repeat match goal with
  | H : struct_pack ?fmt ?args = Ok ?b |- _ =>
      let F := fresh "F" in
      assert (F : framed c w (b, (TARGETIP w, TARGETPORT w)))
        by (eapply (framed_intro c w fmt); [reflexivity | reflexivity | reflexivity | exact H]);
      clear H
  end.

(** Whatever a command does, the requests it sent are framed. *)
Lemma call_frames (c : command) (w : world)
    (res : result (pyval * Z)) (w' : world) :
  call c w = (res, w') ->
  exists sends,
    sent w' = sent w ++ sends /\ Forall (framed c w) sends.
Proof.
  pose proof (summary_start w) as S.
  destruct c; unfold_command; explore; intros [= <- <-];
    same_password;
    match goal with |- context [framed ?c _] => framed_requests c w end;
    summarize;
    match goal with
    | S' : run_summary _ _ _ _ |- _ =>
        cbn [app] in S'; eexists; split; [apply (rs_sent _ _ _ _ S')|]
    end;
    repeat (apply Forall_cons; [assumption|]); apply Forall_nil.
Qed.

(** X1: every request that any command sends has the size of the command's
    pack format (16 to 40 bytes), starts with the card identifier in 7
    bytes and the cached password in 8, carries the command byte at offset
    15 and goes to the cached endpoint; this holds whether the call
    returns or raises. *)
Theorem requests_are_framed (c : command) (w : world) :
  exists sends,
    sent (snd (call c w)) = sent w ++ sends /\ Forall (framed c w) sends.
Proof.
  destruct (call c w) as [res w'] eqn:E. exact (call_frames c w res w' E).
Qed.

(** ** Requests and replies alternate *)

(** What went out and what came in during one call. *)
Lemma call_exchanges (c : command) (w : world)
    (res : result (pyval * Z)) (w' : world) :
  call c w = (res, w') ->
  exists sends msgs,
    sent w' = sent w ++ sends
    /\ rcvd w' = rcvd w ++ msgs
    /\ (length msgs <= length sends <= length msgs + 1)%nat
    /\ (length sends <= 2)%nat
    /\ (forall x, res = Ok x ->
          length sends = round_trips c
          /\ length msgs = length sends).
Proof.
  pose proof (summary_start w) as S.
  destruct c; unfold_command; explore; intros [= <- <-]; summarize;
    match goal with
    | S' : run_summary _ _ _ _ |- _ =>
        cbn [app] in S'; eexists _, _;
        split; [apply (rs_sent _ _ _ _ S')|];
        split; [apply (rs_rcvd _ _ _ _ S')|]
    end;
    cbn [length];
    (split; [lia|split; [lia|]]);
    intros ? [=]; split; reflexivity.
Qed.

(** X2: during one call requests and replies alternate, starting with a
    request: a call sends at most two requests and has read as many
    replies as it sent requests, or one less; a call that returns has
    completed exactly two exchanges for the two commands that address the
    channels in pairs and exactly one for every other command. *)
Theorem exchanges_alternate (c : command) (w : world) :
  exists sends msgs,
    sent (snd (call c w)) = sent w ++ sends
    /\ rcvd (snd (call c w)) = rcvd w ++ msgs
    /\ (length msgs <= length sends <= length msgs + 1)%nat
    /\ (length sends <= 2)%nat
    /\ (forall x, fst (call c w) = Ok x ->
          length sends = round_trips c
          /\ length msgs = length sends).
Proof.
  destruct (call c w) as [res w'] eqn:E. exact (call_exchanges c w res w' E).
Qed.

(** ** A reply that does not arrive *)

Lemma recvfrom_timeout (w : world) (n : nat) (later : list (option bytes)) :
  session_open w ->
  wire_in w = None :: later ->
  SOCK_recvfrom n w = (Raise SocketTimeout, log_rcvd w later []).
Proof.
  intros [(s & Hs & Hc) Hp] Hin. unfold SOCK_recvfrom.
  rewrite Hs, Hc, Hin. reflexivity.
Qed.

(** X3: on an open session whose next reply does not arrive within the
    timeout, a command either raises before sending anything and leaves
    the world as it was, or sends exactly one request to the cached
    endpoint and raises [socket.timeout]: no command retries, and no
    command catches the timeout. *)
Theorem timeout_after_one_request (c : command) (w : world)
    (later : list (option bytes)) (res : result (pyval * Z)) (w' : world) :
  session_open w ->
  wire_in w = None :: later ->
  call c w = (res, w') ->
  (exists e, res = Raise e /\ w' = w)
  \/ (res = Raise SocketTimeout
      /\ (exists request,
            sent w' = sent w ++ [(request, (TARGETIP w, TARGETPORT w))])
      /\ rcvd w' = rcvd w
      /\ wire_in w' = later).
Proof.
  intros Hopen Hin.
  destruct c; unfold_command;
    repeat (forget_ifs;
      match goal with
      | |- context [SOCK_sendto ?b (TARGETIP ?v, TARGETPORT ?v) ?v] =>
          rewrite (sendto_open v b) by session_still_open; cbv beta iota
      | |- context [SOCK_recvfrom ?n ?v] =>
          rewrite (recvfrom_timeout v n later)
            by first [exact Hin | session_still_open];
          cbv beta iota
      | |- context [match ?x with _ => _ end] =>
          lazymatch x with
          | context [match _ with _ => _ end] => fail
          | _ => destruct x eqn:?
          end
      end);
    intros [= <- <-];
    first
      [ right; cbn [sent rcvd wire_in log_sent log_rcvd];
        rewrite ?app_nil_r; repeat split; eexists; reflexivity
      | left; eexists; split; reflexivity ].
Qed.

Lemma timeout_after_one_request_witness :
  (exists e,
      fst (firmware_version_read (sample_session [None])) = Raise e
      /\ snd (firmware_version_read (sample_session [None]))
         = sample_session [None])
  \/ (fst (firmware_version_read (sample_session [None]))
      = Raise SocketTimeout
      /\ (exists request,
            sent (snd (firmware_version_read (sample_session [None])))
            = sent (sample_session [None])
              ++ [(request, (TARGETIP (sample_session [None]),
                             TARGETPORT (sample_session [None])))])
      /\ rcvd (snd (firmware_version_read (sample_session [None])))
         = rcvd (sample_session [None])
      /\ wire_in (snd (firmware_version_read (sample_session [None]))) = []).
Proof.
  exact (timeout_after_one_request Firmware_version_read
           (sample_session [None]) []
           (fst (firmware_version_read (sample_session [None])))
           (snd (firmware_version_read (sample_session [None])))
           (sample_session_open _) eq_refl eq_refl).
Defined.

(** ** Without a socket *)

Lemma call_without_socket (c : command) (w : world)
    (res : result (pyval * Z)) (w' : world) :
  no_socket w ->
  call c w = (res, w') ->
  w' = w /\ exists e, res = Raise e.
Proof.
  intros Hno.
  assert (Hsend : forall b a, exists e, SOCK_sendto b a w = (Raise e, w)).
  { intros b a. unfold SOCK_sendto.
    destruct Hno as [-> | (s & -> & ->)]; [eexists; reflexivity|].
    destruct (negb _); eexists; reflexivity. }
  destruct c; unfold_command;
    repeat (forget_ifs;
      match goal with
      | |- context [SOCK_sendto ?b ?a w] =>
          let e := fresh "e" in
          let E := fresh "E" in
          destruct (Hsend b a) as (e & E); rewrite E; cbv beta iota
      | |- context [match ?x with _ => _ end] =>
          lazymatch x with
          | context [match _ with _ => _ end] => fail
          | _ => destruct x eqn:?
          end
      end);
    intros [= <- <-]; (split; [reflexivity | eexists; reflexivity]).
Qed.

Lemma close_socket_leaves_no_socket (w : world) (s : socket) :
  SOCK w = Some s -> no_socket (snd (close_socket w)).
Proof.
  intros H. unfold close_socket. rewrite H. right. eexists. split; reflexivity.
Qed.

(** X4: while [SOCK] holds the placeholder of the module or a closed
    socket, every command raises and leaves the world as it was: nothing
    is sent and nothing is read; [close_socket] leaves the session in that
    state. *)
Theorem no_socket_no_traffic (c : command) (w : world) :
  (no_socket w -> exists e, call c w = (Raise e, w))
  /\ (forall s, SOCK w = Some s -> no_socket (snd (close_socket w))).
Proof.
  split.
  - intros Hno. destruct (call c w) as [res w'] eqn:E.
    destruct (call_without_socket c w res w' Hno E) as (-> & e & ->).
    exists e. reflexivity.
  - apply close_socket_leaves_no_socket.
Qed.

Lemma no_socket_no_traffic_witness :
  exists e,
    call Reboot_device (snd (close_socket (sample_session [])))
    = (Raise e, snd (close_socket (sample_session []))).
Proof.
  exact (proj1 (no_socket_no_traffic Reboot_device
                  (snd (close_socket (sample_session []))))
           (proj2 (no_socket_no_traffic Reboot_device (sample_session []))
              _ eq_refl)).
Defined.

(** * The single commands

    Each run below is on an open session whose next datagram is a reply of
    34 bytes. *)

(** ** Commands without arguments and fields *)

Ltac start_run f :=
  unfold f; cbv [bind ret lift global local target raise for_each fst snd].

Ltac exchange r d later Hin Hlen :=
  match goal with
  | |- context [struct_pack ?f ?a] => change (struct_pack f a) with (Ok r)
  end;
  cbv beta iota; send_open; recv_open d later Hin Hlen.

Lemma unpack_sensor_type (d : bytes) :
  length d = 34%nat ->
  struct_unpack "xxxxxxxxxxxxxxxxxxxxcxxxxxxxxxxxxx" d = Ok [VBytes [nth 20 d 0]].
Proof. intros H. explode d H. reflexivity. Qed.

Lemma unpack_sensor_types (d : bytes) :
  length d = 34%nat ->
  struct_unpack "xxxxxxxxxxxxxxxxxxxxccccxxxxxxxxxx" d
  = Ok [VBytes [nth 20 d 0]; VBytes [nth 21 d 0];
        VBytes [nth 22 d 0]; VBytes [nth 23 d 0]].
Proof. intros H. explode d H. reflexivity. Qed.

Lemma unpack_limits (d : bytes) :
  length d = 34%nat ->
  struct_unpack "xxxxffxxxxxxxxcxxxxxxxxxxxxx" d
  = Ok [unpack_f (firstn 4 (skipn 4 d)); unpack_f (firstn 4 (skipn 8 d));
        VBytes [nth 20 d 0]].
Proof. intros H. explode d H. reflexivity. Qed.

Lemma unpack_mode (d : bytes) :
  length d = 34%nat ->
  struct_unpack "xxcxxxxxxxxxxxxxxxxxxxxxxxxxxxxxxx" d = Ok [VBytes [nth 2 d 0]].
Proof. intros H. explode d H. reflexivity. Qed.

(** X5: the six commands without argument and without reply field
    ([reboot_device], [password_set_default], [control_enable],
    [control_disable], [wdt_enable], [wdt_disable]) send the 15 header
    bytes and their command byte, nothing else, and return the empty tuple
    with byte 32 of the reply as the flag. *)
Theorem bare_command_returns_flag (c : command) (code : Z) (w : world)
    (d : bytes) (later : list (option bytes)) :
  bare_code c = Some code ->
  session_open w ->
  wire_in w = Some d :: later ->
  length d = 34%nat ->
  call c w = (Ok (VTuple [], nth 32 d 0), exchanged w (header w ++ [code]) d later).
Proof.
  intros Hc Hopen Hin Hlen.
  destruct c; try discriminate Hc; injection Hc as <-; cbv [call];
    match goal with |- ?f _ = _ => start_run f end;
    match goal with
    | |- _ = (_, exchanged _ ?r _ _) => exchange r d later Hin Hlen
    end;
    rewrite (unpack_no_fields d Hlen), (bytes_index_34 d Hlen); reflexivity.
Qed.

Lemma bare_command_returns_flag_witness :
  call Control_enable (sample_session [Some (frame [(32%nat, 1)])])
  = (Ok (VTuple [], 1),
     exchanged (sample_session [Some (frame [(32%nat, 1)])])
       (header (sample_session [Some (frame [(32%nat, 1)])]) ++ [0x5C])
       (frame [(32%nat, 1)]) []).
Proof.
  exact (bare_command_returns_flag Control_enable 0x5C
           (sample_session [Some (frame [(32%nat, 1)])]) (frame [(32%nat, 1)]) []
           eq_refl (sample_session_open _) eq_refl eq_refl).
Defined.

Lemma password_change_run (new_password : string) (w : world) (d : bytes)
    (later : list (option bytes)) :
  session_open w ->
  wire_in w = Some d :: later ->
  length d = 34%nat ->
  password_change new_password w
  = (Ok (VTuple [], nth 32 d 0),
     exchanged w
       (header w ++ 0x04 :: firstn 8 (utf8 new_password ++ repeat 0 8))
       d later).
Proof.
  intros Hopen Hin Hlen. start_run password_change.
  match goal with
  | |- context [struct_pack ?f ?a] =>
      change (struct_pack f a)
        with (Ok (header w
                  ++ 0x04 :: (firstn 8 (utf8 new_password ++ repeat 0 8)
                              ++ [])))
  end.
  rewrite app_nil_r. cbv beta iota. send_open. recv_open d later Hin Hlen.
  rewrite (unpack_no_fields d Hlen), (bytes_index_34 d Hlen); reflexivity.
Qed.

(** ** Channel masks, the port and the watchdog *)

Lemma land_one (x : Z) : Z.land x 1 = x mod 2.
Proof. exact (Z.land_ones x 1 ltac:(lia)). Qed.

Lemma unpack_bits_spec (x : Z) :
  unpack_bits x
  = [x mod 2; (x / 2) mod 2; (x / 4) mod 2; (x / 8) mod 2].
Proof.
  unfold unpack_bits.
  rewrite !Z.shiftr_land.
  change (Z.shiftr 2 1) with 1. change (Z.shiftr 4 2) with 1.
  change (Z.shiftr 8 3) with 1.
  rewrite !land_one, !Z.shiftr_div_pow2 by lia. reflexivity.
Qed.

Lemma unpack_bits_are_bits (x : Z) :
  Forall (fun b => b = 0 \/ b = 1) (unpack_bits x).
Proof.
  rewrite unpack_bits_spec.
  repeat (apply Forall_cons;
    [match goal with
     | |- ?a mod 2 = 0 \/ _ => pose proof (Z.mod_pos_bound a 2 ltac:(lia)); lia
     end|]).
  apply Forall_nil.
Qed.

Lemma unpack_bits_low_nibble (x : Z) :
  unpack_bits (x mod 16) = unpack_bits x.
Proof.
  rewrite !unpack_bits_spec.
  pose proof (Z.div_mod x 16 ltac:(lia)) as E.
  pose proof (Z.mod_pos_bound x 16 ltac:(lia)) as B.
  set (q := x / 16) in *. set (r := x mod 16) in *.
  assert (H1 : x mod 2 = r mod 2).
  { rewrite E. replace (16 * q + r) with (r + (8 * q) * 2) by lia.
    apply Z.mod_add. lia. }
  assert (H2 : (x / 2) mod 2 = (r / 2) mod 2).
  { rewrite E. replace (16 * q + r) with (r + (8 * q) * 2) by lia.
    rewrite Z.div_add by lia.
    replace (r / 2 + 8 * q) with (r / 2 + (4 * q) * 2) by lia.
    apply Z.mod_add. lia. }
  assert (H3 : (x / 4) mod 2 = (r / 4) mod 2).
  { rewrite E. replace (16 * q + r) with (r + (4 * q) * 4) by lia.
    rewrite Z.div_add by lia.
    replace (r / 4 + 4 * q) with (r / 4 + (2 * q) * 2) by lia.
    apply Z.mod_add. lia. }
  assert (H4 : (x / 8) mod 2 = (r / 8) mod 2).
  { rewrite E. replace (16 * q + r) with (r + (2 * q) * 8) by lia.
    rewrite Z.div_add by lia.
    replace (r / 8 + 2 * q) with (r / 8 + q * 2) by lia.
    apply Z.mod_add. lia. }
  congruence.
Qed.

(** X6: the four readers of a channel mask ([output_read],
    [output_mode_read], [control_mask_read] from byte 1 of the reply,
    [all_sensor_status_read] from byte 24) send only header and command
    byte and return four integers, channel 0 first, each 0 or 1: the four
    low bits of the mask byte; its four high bits are ignored. *)
Theorem mask_reader_returns_bits (c : command) (k : nat) (w : world)
    (d : bytes) (later : list (option bytes)) :
  mask_offset c = Some k ->
  session_open w ->
  wire_in w = Some d :: later ->
  length d = 34%nat ->
  call c w
  = (Ok (VTuple (map VInt (unpack_bits (nth k d 0))), nth 32 d 0),
     exchanged w (header w ++ [wire_code c]) d later)
  /\ Forall (fun b => b = 0 \/ b = 1) (unpack_bits (nth k d 0))
  /\ unpack_bits (nth k d 0 mod 16) = unpack_bits (nth k d 0).
Proof.
  intros Hc Hopen Hin Hlen.
  split; [|split; [apply unpack_bits_are_bits | apply unpack_bits_low_nibble]].
  destruct c; try discriminate Hc; injection Hc as <-; cbv [call wire_code];
    match goal with |- ?f _ = _ => start_run f end;
    match goal with
    | |- _ = (_, exchanged _ ?r _ _) => exchange r d later Hin Hlen
    end;
    rewrite ?(unpack_mask d Hlen), ?(unpack_status d Hlen);
    cbn [item nth_error ord]; rewrite (bytes_index_34 d Hlen); reflexivity.
Qed.

Lemma mask_reader_returns_bits_witness :
  fst (all_sensor_status_read (sample_session [Some (frame [(24%nat, 0xF5); (32%nat, 1)])]))
  = Ok (VTuple [VInt 1; VInt 0; VInt 1; VInt 0], 1).
Proof.
  exact (f_equal fst
           (proj1 (mask_reader_returns_bits All_sensor_status_read 24
                     (sample_session [Some (frame [(24%nat, 0xF5); (32%nat, 1)])]) (frame [(24%nat, 0xF5); (32%nat, 1)]) []
                     eq_refl (sample_session_open _) eq_refl eq_refl))).
Defined.

Lemma to_bytes_port (p : Z) :
  to_bytes p 2 Little
  = if port_ok p then Ok (le_bytes 2 p) else Raise OverflowError.
Proof.
  unfold to_bytes, port_ok. change (256 ^ Z.of_nat 2) with 65536.
  destruct (Z.ltb_spec p 0), (Z.leb_spec 0 p), (Z.leb_spec 65536 p),
    (Z.leb_spec p 65535); try lia; reflexivity.
Qed.

(** X7: [change_socket_port] sends the new port as two bytes, low byte
    first, after header and command byte 0x03, and returns the empty tuple
    with the flag of the reply; a port outside 0..65535 raises
    [OverflowError] before anything is sent. *)
Theorem change_socket_port_request (new_socket_port : Z) (w : world)
    (d : bytes) (later : list (option bytes)) :
  session_open w ->
  wire_in w = Some d :: later ->
  length d = 34%nat ->
  change_socket_port new_socket_port w
  = if port_ok new_socket_port
    then (Ok (VTuple [], nth 32 d 0),
          exchanged w
            (header w ++ [0x03; new_socket_port mod 256;
                          new_socket_port / 256])
            d later)
    else (Raise OverflowError, w).
Proof.
  intros Hopen Hin Hlen. start_run change_socket_port.
  rewrite to_bytes_port. destruct (port_ok new_socket_port) eqn:Hp; [|reflexivity].
  cbv beta iota.
  assert (Hhi : (new_socket_port / 256) mod 256 = new_socket_port / 256).
  { unfold port_ok in Hp. apply andb_true_iff in Hp as [A B].
    apply Z.leb_le in A, B. apply Z.mod_small.
    split; [apply Z.div_pos; lia | apply Z.div_lt_upper_bound; lia]. }
  match goal with
  | |- context [struct_pack ?f ?a] =>
      change (struct_pack f a)
        with (Ok (header w ++ [0x03; new_socket_port mod 256;
                               (new_socket_port / 256) mod 256]))
  end.
  rewrite Hhi. cbv beta iota. send_open. recv_open d later Hin Hlen.
  rewrite (unpack_no_fields d Hlen), (bytes_index_34 d Hlen); reflexivity.
Qed.

Lemma change_socket_port_request_witness :
  change_socket_port 8000 (sample_session [Some (frame [(32%nat, 1)])])
  = (Ok (VTuple [], 1),
     exchanged (sample_session [Some (frame [(32%nat, 1)])])
       (header (sample_session [Some (frame [(32%nat, 1)])]) ++ [0x03; 64; 31])
       (frame [(32%nat, 1)]) []).
Proof.
  exact (change_socket_port_request 8000 (sample_session [Some (frame [(32%nat, 1)])]) (frame [(32%nat, 1)]) []
           (sample_session_open _) eq_refl eq_refl).
Defined.

Lemma int16_round_trip (t : Z) :
  -32768 <= t <= 32767 -> unpack_h (le_bytes 2 (t mod 65536)) = VInt t.
Proof.
  intros Ht. unfold unpack_h. cbn [le_bytes le_value].
  pose proof (Z.mod_pos_bound t 65536 ltac:(lia)) as B.
  set (m := t mod 65536) in *.
  assert (Hm : m mod 256 + 256 * ((m / 256) mod 256 + 256 * 0) = m).
  { rewrite (Z.mod_small (m / 256));
      [|split; [apply Z.div_pos; lia | apply Z.div_lt_upper_bound; lia]].
    pose proof (Z.div_mod m 256 ltac:(lia)). lia. }
  rewrite Hm. f_equal.
  destruct (Z.leb_spec 32768 m).
  - assert (t < 0).
    { destruct (Z.lt_ge_cases t 0); [assumption|].
      unfold m in *. rewrite Z.mod_small in * by lia. lia. }
    unfold m. replace t with ((t + 65536) + (-1) * 65536) at 1 by lia.
    rewrite Z.mod_add by lia. rewrite Z.mod_small by lia. lia.
  - assert (0 <= t).
    { destruct (Z.lt_ge_cases t 0); [|assumption].
      unfold m in *. replace t with ((t + 65536) + (-1) * 65536) in H by lia.
      rewrite Z.mod_add in H by lia. rewrite Z.mod_small in H by lia. lia. }
    unfold m. apply Z.mod_small. lia.
Qed.

Lemma to_bytes_one (n : Z) :
  to_bytes n 1 Big = if byte_ok n then Ok [n] else Raise OverflowError.
Proof.
  unfold to_bytes, byte_ok. change (256 ^ Z.of_nat 1) with 256.
  destruct (Z.ltb_spec n 0), (Z.leb_spec 0 n), (Z.leb_spec 256 n),
    (Z.ltb_spec n 256); try lia; try reflexivity.
  cbn. rewrite Z.mod_small by lia. reflexivity.
Qed.

Lemma byte_ok_true (n : Z) : 0 <= n < 256 -> byte_ok n = true.
Proof.
  intros H. unfold byte_ok. apply andb_true_iff.
  split; [apply Z.leb_le | apply Z.ltb_lt]; lia.
Qed.

Lemma byte_ok_false (n : Z) : ~ 0 <= n < 256 -> byte_ok n = false.
Proof.
  intros H. unfold byte_ok. destruct (Z.leb_spec 0 n), (Z.ltb_spec n 256);
    try reflexivity. lia.
Qed.

Lemma pack_wdt (card password : bytes) (code t mask : Z) :
  -32768 <= t <= 32767 ->
  struct_pack "7s8schc"
    [VBytes card; VBytes password; VBytes [code]; VInt t; VBytes [mask]]
  = Ok ((firstn 7 (card ++ repeat 0 7) ++ firstn 8 (password ++ repeat 0 8))
        ++ [code] ++ le_bytes 2 (t mod 65536) ++ [mask]).
Proof.
  intros Ht.
  assert (A : (t <? -32768) = false) by (apply Z.ltb_ge; lia).
  assert (B : (32767 <? t) = false) by (apply Z.ltb_ge; lia).
  unfold struct_pack.
  change (parse_format (list_ascii_of_string "7s8schc") None)
    with (Some [(7%nat, Str); (8%nat, Str); (1%nat, Char); (1%nat, Short);
                (1%nat, Char)]).
  cbn [length map args_wanted list_sum Nat.add Nat.eqb].
  cbn [pack_items pack_item pack_each pack_one].
  rewrite A, B. cbn [orb]. rewrite <- !app_assoc. reflexivity.
Qed.

(** X8: [wdt_set] sends the wait time as a signed 16-bit integer, low byte
    first, followed by the channel mask; [wdt_read], given a reply that
    starts with those three bytes, returns the same four channel bits and
    the same wait time (negative ones included), and as status byte 3 of
    the reply minus one. *)
Theorem wdt_settings_round_trip (b0 b1 b2 b3 t : Z) (w : world) (d : bytes)
    (later : list (option bytes)) (w2 : world) (d2 : bytes)
    (later2 : list (option bytes)) :
  (b0 = 0 \/ b0 = 1) -> (b1 = 0 \/ b1 = 1) ->
  (b2 = 0 \/ b2 = 1) -> (b3 = 0 \/ b3 = 1) ->
  -32768 <= t <= 32767 ->
  session_open w -> wire_in w = Some d :: later -> length d = 34%nat ->
  session_open w2 -> wire_in w2 = Some d2 :: later2 -> length d2 = 34%nat ->
  firstn 3 d2 = le_bytes 2 (t mod 65536) ++ [pack_bits b0 b1 b2 b3] ->
  wdt_set b0 b1 b2 b3 t w
  = (Ok (VTuple [], nth 32 d 0),
     exchanged w
       (header w ++ [0x62] ++ le_bytes 2 (t mod 65536)
        ++ [pack_bits b0 b1 b2 b3])
       d later)
  /\ wdt_read w2
     = (Ok (VTuple [VInt b0; VInt b1; VInt b2; VInt b3; VInt t;
                    VInt (nth 3 d2 0 - 1)],
            nth 32 d2 0),
        exchanged w2 (header w2 ++ [0x63]) d2 later2).
Proof.
  intros H0 H1 H2 H3 Ht Hopen Hin Hlen Hopen2 Hin2 Hlen2 Hsame.
  pose proof (pack_bits_range b0 b1 b2 b3 H0 H1 H2 H3) as Hr.
  split.
  - start_run wdt_set. rewrite to_bytes_one, byte_ok_true by lia.
    cbv beta iota.
    change (utf8 (chr 98)) with [98].
    rewrite (pack_wdt _ _ _ t _ Ht). fold (header w). cbv beta iota.
    send_open. recv_open d later Hin Hlen.
    rewrite (unpack_no_fields d Hlen), (bytes_index_34 d Hlen). reflexivity.
  - start_run wdt_read.
    match goal with
    | |- _ = (_, exchanged _ ?r _ _) => exchange r d2 later2 Hin2 Hlen2
    end.
    rewrite (unpack_wdt d2 Hlen2). cbn [item nth_error ord unpack_bits].
    rewrite (bytes_index_34 d2 Hlen2).
    assert (E2 : firstn 2 d2 = le_bytes 2 (t mod 65536)).
    { assert (E : firstn 2 (firstn 3 d2) = firstn 2 d2)
        by (rewrite firstn_firstn; reflexivity).
      rewrite Hsame in E. symmetry. exact E. }
    assert (E3 : nth 2 d2 0 = pack_bits b0 b1 b2 b3).
    { rewrite <- (firstn_skipn 3 d2), Hsame. reflexivity. }
    rewrite E2, E3, (int16_round_trip t Ht).
    destruct H0 as [-> | ->], H1 as [-> | ->], H2 as [-> | ->],
      H3 as [-> | ->]; reflexivity.
Qed.

Lemma wdt_settings_round_trip_witness :
  fst (wdt_set 1 0 1 0 (-2) (sample_session [Some (frame [(32%nat, 1)])])) = Ok (VTuple [], 1)
  /\ fst (wdt_read
            (sample_session [Some (frame [(0%nat, 254); (1%nat, 255); (2%nat, 5); (3%nat, 2); (32%nat, 1)])]))
     = Ok (VTuple [VInt 1; VInt 0; VInt 1; VInt 0; VInt (-2); VInt 1], 1).
Proof.
  pose proof (wdt_settings_round_trip 1 0 1 0 (-2)
                (sample_session [Some (frame [(32%nat, 1)])]) (frame [(32%nat, 1)]) []
                (sample_session [Some (frame [(0%nat, 254); (1%nat, 255); (2%nat, 5); (3%nat, 2); (32%nat, 1)])])
                (frame [(0%nat, 254); (1%nat, 255); (2%nat, 5); (3%nat, 2); (32%nat, 1)]) []
                (or_intror eq_refl) (or_introl eq_refl)
                (or_intror eq_refl) (or_introl eq_refl)
                ltac:(lia)
                (sample_session_open _) eq_refl eq_refl
                (sample_session_open _) eq_refl eq_refl eq_refl) as [A B].
  split; [exact (f_equal fst A) | exact (f_equal fst B)].
Defined.

(** ** Sensor types, single channels and control modes *)

Ltac exchange_to d later Hin Hlen :=
  match goal with
  | |- _ = (_, exchanged _ ?r _ _) => exchange r d later Hin Hlen
  end.

Ltac start_call :=
  cbv [call];
  match goal with
  | |- ?f ?w = _ =>
      let h := head_of f in
      unfold h;
      cbv [bind ret lift global local target raise for_each fst snd]
  end.

Ltac split_byte x :=
  destruct (Z.eqb_spec x 1) as [-> | ?];
  [|destruct (Z.eqb_spec x 2) as [-> | ?]].

(** X9: the sensor-type readers decode a sensor byte 0x01 as "Pt-1000" and
    0x02 as "Pt-100", and leave the integer 0 in the slot for any other
    byte; [channel_sensor_type_read] reads byte 20 of the reply for the
    channel it asked for, [all_sensor_type_read] reads bytes 20 to 23 for
    the channels 0 to 3. *)
Theorem sensor_type_decode (channel : Z) (w : world) (d : bytes)
    (later : list (option bytes)) :
  0 <= channel < 256 ->
  session_open w ->
  wire_in w = Some d :: later ->
  length d = 34%nat ->
  channel_sensor_type_read channel w
  = (Ok (VTuple [sensor_slot (nth 20 d 0)], nth 32 d 0),
     exchanged w (header w ++ [0x57; 0; 0; 0; channel]) d later)
  /\ all_sensor_type_read w
     = (Ok (VTuple [sensor_slot (nth 20 d 0); sensor_slot (nth 21 d 0);
                    sensor_slot (nth 22 d 0); sensor_slot (nth 23 d 0)],
            nth 32 d 0),
        exchanged w (header w ++ [0x59]) d later).
Proof.
  intros Hch Hopen Hin Hlen. split.
  - start_run channel_sensor_type_read.
    rewrite to_bytes_one, byte_ok_true by lia. cbv beta iota.
    exchange_to d later Hin Hlen.
    rewrite (unpack_sensor_type d Hlen).
    cbn [item nth_error eq_bytes bytes_eqb]. rewrite !andb_true_r.
    rewrite (bytes_index_34 d Hlen). unfold sensor_slot.
    generalize (nth 20 d 0). intros x. split_byte x; reflexivity.
  - start_run all_sensor_type_read.
    exchange_to d later Hin Hlen.
    rewrite (unpack_sensor_types d Hlen).
    cbn [item nth_error eq_bytes bytes_eqb]. rewrite !andb_true_r.
    rewrite (bytes_index_34 d Hlen). unfold sensor_slot.
    generalize (nth 20 d 0) (nth 21 d 0) (nth 22 d 0) (nth 23 d 0).
    intros x0 x1 x2 x3.
    split_byte x0; split_byte x1; split_byte x2; split_byte x3; reflexivity.
Qed.

Lemma sensor_type_decode_witness :
  fst (channel_sensor_type_read 2 (sample_session [Some (frame [(20%nat, 1); (21%nat, 2); (22%nat, 7); (32%nat, 1)])]))
  = Ok (VTuple [VStr "Pt-1000"], 1)
  /\ fst (all_sensor_type_read (sample_session [Some (frame [(20%nat, 1); (21%nat, 2); (22%nat, 7); (32%nat, 1)])]))
     = Ok (VTuple [VStr "Pt-1000"; VStr "Pt-100"; VInt 0; VInt 0], 1).
Proof.
  pose proof (sensor_type_decode 2 (sample_session [Some (frame [(20%nat, 1); (21%nat, 2); (22%nat, 7); (32%nat, 1)])]) (frame [(20%nat, 1); (21%nat, 2); (22%nat, 7); (32%nat, 1)]) []
                ltac:(lia) (sample_session_open _) eq_refl eq_refl) as [A B].
  split; [exact (f_equal fst A) | exact (f_equal fst B)].
Defined.

(** X10: [channel_temperature_read] and [channel_temperature_limit_read]
    send the channel as the last of four bytes after the command byte and
    decode the floats from offset 4 of the reply and the unit from byte 20:
    0x01 gives "C", 0x02 gives "F", and with any other unit byte the call
    raises [UnboundLocalError] after the exchange has taken place. *)
Theorem single_channel_reader_outcome (channel : Z) (w : world) (d : bytes)
    (later : list (option bytes)) :
  0 <= channel < 256 ->
  session_open w ->
  wire_in w = Some d :: later ->
  length d = 34%nat ->
  channel_temperature_read channel w
  = (match unit_name (nth 20 d 0) with
     | Some unit =>
         Ok (VTuple [unpack_f (firstn 4 (skipn 4 d)); VStr unit], nth 32 d 0)
     | None => Raise UnboundLocalError
     end,
     exchanged w (header w ++ [0x50; 0; 0; 0; channel]) d later)
  /\ channel_temperature_limit_read channel w
     = (match unit_name (nth 20 d 0) with
        | Some unit =>
            Ok (VTuple [unpack_f (firstn 4 (skipn 4 d));
                        unpack_f (firstn 4 (skipn 8 d)); VStr unit],
                nth 32 d 0)
        | None => Raise UnboundLocalError
        end,
        exchanged w (header w ++ [0x53; 0; 0; 0; channel]) d later).
Proof.
  intros Hch Hopen Hin Hlen. split.
  - start_run channel_temperature_read.
    rewrite to_bytes_one, byte_ok_true by lia. cbv beta iota.
    exchange_to d later Hin Hlen.
    rewrite (unpack_temperature d Hlen).
    cbn [item nth_error eq_bytes bytes_eqb]. rewrite !andb_true_r.
    unfold unit_name.
    destruct (nth 20 d 0 =? 2); [|destruct (nth 20 d 0 =? 1)];
      cbv beta iota; rewrite ?(bytes_index_34 d Hlen); reflexivity.
  - start_run channel_temperature_limit_read.
    rewrite to_bytes_one, byte_ok_true by lia. cbv beta iota.
    exchange_to d later Hin Hlen.
    rewrite (unpack_limits d Hlen).
    cbn [item nth_error eq_bytes bytes_eqb]. rewrite !andb_true_r.
    unfold unit_name.
    destruct (nth 20 d 0 =? 2); [|destruct (nth 20 d 0 =? 1)];
      cbv beta iota; rewrite ?(bytes_index_34 d Hlen); reflexivity.
Qed.

Lemma single_channel_reader_outcome_witness :
  fst (channel_temperature_read 3 (sample_session [Some (frame [(7%nat, 65); (20%nat, 2); (32%nat, 1)])]))
  = Ok (VTuple [VFloat (Single 1090519040); VStr "F"], 1)
  /\ fst (channel_temperature_limit_read 3 (sample_session [Some (frame [(7%nat, 65); (20%nat, 2); (32%nat, 1)])]))
     = Ok (VTuple [VFloat (Single 1090519040); VFloat (Single 0); VStr "F"],
           1).
Proof.
  pose proof (single_channel_reader_outcome 3 (sample_session [Some (frame [(7%nat, 65); (20%nat, 2); (32%nat, 1)])]) (frame [(7%nat, 65); (20%nat, 2); (32%nat, 1)]) []
                ltac:(lia) (sample_session_open _) eq_refl eq_refl) as [A B].
  split; [exact (f_equal fst A) | exact (f_equal fst B)].
Defined.

(** X11: [control_mode_set] sends a zero byte, the channel and the mode
    after command byte 0x64; [control_mode_read] sends a zero byte and the
    channel after 0x65 and returns byte 2 of the reply as the mode,
    unchanged (no offset is subtracted). *)
Theorem control_mode_round_trip (channel mode : Z) (w : world) (d : bytes)
    (later : list (option bytes)) :
  0 <= channel < 256 ->
  0 <= mode < 256 ->
  session_open w ->
  wire_in w = Some d :: later ->
  length d = 34%nat ->
  control_mode_set channel mode w
  = (Ok (VTuple [], nth 32 d 0),
     exchanged w (header w ++ [0x64; 0; channel; mode]) d later)
  /\ control_mode_read channel w
     = (Ok (VTuple [VInt (nth 2 d 0)], nth 32 d 0),
        exchanged w (header w ++ [0x65; 0; channel]) d later).
Proof.
  intros Hch Hmode Hopen Hin Hlen. split.
  - start_run control_mode_set.
    rewrite !to_bytes_one, !byte_ok_true by lia. cbv beta iota.
    exchange_to d later Hin Hlen.
    rewrite (unpack_no_fields d Hlen), (bytes_index_34 d Hlen). reflexivity.
  - start_run control_mode_read.
    rewrite !to_bytes_one, !byte_ok_true by lia. cbv beta iota.
    exchange_to d later Hin Hlen.
    rewrite (unpack_mode d Hlen). cbn [item nth_error ord].
    rewrite (bytes_index_34 d Hlen). reflexivity.
Qed.

Lemma control_mode_round_trip_witness :
  sent (snd (control_mode_set 1 3 (sample_session [Some (frame [(2%nat, 3); (32%nat, 1)])])))
  = [(header (sample_session [Some (frame [(2%nat, 3); (32%nat, 1)])]) ++ [0x64; 0; 1; 3], ("192.168.1.20", 6936))]
  /\ fst (control_mode_read 1 (sample_session [Some (frame [(2%nat, 3); (32%nat, 1)])])) = Ok (VTuple [VInt 3], 1).
Proof.
  pose proof (control_mode_round_trip 1 3 (sample_session [Some (frame [(2%nat, 3); (32%nat, 1)])]) (frame [(2%nat, 3); (32%nat, 1)]) []
                ltac:(lia) ltac:(lia) (sample_session_open _)
                eq_refl eq_refl) as [A B].
  split; [exact (f_equal (fun x => sent (snd x)) A) | exact (f_equal fst B)].
Defined.

(** X12: an argument that does not fit its field makes the call raise before
    anything is sent, and the world stays as it was: a channel outside
    0..255 raises [OverflowError] in each of the seven commands that take a
    channel; so does a mode outside 0..255 in [control_mode_set] and a
    channel mask outside 0..255 in the four mask setters; a wait time
    outside the signed 16-bit range makes [wdt_set] raise [struct.error]. *)
Theorem out_of_range_argument_sends_nothing (c : command) (channel : Z)
    (mode wait_time b0 b1 b2 b3 : Z) (w : world) :
  (channel_of c = Some channel -> ~ 0 <= channel < 256 ->
   call c w = (Raise OverflowError, w))
  /\ (0 <= channel < 256 -> ~ 0 <= mode < 256 ->
      control_mode_set channel mode w = (Raise OverflowError, w))
  /\ (0 <= pack_bits b0 b1 b2 b3 < 256 -> ~ -32768 <= wait_time <= 32767 ->
      wdt_set b0 b1 b2 b3 wait_time w = (Raise StructError, w))
  /\ (~ 0 <= pack_bits b0 b1 b2 b3 < 256 ->
      output_set b0 b1 b2 b3 w = (Raise OverflowError, w)
      /\ output_mode_set b0 b1 b2 b3 w = (Raise OverflowError, w)
      /\ control_mask_set b0 b1 b2 b3 w = (Raise OverflowError, w)
      /\ wdt_set b0 b1 b2 b3 wait_time w = (Raise OverflowError, w)).
Proof.
  split; [|split; [|split]].
  - intros Hc Hbad. apply byte_ok_false in Hbad.
    destruct c; try discriminate Hc; injection Hc as ->; start_call;
      forget_ifs; rewrite to_bytes_one, Hbad; reflexivity.
  - intros Hch Hbad. apply byte_ok_false in Hbad.
    start_run control_mode_set.
    rewrite !to_bytes_one, byte_ok_true, Hbad by lia. reflexivity.
  - intros Hmask Hbad. start_run wdt_set.
    rewrite to_bytes_one, byte_ok_true by lia. cbv beta iota.
    change (utf8 (chr 98)) with [98].
    assert (E : (wait_time <? -32768) || (32767 <? wait_time) = true).
    { destruct (Z.ltb_spec wait_time (-32768)); [reflexivity|].
      destruct (Z.ltb_spec 32767 wait_time); [reflexivity|]. lia. }
    unfold struct_pack.
    change (parse_format (list_ascii_of_string "7s8schc") None)
      with (Some [(7%nat, Str); (8%nat, Str); (1%nat, Char); (1%nat, Short);
                  (1%nat, Char)]).
    cbn [length map args_wanted list_sum Nat.add Nat.eqb].
    cbn [pack_items pack_item pack_each pack_one].
    rewrite E. reflexivity.
  - intros Hbad. apply byte_ok_false in Hbad.
    repeat split; start_call; rewrite to_bytes_one, Hbad; reflexivity.
Qed.

Lemma out_of_range_argument_sends_nothing_witness :
  call (Channel_sensor_type_read 256) (sample_session [])
  = (Raise OverflowError, sample_session [])
  /\ wdt_set 1 0 1 0 40000 (sample_session [])
     = (Raise StructError, sample_session []).
Proof.
  pose proof (out_of_range_argument_sends_nothing
                (Channel_sensor_type_read 256) 256 0 40000 1 0 1 0
                (sample_session [])) as (A & _ & B & _).
  split; [apply (A eq_refl); lia | apply B; [vm_compute; split; [discriminate | reflexivity] | lia]].
Defined.

(** ** What the setters put on the wire *)

Lemma unit_known_cases (u : string) :
  unit_known u = true -> u = "C" \/ u = "F".
Proof.
  unfold unit_known. intros H. apply orb_true_iff in H.
  destruct H as [H | H]; apply String.eqb_eq in H; auto.
Qed.

Lemma sensor_known_cases (t : string) :
  sensor_known t = true -> t = "Pt-1000" \/ t = "Pt-100".
Proof.
  unfold sensor_known. intros H. apply orb_true_iff in H.
  destruct H as [H | H]; apply String.eqb_eq in H; auto.
Qed.

Ltac eval_tests :=
  cbn [item nth_error String.eqb Ascii.eqb Bool.eqb assign Nat.mul Nat.add];
  cbv beta iota.

(** X13: the sensor-type setters send, between the selector bytes and the
    sensor bytes, a reserved field of 16 bytes that holds four zero bytes
    followed by twelve blanks (0x20), and encode "Pt-1000" as 0x01 and
    "Pt-100" as 0x02; [channel_sensor_type_set] sends one sensor byte for
    the channel named in the selector, [all_sensor_type_set] four. *)
Theorem sensor_type_setter_request (channel : Z) (t t0 t1 t2 t3 : string)
    (w : world) (d : bytes) (later : list (option bytes)) :
  0 <= channel < 256 ->
  sensor_known t = true ->
  sensor_known t0 = true -> sensor_known t1 = true ->
  sensor_known t2 = true -> sensor_known t3 = true ->
  session_open w ->
  wire_in w = Some d :: later ->
  length d = 34%nat ->
  channel_sensor_type_set channel t w
  = (Ok (VTuple [], nth 32 d 0),
     exchanged w
       (header w ++ [0x56; 0; 0; 0; channel] ++ reserved16 ++ [sensor_code t])
       d later)
  /\ all_sensor_type_set t0 t1 t2 t3 w
     = (Ok (VTuple [], nth 32 d 0),
        exchanged w
          (header w ++ [0x58; 0; 0; 0; 0] ++ reserved16
           ++ [sensor_code t0; sensor_code t1; sensor_code t2;
               sensor_code t3])
          d later).
Proof.
  intros Hch Ht Ht0 Ht1 Ht2 Ht3 Hopen Hin Hlen.
  apply sensor_known_cases in Ht, Ht0, Ht1, Ht2, Ht3.
  split.
  - destruct Ht as [-> | ->]; start_run channel_sensor_type_set; eval_tests;
      rewrite to_bytes_one, byte_ok_true by lia; cbv beta iota;
      exchange_to d later Hin Hlen;
      rewrite (unpack_no_fields d Hlen), (bytes_index_34 d Hlen);
      reflexivity.
  - destruct Ht0 as [-> | ->], Ht1 as [-> | ->], Ht2 as [-> | ->],
      Ht3 as [-> | ->];
      start_run all_sensor_type_set; eval_tests;
      exchange_to d later Hin Hlen;
      rewrite (unpack_no_fields d Hlen), (bytes_index_34 d Hlen);
      reflexivity.
Qed.

Lemma sensor_type_setter_request_witness :
  sent (snd (channel_sensor_type_set 2 "Pt-100" (sample_session [Some (frame [(32%nat, 1)])])))
  = [(header (sample_session [Some (frame [(32%nat, 1)])]) ++ [0x56; 0; 0; 0; 2] ++ reserved16 ++ [2],
      ("192.168.1.20", 6936))]
  /\ sent (snd (all_sensor_type_set "Pt-1000" "Pt-100" "Pt-100" "Pt-1000"
                  (sample_session [Some (frame [(32%nat, 1)])])))
     = [(header (sample_session [Some (frame [(32%nat, 1)])]) ++ [0x58; 0; 0; 0; 0] ++ reserved16 ++ [1; 2; 2; 1],
         ("192.168.1.20", 6936))].
Proof.
  pose proof (sensor_type_setter_request 2 "Pt-100"
                "Pt-1000" "Pt-100" "Pt-100" "Pt-1000"
                (sample_session [Some (frame [(32%nat, 1)])]) (frame [(32%nat, 1)]) []
                ltac:(lia) eq_refl eq_refl eq_refl eq_refl eq_refl
                (sample_session_open _) eq_refl eq_refl) as [A B].
  split; [exact (f_equal (fun x => sent (snd x)) A)
         | exact (f_equal (fun x => sent (snd x)) B)].
Defined.

(** X14: [all_sensor_type_set] with a sensor type that is neither
    "Pt-1000" nor "Pt-100" in any of the four positions raises
    [struct.error] (the slot keeps the integer 0, which the pack format
    refuses) and sends nothing. *)
Theorem all_sensor_type_set_unknown_type (t0 t1 t2 t3 : string) (w : world) :
  sensor_known t0 && sensor_known t1 && sensor_known t2 && sensor_known t3
  = false ->
  all_sensor_type_set t0 t1 t2 t3 w = (Raise StructError, w).
Proof.
  unfold sensor_known. start_run all_sensor_type_set.
  cbn [item nth_error].
  destruct (String.eqb t0 "Pt-1000"), (String.eqb t0 "Pt-100"),
    (String.eqb t1 "Pt-1000"), (String.eqb t1 "Pt-100"),
    (String.eqb t2 "Pt-1000"), (String.eqb t2 "Pt-100"),
    (String.eqb t3 "Pt-1000"), (String.eqb t3 "Pt-100");
    cbn [orb andb]; intros H; try discriminate H; reflexivity.
Qed.

Lemma all_sensor_type_set_unknown_type_witness :
  all_sensor_type_set "Pt-1000" "Pt-100" "PT100" "Pt-100" (sample_session [])
  = (Raise StructError, sample_session []).
Proof.
  exact (all_sensor_type_set_unknown_type "Pt-1000" "Pt-100" "PT100" "Pt-100"
           (sample_session []) eq_refl).
Defined.

(** X15: [channel_temperature_limit_set] sends the channel as the last of
    four selector bytes, the two limits as single-precision images, eight
    zero bytes where command 0x54 carries the limits of a second channel,
    and one unit byte (0x01 for "C", 0x02 for "F"), and returns the empty
    tuple with the flag of the reply.  A limit outside the
    single-precision range does not make the call raise: it is sent as
    the image of the infinity of its sign. *)
Theorem channel_limit_setter_request (channel : Z) (low high : pyfloat)
    (u : string) (w : world) (d : bytes) (later : list (option bytes)) :
  0 <= channel < 256 ->
  unit_known u = true ->
  session_open w ->
  wire_in w = Some d :: later ->
  length d = 34%nat ->
  channel_temperature_limit_set channel low high u w
  = (Ok (VTuple [], nth 32 d 0),
     exchanged w
       (header w ++ [0x52; 0; 0; 0; channel]
        ++ le_bytes 4 (single_image low) ++ le_bytes 4 (single_image high)
        ++ repeat 0 8 ++ [unit_code u])
       d later)
  /\ le_bytes 4 (single_image (TooLarge false)) = [0; 0; 128; 127]
  /\ le_bytes 4 (single_image (TooLarge true)) = [0; 0; 128; 255].
Proof.
  intros Hch Hu Hopen Hin Hlen. apply unit_known_cases in Hu.
  split; [|split; reflexivity].
  destruct Hu as [-> | ->]; start_run channel_temperature_limit_set;
    eval_tests; rewrite to_bytes_one, byte_ok_true by lia; cbv beta iota;
    exchange_to d later Hin Hlen;
    rewrite (unpack_no_fields d Hlen), (bytes_index_34 d Hlen);
    reflexivity.
Qed.

Lemma channel_limit_setter_request_witness :
  sent (snd (channel_temperature_limit_set 1 (Single 1090519040)
               (TooLarge true) "F"
               (sample_session [Some (frame [(32%nat, 1)])])))
  = [(header (sample_session [Some (frame [(32%nat, 1)])])
      ++ [0x52; 0; 0; 0; 1]
      ++ [0; 0; 0; 65] ++ [0; 0; 128; 255] ++ repeat 0 8 ++ [2],
      ("192.168.1.20", 6936))].
Proof.
  exact (f_equal (fun x => sent (snd x))
           (proj1 (channel_limit_setter_request 1 (Single 1090519040)
                     (TooLarge true) "F"
                     (sample_session [Some (frame [(32%nat, 1)])])
                     (frame [(32%nat, 1)]) []
                     ltac:(lia) eq_refl (sample_session_open _)
                     eq_refl eq_refl))).
Defined.

(** X16: [all_temperature_limit_set] is not atomic.  A unit string other
    than "C" and "F" for channel 0 or 1 raises [struct.error] before
    anything is sent; with good units for channels 0 and 1 and a bad one
    for channel 2 or 3, the request for the first pair has been sent and
    its reply read when the packing of the second request raises
    [struct.error]: the device has then taken the limits of channels 0 and
    1 only. *)
Theorem all_limits_setter_unknown_unit
    (l0 h0 l1 h1 l2 h2 l3 h3 : pyfloat) (u0 u1 u2 u3 : string)
    (w : world) (d1 : bytes) (later : list (option bytes)) :
  (unit_known u0 && unit_known u1 = false ->
   all_temperature_limit_set
     l0 h0 u0 l1 h1 u1 l2 h2 u2 l3 h3 u3 w
   = (Raise StructError, w))
  /\ (unit_known u0 = true -> unit_known u1 = true ->
      unit_known u2 && unit_known u3 = false ->
      session_open w ->
      wire_in w = Some d1 :: later ->
      length d1 = 34%nat ->
      all_temperature_limit_set
        l0 h0 u0 l1 h1 u1 l2 h2 u2 l3 h3 u3 w
      = (Raise StructError,
         exchanged w
           (limit_request w 0 (single_image l0) (single_image h0)
              (single_image l1) (single_image h1)
              (unit_code u0) (unit_code u1))
           d1 later)).
Proof.
  split.
  - unfold unit_known. start_run all_temperature_limit_set.
    cbn [item nth_error Nat.mul Nat.add].
    destruct (String.eqb u0 "C"), (String.eqb u0 "F"),
      (String.eqb u1 "C"), (String.eqb u1 "F");
      cbn [orb andb]; intros H; try discriminate H;
      destruct (String.eqb u2 "C"), (String.eqb u2 "F"),
        (String.eqb u3 "C"), (String.eqb u3 "F"); reflexivity.
  - intros Hu0 Hu1 Hbad Hopen Hin Hlen.
    apply unit_known_cases in Hu0, Hu1. revert Hbad. unfold unit_known.
    destruct Hu0 as [-> | ->], Hu1 as [-> | ->];
      start_run all_temperature_limit_set; eval_tests;
      destruct (String.eqb u2 "C"), (String.eqb u2 "F"),
        (String.eqb u3 "C"), (String.eqb u3 "F");
      cbn [orb andb]; intros H; try discriminate H;
      cbn [assign item nth_error]; cbv beta iota;
      change (to_bytes (Z.of_nat 0) 1 Big) with (Ok [0]); cbv beta iota;
      exchange_to d1 later Hin Hlen;
      rewrite (unpack_no_fields d1 Hlen); reflexivity.
Qed.

Lemma all_limits_setter_unknown_unit_witness :
  length (sent (snd (all_temperature_limit_set
                       (Single 0) (Single 1) "C" (Single 0) (Single 1) "C"
                       (Single 0) (Single 1) "K" (Single 0) (Single 1) "C"
                       (sample_session [Some (frame [(32%nat, 1)])])))) = 1%nat
  /\ fst (all_temperature_limit_set
             (Single 0) (Single 1) "C" (Single 0) (Single 1) "C"
             (Single 0) (Single 1) "K" (Single 0) (Single 1) "C"
             (sample_session [Some (frame [(32%nat, 1)])])) = Raise StructError.
Proof.
  pose proof (proj2 (all_limits_setter_unknown_unit
                       (Single 0) (Single 1) (Single 0) (Single 1)
                       (Single 0) (Single 1) (Single 0) (Single 1)
                       "C" "C" "K" "C" (sample_session [Some (frame [(32%nat, 1)])]) (frame [(32%nat, 1)]) [])
                eq_refl eq_refl eq_refl (sample_session_open _)
                eq_refl eq_refl) as A.
  split; [exact (f_equal (fun x => length (sent (snd x))) A)
         | exact (f_equal fst A)].
Defined.

(** ** The address of [change_ip] *)

Lemma split_on_length (sep : ascii) (s : string) :
  length (split_on sep s) = S (occurrences sep s).
Proof.
  induction s as [|a rest IH]; [reflexivity|].
  cbn [split_on occurrences]. destruct (Ascii.eqb a sep).
  - cbn [length]. now rewrite IH.
  - destruct (split_on sep rest); [discriminate IH|]. exact IH.
Qed.

Lemma split_on_no_sep (sep : ascii) (s : string) :
  occurrences sep s = O -> split_on sep s = [s].
Proof.
  induction s as [|a rest IH]; [reflexivity|].
  cbn [split_on occurrences]. destruct (Ascii.eqb a sep); [discriminate|].
  intros H. rewrite (IH H). reflexivity.
Qed.

Lemma split_on_append (sep : ascii) (s rest : string) :
  occurrences sep s = O ->
  split_on sep (String.append s (String sep rest)) = s :: split_on sep rest.
Proof.
  induction s as [|a s IH]; cbn [String.append split_on occurrences].
  - intros _. rewrite Ascii.eqb_refl. reflexivity.
  - destruct (Ascii.eqb a sep); [discriminate|].
    intros H. rewrite (IH H). reflexivity.
Qed.

Lemma octets_checked :
  forallb (fun n => octet_checked (Z.of_nat n)) (seq 0 256) = true.
Proof. vm_compute. reflexivity. Qed.

Lemma octet_checked_true (n : Z) : 0 <= n < 256 -> octet_checked n = true.
Proof.
  intros H. pose proof octets_checked as A.
  rewrite forallb_forall in A. specialize (A (Z.to_nat n)).
  rewrite Z2Nat.id in A by lia. apply A. apply in_seq. lia.
Qed.

Lemma octet_facts (n : Z) :
  0 <= n < 256 ->
  occurrences "."%char (str n) = O /\ int_of_str (str n) = Ok n.
Proof.
  intros H. pose proof (octet_checked_true n H) as A.
  unfold octet_checked in A. apply andb_true_iff in A as [A B].
  apply Nat.eqb_eq in A. split; [exact A|].
  destruct (int_of_str (str n)); [|discriminate].
  apply Z.eqb_eq in B. congruence.
Qed.

Lemma split_dotted (a b c d : Z) (tail : list string) (rest : string) :
  0 <= a < 256 -> 0 <= b < 256 -> 0 <= c < 256 -> 0 <= d < 256 ->
  split_on "."%char (dotted a b c d) = [str a; str b; str c; str d]
  /\ split_on "."%char (String.append (dotted a b c d) (String "." rest))
     = [str a; str b; str c; str d] ++ split_on "."%char rest.
Proof.
  intros Ha Hb Hc Hd.
  destruct (octet_facts a Ha) as [Na _], (octet_facts b Hb) as [Nb _],
    (octet_facts c Hc) as [Nc _], (octet_facts d Hd) as [Nd _].
  assert (Dot : forall x, String.append "." x = String "."%char x)
    by reflexivity.
  unfold dotted. split.
  - rewrite !Dot, !split_on_append by assumption.
    rewrite split_on_no_sep by assumption. reflexivity.
  - assert (E : forall x y z : string,
               String.append (String.append x y) z
               = String.append x (String.append y z)).
    { intros x y z. induction x; cbn; congruence. }
    rewrite !E, !Dot, !split_on_append by assumption. reflexivity.
Qed.

Lemma ip_octet_dotted (ip : string) (parts : list string) (i : nat) (n : Z) :
  split_on "."%char ip = parts ->
  nth_error parts i = Some (str n) ->
  0 <= n < 256 ->
  ip_octet ip i = Ok [n].
Proof.
  intros Hs Hn Hr. unfold ip_octet, item. rewrite Hs, Hn.
  rewrite (proj2 (octet_facts n Hr)). apply to_bytes_byte. exact Hr.
Qed.

(** X17: [change_ip] with a dotted quad of four integers in 0..255 sends
    the four integers as four bytes after command byte 0x06 and returns
    the empty tuple with the flag of the reply; whatever follows a fourth
    dot is ignored, the call behaves as for the first four parts. *)
Theorem change_ip_request (a b c d : Z) (extra : string) (w : world)
    (reply : bytes) (later : list (option bytes)) :
  0 <= a < 256 -> 0 <= b < 256 -> 0 <= c < 256 -> 0 <= d < 256 ->
  session_open w ->
  wire_in w = Some reply :: later ->
  length reply = 34%nat ->
  change_ip (dotted a b c d) w
  = (Ok (VTuple [], nth 32 reply 0),
     exchanged w (header w ++ [0x06; a; b; c; d]) reply later)
  /\ change_ip (String.append (dotted a b c d) (String "." extra)) w
     = change_ip (dotted a b c d) w.
Proof.
  intros Ha Hb Hc Hd Hopen Hin Hlen.
  destruct (split_dotted a b c d [] extra Ha Hb Hc Hd) as [S1 S2].
  assert (Hrun : forall ip tail,
    split_on "."%char ip = [str a; str b; str c; str d] ++ tail ->
    change_ip ip w
    = (Ok (VTuple [], nth 32 reply 0),
       exchanged w (header w ++ [0x06; a; b; c; d]) reply later)).
  { intros ip tail Hs. start_run change_ip.
    rewrite (ip_octet_dotted ip _ 0 a Hs eq_refl Ha),
      (ip_octet_dotted ip _ 1 b Hs eq_refl Hb),
      (ip_octet_dotted ip _ 2 c Hs eq_refl Hc),
      (ip_octet_dotted ip _ 3 d Hs eq_refl Hd).
    cbv beta iota. exchange_to reply later Hin Hlen.
    rewrite (unpack_no_fields reply Hlen), (bytes_index_34 reply Hlen).
    reflexivity. }
  split.
  - apply (Hrun _ []). exact S1.
  - rewrite (Hrun _ _ S2). symmetry. apply (Hrun _ []). exact S1.
Qed.

Lemma change_ip_request_witness :
  change_ip "192.168.1.30" (sample_session [Some (frame [(32%nat, 1)])])
  = (Ok (VTuple [], 1),
     exchanged (sample_session [Some (frame [(32%nat, 1)])]) (header (sample_session [Some (frame [(32%nat, 1)])]) ++ [0x06; 192; 168; 1; 30]) (frame [(32%nat, 1)]) [])
  /\ change_ip "192.168.1.30.77" (sample_session [Some (frame [(32%nat, 1)])]) = change_ip "192.168.1.30" (sample_session [Some (frame [(32%nat, 1)])]).
Proof.
  exact (change_ip_request 192 168 1 30 "77" (sample_session [Some (frame [(32%nat, 1)])]) (frame [(32%nat, 1)]) []
           ltac:(lia) ltac:(lia) ltac:(lia) ltac:(lia)
           (sample_session_open _) eq_refl eq_refl).
Defined.

Lemma ip_octet_error (ip : string) (i : nat) (e : exn) :
  ip_octet ip i = Raise e ->
  e = IndexError \/ e = ValueError \/ e = OverflowError.
Proof.
  unfold ip_octet, item. destruct (nth_error _ _); [|intros [= <-]; auto].
  unfold int_of_str.
  match goal with |- context [match ?x with Some n => Ok n | None => _ end] =>
    destruct x end; [|intros [= <-]; auto].
  unfold to_bytes. destruct (_ <? _); [intros [= <-]; auto|].
  destruct (_ <=? _); [intros [= <-]; auto|discriminate].
Qed.

(** X18: [change_ip] with an address that has fewer than three dots raises
    [IndexError], [ValueError] or [OverflowError] and sends nothing: the
    four parts are converted before the request is packed. *)
Theorem change_ip_needs_four_parts (new_ip : string) (w : world) :
  (occurrences "."%char new_ip < 3)%nat ->
  exists e,
    change_ip new_ip w = (Raise e, w)
    /\ (e = IndexError \/ e = ValueError \/ e = OverflowError).
Proof.
  intros Hdots.
  assert (H3 : ip_octet new_ip 3 = Raise IndexError).
  { unfold ip_octet, item.
    destruct (nth_error (split_on "." new_ip) 3) eqn:E; [|reflexivity].
    exfalso.
    assert (L : (3 < length (split_on "." new_ip))%nat)
      by (apply nth_error_Some; congruence).
    rewrite split_on_length in L. lia. }
  start_run change_ip.
  destruct (ip_octet new_ip 0) eqn:E0;
    [|eexists; split; [reflexivity | eapply ip_octet_error; eassumption]].
  destruct (ip_octet new_ip 1) eqn:E1;
    [|eexists; split; [reflexivity | eapply ip_octet_error; eassumption]].
  destruct (ip_octet new_ip 2) eqn:E2;
    [|eexists; split; [reflexivity | eapply ip_octet_error; eassumption]].
  rewrite H3. eexists; split; [reflexivity | auto].
Qed.

Lemma change_ip_needs_four_parts_witness :
  exists e,
    change_ip "192.168.1" (sample_session []) = (Raise e, sample_session [])
    /\ (e = IndexError \/ e = ValueError \/ e = OverflowError).
Proof.
  apply (change_ip_needs_four_parts "192.168.1" (sample_session [])).
  vm_compute. lia.
Defined.

(** ** The cached password and [init] *)

(** The requests of a command run in a world that has the password and the
    endpoint of [w] start with the header of [w] and go to its endpoint. *)
Lemma later_requests_carry (c : command) (w1 w : world) :
  PASSWORD w1 = PASSWORD w ->
  TARGETIP w1 = TARGETIP w ->
  TARGETPORT w1 = TARGETPORT w ->
  exists sends,
    sent (snd (call c w1)) = sent w1 ++ sends
    /\ Forall (fun x => firstn 15 (fst x) = header w
                        /\ snd x = (TARGETIP w, TARGETPORT w)) sends.
Proof.
  intros Hp Hi Ht. destruct (call c w1) as [res w2] eqn:E.
  apply call_frames in E. destruct E as (sends & Hs & Hf).
  exists sends. split; [exact Hs|].
  eapply Forall_impl; [|exact Hf].
  intros x (_ & A & _ & B). unfold header in *.
  rewrite Hp in A. rewrite Hi, Ht in B. auto.
Qed.

(** X19: [password_change] sends the new password cut or zero-padded to 8
    bytes after command byte 0x04, under the old password, and returns the
    flag of the reply; neither it nor [password_set_default] assigns the
    cached [PASSWORD], so every request of any later command still carries
    the old password in its header. *)
Theorem password_change_not_cached (new_password : string) (c : command)
    (w : world) (d : bytes) (later : list (option bytes)) :
  session_open w ->
  wire_in w = Some d :: later ->
  length d = 34%nat ->
  password_change new_password w
  = (Ok (VTuple [], nth 32 d 0),
     exchanged w
       (header w ++ 0x04 :: firstn 8 (utf8 new_password ++ repeat 0 8))
       d later)
  /\ PASSWORD (snd (password_change new_password w)) = PASSWORD w
  /\ PASSWORD (snd (password_set_default w)) = PASSWORD w
  /\ (exists sends,
        sent (snd (call c (snd (password_change new_password w))))
        = sent (snd (password_change new_password w)) ++ sends
        /\ Forall (fun x => firstn 15 (fst x) = header w
                            /\ snd x = (TARGETIP w, TARGETPORT w)) sends)
  /\ (exists sends,
        sent (snd (call c (snd (password_set_default w))))
        = sent (snd (password_set_default w)) ++ sends
        /\ Forall (fun x => firstn 15 (fst x) = header w
                            /\ snd x = (TARGETIP w, TARGETPORT w)) sends).
Proof.
  intros Hopen Hin Hlen.
  pose proof (password_change_run new_password w d later Hopen Hin Hlen) as R1.
  assert (R2 : exists sends msgs,
             run_summary w (snd (password_set_default w)) sends msgs).
  { destruct (password_set_default w) as [r w1] eqn:E.
    apply (call_summary Password_set_default) in E.
    destruct E as (sends & msgs & S & _). eauto. }
  destruct R2 as (sends2 & msgs2 & S2).
  split; [exact R1|]. rewrite R1. cbn [snd].
  split; [reflexivity|].
  split; [apply (rs_password _ _ _ _ S2)|].
  split; apply later_requests_carry;
    first [reflexivity
          | apply (rs_password _ _ _ _ S2)
          | apply (rs_targetip _ _ _ _ S2)
          | apply (rs_targetport _ _ _ _ S2)].
Qed.

Lemma password_change_not_cached_witness :
  sent (snd (password_change "secret"
               (sample_session [Some (frame [(32%nat, 1)])])))
  = [(header (sample_session []) ++ [0x04; 115; 101; 99; 114; 101; 116; 0; 0],
      ("192.168.1.20", 6936))]
  /\ PASSWORD (snd (password_change "secret"
                      (sample_session [Some (frame [(32%nat, 1)])])))
     = "12345678".
Proof.
  pose proof (password_change_not_cached "secret" Firmware_version_read
                (sample_session [Some (frame [(32%nat, 1)])])
                (frame [(32%nat, 1)]) []
                (sample_session_open _) eq_refl eq_refl) as (A & B & _).
  split; [exact (f_equal (fun x => sent (snd x)) A) | exact B].
Defined.

(** X20: [init] with a host port and a target port in 0..65535 returns
    (failures of the operating system to bind apart) and leaves an open
    session, whatever the state before: the cached password
    is the one given, or "12345678" when the argument is left out, and
    every request of the next command starts with the card identifier
    "EMA8314" and that password and goes to the target given to [init]. *)
Theorem init_opens_session (host_ip : string) (host_port : Z)
    (target_ip : string) (target_port : Z) (password : option string)
    (c : command) (w : world) :
  port_ok host_port = true ->
  port_ok target_port = true ->
  fst (init host_ip host_port target_ip target_port password w) = Ok tt
  /\ session_open (snd (init host_ip host_port target_ip target_port password w))
  /\ PASSWORD (snd (init host_ip host_port target_ip target_port password w))
     = match password with Some p => p | None => "12345678" end
  /\ (exists sends,
        sent (snd (call c (snd (init host_ip host_port target_ip target_port
                                  password w))))
        = sent w ++ sends
        /\ Forall
             (fun x =>
                firstn 15 (fst x)
                = firstn 7 (utf8 "EMA8314" ++ repeat 0 7)
                  ++ firstn 8 (utf8 (match password with
                                     | Some p => p
                                     | None => "12345678"
                                     end) ++ repeat 0 8)
                /\ snd x = (target_ip, target_port))
             sends).
Proof.
  intros Hh Ht. unfold init. rewrite Hh. cbn [negb fst snd].
  split; [reflexivity|]. split.
  { split; [eexists; split; reflexivity | exact Ht]. }
  split; [reflexivity|].
  match goal with
  | |- context [call c ?w1] =>
      destruct (later_requests_carry c w1 w1 eq_refl eq_refl eq_refl)
        as (sends & Hs & Hf)
  end.
  exists sends. split; [exact Hs | exact Hf].
Qed.

Lemma init_opens_session_witness :
  fst (init "192.168.1.10" 17120 "192.168.1.20" 6936 None
         (sample_session [])) = Ok tt
  /\ PASSWORD (snd (init "192.168.1.10" 17120 "192.168.1.20" 6936 None
                      (sample_session []))) = "12345678".
Proof.
  pose proof (init_opens_session "192.168.1.10" 17120 "192.168.1.20" 6936
                None Firmware_version_read (sample_session [])
                eq_refl eq_refl) as (A & _ & B & _).
  split; [exact A | exact B].
Defined.



(** * The logging script *)

(** ** One line of the log *)

Lemma exchanged_open (w : world) (r d : bytes) (later : list (option bytes)) :
  session_open w -> session_open (exchanged w r d later).
Proof. intros H. unfold exchanged. session_still_open. Qed.

Lemma status_read_run (w : world) (d : bytes) (later : list (option bytes)) :
  session_open w ->
  wire_in w = Some d :: later ->
  length d = 34%nat ->
  all_sensor_status_read w
  = (Ok (VTuple (map VInt (unpack_bits (nth 24 d 0))), nth 32 d 0),
     exchanged w (header w ++ [0x5A]) d later).
Proof.
  intros Hopen Hin Hlen. start_run all_sensor_status_read.
  exchange_to d later Hin Hlen.
  rewrite (unpack_status d Hlen). cbn [item nth_error ord].
  rewrite (bytes_index_34 d Hlen). reflexivity.
Qed.

Lemma temperature_read_run (channel : Z) (w : world) (d : bytes)
    (later : list (option bytes)) :
  0 <= channel < 256 ->
  session_open w ->
  wire_in w = Some d :: later ->
  length d = 34%nat ->
  channel_temperature_read channel w
  = (match unit_name (nth 20 d 0) with
     | Some unit =>
         Ok (VTuple [unpack_f (firstn 4 (skipn 4 d)); VStr unit], nth 32 d 0)
     | None => Raise UnboundLocalError
     end,
     exchanged w (header w ++ [0x50; 0; 0; 0; channel]) d later).
Proof.
  intros Hch Hopen Hin Hlen. start_run channel_temperature_read.
  rewrite to_bytes_one, byte_ok_true by lia. cbv beta iota.
  exchange_to d later Hin Hlen.
  rewrite (unpack_temperature d Hlen).
  cbn [item nth_error eq_bytes bytes_eqb]. rewrite !andb_true_r.
  unfold unit_name.
  destruct (nth 20 d 0 =? 2); [|destruct (nth 20 d 0 =? 1)];
    cbv beta iota; rewrite ?(bytes_index_34 d Hlen); reflexivity.
Qed.

Section Script.
Variable py_str : pyval -> string.

Ltac read_temperature :=
  match goal with
  | |- context [channel_temperature_read ?ch ?v] =>
      match goal with
      | Hl : length ?d = 34%nat, Hu : unit_name (nth 20 ?d 0) <> None |- _ =>
          rewrite (temperature_read_run ch v d _ ltac:(lia)
                     ltac:(repeat apply exchanged_open; assumption)
                     eq_refl Hl);
          destruct (unit_name (nth 20 d 0)); [|contradiction];
          clear Hu Hl; cbv beta iota;
          cbn [fst logging.subscript item nth_error]; cbv beta iota
      end
  end.

(** X22: with the settings the script ships with, [string] sends one
    status request (0x5A) and then one temperature request (0x50) for
    each channel whose status bit is 0, in channel order, and none for the
    others; given replies of 34 bytes with a known unit byte, the line it
    returns has one field per channel, each after a tab: the temperature of
    the reply where the status bit is 0, "NaN" where it is not. *)
Theorem log_line_reads_connected_channels (w : world) (d0 : bytes)
    (ds : list bytes) (later : list (option bytes)) :
  session_open w ->
  length d0 = 34%nat ->
  wire_in w = Some d0 :: map Some ds ++ later ->
  length ds
  = length (filter (fun b => b =? 0) (unpack_bits (nth 24 d0 0))) ->
  Forall (fun d => length d = 34%nat /\ unit_name (nth 20 d 0) <> None) ds ->
  fst (logging.string py_str w)
  = Ok (temperature_fields py_str "" (unpack_bits (nth 24 d0 0)) ds)
  /\ sent (snd (logging.string py_str w))
     = sent w
       ++ map (fun r => (r, (TARGETIP w, TARGETPORT w)))
            ((header w ++ [0x5A])
             :: temperature_requests w (unpack_bits (nth 24 d0 0)) 0)
  /\ rcvd (snd (logging.string py_str w)) = rcvd w ++ d0 :: ds
  /\ wire_in (snd (logging.string py_str w)) = later.
Proof.
  intros Hopen Hl0 Hin Hlen Hall.
  unfold logging.string. cbv [bind].
  rewrite (status_read_run w d0 _ Hopen Hin Hl0). cbv beta iota.
  revert Hlen. unfold unpack_bits. cbn [map fst]. cbv [lift logging.len].
  cbn [length map seq for_each]. cbv [bind lift ret].
  change (logging.wanted 0 0 logging.ALL_TEMP) with (@Ok bool true).
  change (logging.wanted 0 1 logging.ALL_TEMP) with (@Ok bool true).
  change (logging.wanted 0 2 logging.ALL_TEMP) with (@Ok bool true).
  change (logging.wanted 0 3 logging.ALL_TEMP) with (@Ok bool true).
  change (logging.wanted 1 0 logging.ALL_SENSOR) with (@Ok bool false).
  change (logging.wanted 1 1 logging.ALL_SENSOR) with (@Ok bool false).
  change (logging.wanted 1 2 logging.ALL_SENSOR) with (@Ok bool false).
  change (logging.wanted 1 3 logging.ALL_SENSOR) with (@Ok bool false).
  change (logging.wanted 2 0 logging.ALL_OUTPUT) with (@Ok bool false).
  change (logging.wanted 2 1 logging.ALL_OUTPUT) with (@Ok bool false).
  change (logging.wanted 2 2 logging.ALL_OUTPUT) with (@Ok bool false).
  change (logging.wanted 2 3 logging.ALL_OUTPUT) with (@Ok bool false).
  cbv beta iota.
  cbn [logging.subscript item nth_error logging.is_zero].
  generalize (Z.land (nth 24 d0 0) 1)
    (Z.shiftr (Z.land (nth 24 d0 0) 2) 1)
    (Z.shiftr (Z.land (nth 24 d0 0) 4) 2)
    (Z.shiftr (Z.land (nth 24 d0 0) 8) 3).
  intros b0 b1 b2 b3.
  cbn [filter temperature_fields temperature_requests].
  destruct (b0 =? 0), (b1 =? 0), (b2 =? 0), (b3 =? 0);
    cbn [length]; intros Hlen; explode ds Hlen;
    repeat match goal with
    | H : Forall _ (_ :: _) |- _ =>
        let A := fresh "A" in
        let U := fresh "U" in
        apply Forall_cons_iff in H; destruct H as [[A U] H]
    end;
    cbv beta iota;
    repeat read_temperature;
    cbn [fst snd logging.subscript item nth_error map app sent rcvd wire_in
         exchanged log_sent log_rcvd];
    rewrite <- ?app_assoc; repeat split; reflexivity.
Qed.


(** X23: when the reply for a connected channel carries a unit byte other
    than 0x01 and 0x02, the [UnboundLocalError] of
    [channel_temperature_read] ends [string]: no line is returned, after
    the status request and the temperature request were sent and both
    replies consumed. *)
Theorem log_line_lost_on_unknown_unit (w : world) (d0 d1 : bytes)
    (later : list (option bytes)) :
  session_open w ->
  length d0 = 34%nat ->
  length d1 = 34%nat ->
  wire_in w = Some d0 :: Some d1 :: later ->
  Z.land (nth 24 d0 0) 1 = 0 ->
  unit_name (nth 20 d1 0) = None ->
  logging.string py_str w
  = (Raise UnboundLocalError,
     exchanged (exchanged w (header w ++ [0x5A]) d0 (Some d1 :: later))
       (header w ++ [0x50; 0; 0; 0; 0]) d1 later).
Proof.
  intros Hopen Hl0 Hl1 Hin Hbit Hunit.
  unfold logging.string. cbv [bind].
  rewrite (status_read_run w d0 _ Hopen Hin Hl0). cbv beta iota.
  unfold unpack_bits. cbn [map fst]. cbv [lift logging.len].
  cbn [length map seq for_each]. cbv [bind lift ret].
  change (logging.wanted 0 0 logging.ALL_TEMP) with (@Ok bool true).
  cbv beta iota.
  cbn [logging.subscript item nth_error logging.is_zero].
  rewrite Hbit. cbn [Z.eqb]. cbv beta iota.
  rewrite (temperature_read_run (Z.of_nat 0) _ d1 later ltac:(lia)
             (exchanged_open _ _ _ _ Hopen) eq_refl Hl1).
  rewrite Hunit. reflexivity.
Qed.

End Script.

Lemma log_line_reads_connected_channels_witness :
  fst (logging.string (fun _ => "8.0")
         (sample_session
            [Some (frame [(24%nat, 14); (32%nat, 99)]);
             Some (frame [(7%nat, 65); (20%nat, 1); (32%nat, 99)])]))
  = Ok (String.append logging.SEPARATOR
          (String.append "8.0"
             (String.append logging.SEPARATOR
                (String.append "NaN"
                   (String.append logging.SEPARATOR
                      (String.append "NaN"
                         (String.append logging.SEPARATOR "NaN")))))))
  /\ length (sent (snd (logging.string (fun _ => "8.0")
                          (sample_session
                             [Some (frame [(24%nat, 14); (32%nat, 99)]);
                              Some (frame [(7%nat, 65); (20%nat, 1);
                                           (32%nat, 99)])]))))
     = 2%nat.
Proof.
  assert (H : Forall
                (fun d => length d = 34%nat /\ unit_name (nth 20 d 0) <> None)
                [frame [(7%nat, 65); (20%nat, 1); (32%nat, 99)]]).
  { apply Forall_cons; [|apply Forall_nil].
    split; [reflexivity | discriminate]. }
  pose proof (log_line_reads_connected_channels (fun _ => "8.0")
                (sample_session
                   [Some (frame [(24%nat, 14); (32%nat, 99)]);
                    Some (frame [(7%nat, 65); (20%nat, 1); (32%nat, 99)])])
                (frame [(24%nat, 14); (32%nat, 99)])
                [frame [(7%nat, 65); (20%nat, 1); (32%nat, 99)]] []
                (sample_session_open _) eq_refl eq_refl eq_refl H)
    as (A & B & _).
  split; [exact A | rewrite B; reflexivity].
Defined.

Lemma log_line_lost_on_unknown_unit_witness :
  fst (logging.string (fun _ => "8.0")
         (sample_session
            [Some (frame [(24%nat, 14); (32%nat, 99)]);
             Some (frame [(7%nat, 65); (32%nat, 99)])]))
  = Raise UnboundLocalError.
Proof.
  exact (f_equal fst
           (log_line_lost_on_unknown_unit (fun _ => "8.0")
              (sample_session
                 [Some (frame [(24%nat, 14); (32%nat, 99)]);
                  Some (frame [(7%nat, 65); (32%nat, 99)])])
              (frame [(24%nat, 14); (32%nat, 99)])
              (frame [(7%nat, 65); (32%nat, 99)]) []
              (sample_session_open _) eq_refl eq_refl eq_refl
              eq_refl eq_refl)).
Defined.

